(** * Source acquisition of cli/download_source.go

    A shallow embedding of [downloadTerraformSource],
    [downloadTerraformSourceIfNecessary], [alreadyHaveLatestCode],
    [copyFiles], [downloadSource] and [getTerraformSourceUrl].

    The Go functions thread a filesystem, a heap of options structs and
    the maps of the go-getter library through their calls. Here a Go
    function that returns [error] is a computation [M unit], one that
    returns [(T, error)] is [M T]; [if err != nil { return err }] is the
    bind of [M]. Every call that leaves the file for the operating system,
    the network or another package is recorded, with its result, in the
    trace of the state, in the order the calls are made.

    [Logger.Printf] only writes to the log and is left out. *)

From Stdlib Require Import String Ascii List Bool Arith Lia.
From stdpp Require Import base option list gmap strings sorting.

Local Open Scope string_scope.
Local Open Scope list_scope.
Local Open Scope nat_scope.

(** ** Values shared with the other packages *)

Module errors.

(** An error value. [WithStackTrace] is errors.WithStackTrace: it wraps
    the cause and keeps it retrievable. *)
Inductive error : Type :=
| Errno (msg : string)
| WithStackTrace (cause : error).

Fixpoint cause (e : error) : error :=
  match e with
  | Errno _ => e
  | WithStackTrace e' => cause e'
  end.

End errors.
Export errors.

Definition result (A : Type) : Type := (error + A)%type.

Module config.

(** config.TerraformSource. [CanonicalSourceURL] is kept in its rendered
    form ([url.URL.String()]). *)
Record TerraformSource : Type := {
  CanonicalSourceURL : string;
  DownloadDir : string;
  WorkingDir : string;
  VersionFile : string
}.

Record TerraformConfig : Type := {
  Source : option string
}.

(** config.TerragruntConfig: only the [Terraform] block is read here; the
    hooks it declares are looked up by the hook engine. *)
Record TerragruntConfig : Type := {
  Terraform : option TerraformConfig
}.

End config.

Module options.

(** options.TerragruntOptions, the fields this file reads or writes. *)
Record TerragruntOptions : Type := {
  TerragruntConfigPath : string;
  TerraformCommand : string;
  WorkingDir : string;
  Source : string;
  SourceUpdate : bool
}.

Definition set_TerraformCommand (o : TerragruntOptions) (c : string) :=
  {| TerragruntConfigPath := TerragruntConfigPath o;
     TerraformCommand := c;
     WorkingDir := WorkingDir o;
     Source := Source o;
     SourceUpdate := SourceUpdate o |}.

Definition set_WorkingDir (o : TerragruntOptions) (d : string) :=
  {| TerragruntConfigPath := TerragruntConfigPath o;
     TerraformCommand := TerraformCommand o;
     WorkingDir := d;
     Source := Source o;
     SourceUpdate := SourceUpdate o |}.

End options.

Module getter.

(** The backends of go-getter, and the copying backend of this package
    ([FileCopyGetter]) that [copyFiles] registers under "file". *)
Inductive Getter : Type :=
| FileGetter | GitGetter | GCSGetter | HgGetter | S3Getter | HttpGetter
| FileCopyGetter.

(** getter.Client: [Getters] holds a map reference, [None] is the nil
    map. *)
Record Client : Type := {
  Getters : option nat
}.

End getter.

Import config options getter.

(** const MODULE_MANIFEST_NAME *)
Definition MODULE_MANIFEST_NAME : string := ".terragrunt-module-manifest".

(** const CMD_INIT_FROM_MODULE, declared in another file of package cli;
    the comment at line 64 names the command the hooks wait on. *)
Definition CMD_INIT_FROM_MODULE : string := "init-from-module".

Inductive HookPhase : Type := BeforeHooks | AfterHooks.

(** ** The calls that leave this file *)

Inductive Event : Type :=
| EvRemoveAll (path : string) (r : result unit)
| EvFileExists (path : string) (r : bool)
| EvGlob (pattern : string) (r : result (list string))
| EvReadVersionFile (src : TerraformSource) (r : result string)
| EvProcessHooks (ph : HookPhase) (o : TerragruntOptions) (r : result unit)
| EvFetch (dst src : string) (getters : gmap string Getter) (r : result unit)
| EvWriteVersionFile (src : TerraformSource) (r : result unit)
| EvCopyFolderContents (from to manifest : string) (r : result unit).

(** What the file takes from its surroundings: a world [W] (filesystem,
    network, whatever the hooks touch) and the operations on it. None of
    them is constrained here; a theorem that needs a property of one of
    them states it. *)
Record Env : Type := {
  W : Type;
  (* package config *)
  config_ProcessTerraformSource : string -> TerragruntOptions -> result TerraformSource;
  config_IsLocalSource : string -> bool;
  config_EncodeSourceVersion : string -> string;
  config_ReadVersionFile : TerraformSource -> W -> result string;
  config_WriteVersionFile : TerraformSource -> W -> W * result unit;
  (* package options: the value of the struct that Clone allocates *)
  options_Clone : TerragruntOptions -> string -> TerragruntOptions;
  (* package util *)
  util_FileExists : string -> W -> bool;
  util_CopyFolderContents : string -> string -> string -> W -> W * result unit;
  (* os and path/filepath *)
  os_RemoveAll : string -> W -> W * result unit;
  filepath_Glob : string -> W -> result (list string);
  (* the hook engine of package cli: one phase of hooks run against an
     options value *)
  cli_processHooks : HookPhase -> TerragruntOptions -> TerragruntConfig -> W -> W * result unit;
  (* go-getter: the transfer itself, with the backends it may use *)
  getter_fetch : string -> string -> gmap string Getter -> W -> W * result unit
}.

(** ** State, outcomes and the monad *)

(** How a call of a Go function ends: with a value, with an error, or in
    a panic (a nil pointer or a nil map). *)
Inductive outcome (A : Type) : Type :=
| Ok (a : A)
| Err (e : error)
| Panic.
Arguments Ok {A} a.
Arguments Err {A} e.
Arguments Panic {A}.

Section Monad.

Context {E : Env}.

(** [opts] is the heap of options structs ([*TerragruntOptions] is an
    index into it), [maps] the heap of Go maps, [getter_Getters] the map
    reference held by the package variable getter.Getters. *)
Record State : Type := {
  world : W E;
  opts : list TerragruntOptions;
  maps : list (gmap string Getter);
  getter_Getters : option nat;
  trace : list Event
}.

Definition M (A : Type) : Type := State -> State * outcome A.

Definition ret {A} (a : A) : M A := fun s => (s, Ok a).

Definition bind {A B} (m : M A) (f : A -> M B) : M B :=
  fun s =>
    match m s with
    | (s', Ok a) => f a s'
    | (s', Err e) => (s', Err e)
    | (s', Panic) => (s', Panic)
    end.

Definition raise {A} (e : error) : M A := fun s => (s, Err e).

(** [return errors.WithStackTrace(err)] around a call. *)
Definition with_stack_trace {A} (m : M A) : M A :=
  fun s =>
    match m s with
    | (s', Err e) => (s', Err (WithStackTrace e))
    | r => r
    end.

Definition of_result {A} (r : result A) : outcome A :=
  match r with
  | inl e => Err e
  | inr a => Ok a
  end.

(** A call that may change the world. *)
Definition call {A} (ev : result A -> Event) (f : W E -> W E * result A) : M A :=
  fun s =>
    let '(w', r) := f (world s) in
    ({| world := w'; opts := opts s; maps := maps s;
        getter_Getters := getter_Getters s;
        trace := trace s ++ [ev r] |}, of_result r).

(** A call that only reads the world. *)
Definition query {A} (ev : result A -> Event) (f : W E -> result A) : M A :=
  call ev (fun w => (w, f w)).

Definition test (ev : bool -> Event) (f : W E -> bool) : M bool :=
  fun s =>
    let b := f (world s) in
    ({| world := world s; opts := opts s; maps := maps s;
        getter_Getters := getter_Getters s;
        trace := trace s ++ [ev b] |}, Ok b).

(** *** Options structs behind pointers *)

Definition deref (p : nat) : M TerragruntOptions :=
  fun s =>
    match opts s !! p with
    | Some o => (s, Ok o)
    | None => (s, Panic)
    end.

Definition assign (p : nat) (f : TerragruntOptions -> TerragruntOptions) : M unit :=
  fun s =>
    match opts s !! p with
    | Some o =>
        ({| world := world s; opts := <[p := f o]> (opts s); maps := maps s;
            getter_Getters := getter_Getters s; trace := trace s |}, Ok tt)
    | None => (s, Panic)
    end.

Definition new_options (o : TerragruntOptions) : M nat :=
  fun s =>
    ({| world := world s; opts := opts s ++ [o]; maps := maps s;
        getter_Getters := getter_Getters s; trace := trace s |},
     Ok (List.length (opts s))).

(** *** Go maps behind references *)

(** [map[string]getter.Getter{}] *)
Definition new_map : M nat :=
  fun s =>
    ({| world := world s; opts := opts s; maps := maps s ++ [∅];
        getter_Getters := getter_Getters s; trace := trace s |},
     Ok (List.length (maps s))).

(** Reading a map; the nil map reads as the empty one. *)
Definition map_contents (s : State) (r : option nat) : gmap string Getter :=
  match r with
  | Some a => default ∅ (maps s !! a)
  | None => ∅
  end.

(** [m[k] = v]; storing into the nil map panics. *)
Definition map_store (r : option nat) (k : string) (v : Getter) : M unit :=
  fun s =>
    match r with
    | Some a =>
        match maps s !! a with
        | Some m =>
            ({| world := world s; opts := opts s;
                maps := <[a := <[k := v]> m]> (maps s);
                getter_Getters := getter_Getters s; trace := trace s |}, Ok tt)
        | None => (s, Panic)
        end
    | None => (s, Panic)
    end.

End Monad.

Arguments State E : clear implicits.
Arguments M E A : clear implicits.

Notation "'let*' x ':=' m 'in' k" := (bind m (fun x => k))
  (at level 10, x name, m at level 100, k at level 200).


(** ** The functions of download_source.go *)

Section Source.

Context {E : Env}.

(** [alreadyHaveLatestCode], lines 88-115. The [||] of Go evaluates its
    operands from left to right and stops at the first that is true. *)
Definition alreadyHaveLatestCode (terraformSource : TerraformSource)
    (terragruntOptions : nat) : M E bool :=
  if config_IsLocalSource E (CanonicalSourceURL terraformSource) then ret false else
  let* downloadDirExists :=
    test (EvFileExists (DownloadDir terraformSource))
         (util_FileExists E (DownloadDir terraformSource)) in
  if negb downloadDirExists then ret false else
  let* workingDirExists :=
    test (EvFileExists (config.WorkingDir terraformSource))
         (util_FileExists E (config.WorkingDir terraformSource)) in
  if negb workingDirExists then ret false else
  let* versionFileExists :=
    test (EvFileExists (VersionFile terraformSource))
         (util_FileExists E (VersionFile terraformSource)) in
  if negb versionFileExists then ret false else
  let pattern := config.WorkingDir terraformSource +:+ "/*.tf" in
  let* tfFiles :=
    with_stack_trace (query (EvGlob pattern) (filepath_Glob E pattern)) in
  if Nat.eqb (List.length tfFiles) 0 then ret false else
  let currentVersion :=
    config_EncodeSourceVersion E (CanonicalSourceURL terraformSource) in
  let* previousVersion :=
    query (EvReadVersionFile terraformSource)
          (config_ReadVersionFile E terraformSource) in
  ret (String.eqb previousVersion currentVersion).

(** [copyFiles], lines 118-133. The loop ranges over the entries of
    getter.Getters; Go leaves the order open, and the keys of a map are
    distinct, so the order of [map_fold] serves. *)
Definition copyFiles (client : Client) : M E Client :=
  let* fresh := new_map in
  let client := {| Getters := Some fresh |} in
  let* _ :=
    (fun s =>
       map_fold
         (fun getterName getterValue (acc : M E unit) =>
            let* _ := acc in
            if String.eqb getterName "file"
            then map_store (Getters client) getterName FileCopyGetter
            else map_store (Getters client) getterName getterValue)
         (ret tt)
         (map_contents s (getter_Getters s)) s) in
  ret client.

(** go-getter's [GetAny(dst, src, opts...)]: it builds a Client, applies
    the options to it and runs [Client.Get], which takes its backend from
    [Client.Getters]. *)
Definition getter_GetAny (dst src : string) (opt : Client -> M E Client) : M E unit :=
  let* client := opt {| Getters := None |} in
  fun s =>
    call (EvFetch dst src (map_contents s (Getters client)))
         (getter_fetch E dst src (map_contents s (Getters client))) s.

(** [downloadSource], lines 136-144. *)
Definition downloadSource (terraformSource : TerraformSource)
    (terragruntOptions : nat) (terragruntConfig : TerragruntConfig) : M E unit :=
  with_stack_trace
    (getter_GetAny (DownloadDir terraformSource)
                   (CanonicalSourceURL terraformSource) copyFiles).

(** Modelled from the spec: [runActionWithHooks] is in another file of
    package cli. Sections 4.4 and 6 of the specification give its
    contract: the before hooks run against the options it is given, then
    the action, then the after hooks, and a failure of any of the three
    aborts and is the error returned. *)
Definition runActionWithHooks (description : string) (terragruntOptions : nat)
    (terragruntConfig : TerragruntConfig) (action : M E unit) : M E unit :=
  let* o := deref terragruntOptions in
  let* _ := call (EvProcessHooks BeforeHooks o)
                 (cli_processHooks E BeforeHooks o terragruntConfig) in
  let* _ := action in
  let* o := deref terragruntOptions in
  call (EvProcessHooks AfterHooks o)
       (cli_processHooks E AfterHooks o terragruntConfig).

(** [terragruntOptions.Clone(path)]: a new struct on the heap. *)
Definition Clone (terragruntOptions : nat) (terragruntConfigPath : string) : M E nat :=
  let* o := deref terragruntOptions in
  new_options (options_Clone E o terragruntConfigPath).

(** [downloadTerraformSourceIfNecessary], lines 46-82. *)
Definition downloadTerraformSourceIfNecessary (terraformSource : TerraformSource)
    (terragruntOptions : nat) (terragruntConfig : TerragruntConfig) : M E unit :=
  let* o := deref terragruntOptions in
  let* _ :=
    if SourceUpdate o
    then with_stack_trace
           (call (EvRemoveAll (DownloadDir terraformSource))
                 (os_RemoveAll E (DownloadDir terraformSource)))
    else ret tt in
  let* alreadyLatest := alreadyHaveLatestCode terraformSource terragruntOptions in
  if alreadyLatest then ret tt else
  let* o := deref terragruntOptions in
  let* terragruntOptionsForDownload :=
    Clone terragruntOptions (TerragruntConfigPath o) in
  let* _ := assign terragruntOptionsForDownload
                   (fun c => set_TerraformCommand c CMD_INIT_FROM_MODULE) in
  let* _ :=
    runActionWithHooks "download source" terragruntOptionsForDownload terragruntConfig
      (downloadSource terraformSource terragruntOptions terragruntConfig) in
  call (EvWriteVersionFile terraformSource)
       (config_WriteVersionFile E terraformSource).

(** [downloadTerraformSource], lines 24-43. *)
Definition downloadTerraformSource (source : string) (terragruntOptions : nat)
    (terragruntConfig : TerragruntConfig) : M E unit :=
  let* o := deref terragruntOptions in
  let* terraformSource :=
    (fun s => (s, of_result (config_ProcessTerraformSource E source o))) in
  let* _ :=
    downloadTerraformSourceIfNecessary terraformSource terragruntOptions
                                       terragruntConfig in
  let* o := deref terragruntOptions in
  let* _ :=
    call (EvCopyFolderContents (options.WorkingDir o)
                               (config.WorkingDir terraformSource)
                               MODULE_MANIFEST_NAME)
         (util_CopyFolderContents E (options.WorkingDir o)
                                  (config.WorkingDir terraformSource)
                                  MODULE_MANIFEST_NAME) in
  assign terragruntOptions
         (fun o => set_WorkingDir o (config.WorkingDir terraformSource)).

(** [getTerraformSourceUrl], lines 149-157. *)
Definition getTerraformSourceUrl (terragruntOptions : nat)
    (terragruntConfig : TerragruntConfig) : M E string :=
  let* o := deref terragruntOptions in
  if negb (String.eqb (options.Source o) "") then ret (options.Source o)
  else match Terraform terragruntConfig with
       | Some tf =>
           match config.Source tf with
           | Some src => ret src
           | None => ret ""
           end
       | None => ret ""
       end.

End Source.

(** The cache oracle of the specification, section 4.2: the negation of
    [alreadyHaveLatestCode]. *)
Definition shouldFetch {E : Env} (terraformSource : TerraformSource)
    (terragruntOptions : nat) : M E bool :=
  let* alreadyLatest := alreadyHaveLatestCode terraformSource terragruntOptions in
  ret (negb alreadyLatest).

(** ** Reading traces *)

Definition is_cache_check (e : Event) : bool :=
  match e with
  | EvFileExists _ _ | EvGlob _ _ | EvReadVersionFile _ _ => true
  | _ => false
  end.

Definition is_removal (e : Event) : bool :=
  match e with EvRemoveAll _ _ => true | _ => false end.

(** The hook-wrapped fetch: the hooks and the transfer between them. *)
Definition is_fetch (e : Event) : bool :=
  match e with
  | EvProcessHooks _ _ _ | EvFetch _ _ _ _ => true
  | _ => false
  end.

Definition is_backend_call (e : Event) : bool :=
  match e with EvFetch _ _ _ _ => true | _ => false end.

Definition is_marker_write (e : Event) : bool :=
  match e with EvWriteVersionFile _ _ => true | _ => false end.

Definition is_overlay (e : Event) : bool :=
  match e with EvCopyFolderContents _ _ _ _ => true | _ => false end.

(** Every [P] event of the trace comes strictly before every [Q] event. *)
Definition precedes (P Q : Event -> bool) (tr : list Event) : Prop :=
  forall i j e1 e2,
    tr !! i = Some e1 -> tr !! j = Some e2 ->
    P e1 = true -> Q e2 = true -> i < j.

(** The stage of an acquisition a call belongs to: removal of the cache,
    cache check, hook-wrapped fetch, marker write, overlay. *)
Definition phase (e : Event) : nat :=
  match e with
  | EvRemoveAll _ _ => 0
  | EvFileExists _ _ | EvGlob _ _ | EvReadVersionFile _ _ => 1
  | EvProcessHooks _ _ _ | EvFetch _ _ _ _ => 2
  | EvWriteVersionFile _ _ => 3
  | EvCopyFolderContents _ _ _ _ => 4
  end.

(** No call of a later stage comes before a call of an earlier one. *)
Definition in_phase_order (tr : list Event) : Prop :=
  StronglySorted (fun e1 e2 => phase e1 <= phase e2) tr.

Definition quiet (ev : Event) : Prop :=
  is_marker_write ev = false /\ is_overlay ev = false.

(** A failed hook or a failed transfer is the outcome of the run, and a
    run that saw one neither wrote the marker nor called the overlay. *)
Definition failure_aborts (tr : list Event) (r : outcome unit) : Prop :=
  (forall ph o' e, EvProcessHooks ph o' (inl e) ∈ tr ->
     r = Err e /\ Forall quiet tr) /\
  (forall d u g e, EvFetch d u g (inl e) ∈ tr ->
     r = Err (WithStackTrace e) /\ Forall quiet tr).

(** The marker is written only after hooks and transfer went through. *)
Definition marker_after_fetch (src : TerraformSource) (tr : list Event) : Prop :=
  forall src' res, EvWriteVersionFile src' res ∈ tr ->
    exists g, EvFetch (DownloadDir src) (CanonicalSourceURL src) g (inr tt) ∈ tr.

(** The part of the state that is not the trace. *)
Definition same_store {E : Env} (s s' : State E) : Prop :=
  world s' = world s /\ opts s' = opts s /\ maps s' = maps s /\
  getter_Getters s' = getter_Getters s.

(** ** The registry of fetch backends *)

(** The default backends with the one under "file" replaced. *)
Definition with_file_copy (defaults : gmap string Getter) : gmap string Getter :=
  map_imap
    (fun name g => Some (if String.eqb name "file" then FileCopyGetter else g))
    defaults.

(** The registry a call of [copyFiles] builds when the map heap is [ms]
    and getter.Getters holds [gg]: the map is allocated first, then the
    default one is ranged over. *)
Definition registry_of (ms : list (gmap string Getter)) (gg : option nat) :
    gmap string Getter :=
  with_file_copy
    match gg with
    | Some a => default ∅ ((ms ++ [∅]) !! a)
    | None => ∅
    end.

(** ** The fetch path *)

Section FetchPath.

Context {E : Env}.

(** Lines 67-81 of [downloadTerraformSourceIfNecessary]: what is left to
    do once the cache check has answered false. *)
Definition fetch_path (terraformSource : TerraformSource)
    (terragruntOptions : nat) (terragruntConfig : TerragruntConfig) : M E unit :=
  let* o := deref terragruntOptions in
  let* terragruntOptionsForDownload :=
    Clone terragruntOptions (TerragruntConfigPath o) in
  let* _ := assign terragruntOptionsForDownload
                   (fun c => set_TerraformCommand c CMD_INIT_FROM_MODULE) in
  let* _ :=
    runActionWithHooks "download source" terragruntOptionsForDownload terragruntConfig
      (downloadSource terraformSource terragruntOptions terragruntConfig) in
  call (EvWriteVersionFile terraformSource)
       (config_WriteVersionFile E terraformSource).

(** The options the hooks of the download run against, for a caller whose
    options are [o]. *)
Definition download_options (o : TerragruntOptions) : TerragruntOptions :=
  set_TerraformCommand (options_Clone E o (TerragruntConfigPath o))
                       CMD_INIT_FROM_MODULE.

(** The runs of the fetch path as a relation: from the world [w], with the
    hooks run against [oc] and the backends [g], the calls made, the
    outcome and the world left behind. *)
Inductive fetch_steps (src : TerraformSource) (cfg : TerragruntConfig)
    (oc : TerragruntOptions) (g : gmap string Getter) :
    W E -> list Event -> outcome unit -> W E -> Prop :=
| fetch_before_hooks_fail w w1 e :
    cli_processHooks E BeforeHooks oc cfg w = (w1, inl e) ->
    fetch_steps src cfg oc g w
      [EvProcessHooks BeforeHooks oc (inl e)]
      (Err e) w1
| fetch_transfer_fails w w1 w2 e :
    cli_processHooks E BeforeHooks oc cfg w = (w1, inr tt) ->
    getter_fetch E (DownloadDir src) (CanonicalSourceURL src) g w1 = (w2, inl e) ->
    fetch_steps src cfg oc g w
      [EvProcessHooks BeforeHooks oc (inr tt);
       EvFetch (DownloadDir src) (CanonicalSourceURL src) g (inl e)]
      (Err (WithStackTrace e)) w2
| fetch_after_hooks_fail w w1 w2 w3 e :
    cli_processHooks E BeforeHooks oc cfg w = (w1, inr tt) ->
    getter_fetch E (DownloadDir src) (CanonicalSourceURL src) g w1 = (w2, inr tt) ->
    cli_processHooks E AfterHooks oc cfg w2 = (w3, inl e) ->
    fetch_steps src cfg oc g w
      [EvProcessHooks BeforeHooks oc (inr tt);
       EvFetch (DownloadDir src) (CanonicalSourceURL src) g (inr tt);
       EvProcessHooks AfterHooks oc (inl e)]
      (Err e) w3
| fetch_then_marker w w1 w2 w3 w4 r :
    cli_processHooks E BeforeHooks oc cfg w = (w1, inr tt) ->
    getter_fetch E (DownloadDir src) (CanonicalSourceURL src) g w1 = (w2, inr tt) ->
    cli_processHooks E AfterHooks oc cfg w2 = (w3, inr tt) ->
    config_WriteVersionFile E src w3 = (w4, r) ->
    fetch_steps src cfg oc g w
      [EvProcessHooks BeforeHooks oc (inr tt);
       EvFetch (DownloadDir src) (CanonicalSourceURL src) g (inr tt);
       EvProcessHooks AfterHooks oc (inr tt);
       EvWriteVersionFile src r]
      (of_result r) w4.

(** The runs of [downloadTerraformSourceIfNecessary] by the calls they
    make: the removal of the download directory fails; or it is not asked
    for or succeeds ([pre]), the cache check follows ([cc]) and ends in an
    error, or answers true and nothing is fetched, or answers false and
    the fetch path is taken. *)
Inductive necessary_steps (src : TerraformSource) (cfg : TerragruntConfig)
    (oc : TerragruntOptions) : list Event -> outcome unit -> Prop :=
| necessary_removal_fails e :
    necessary_steps src cfg oc
      [EvRemoveAll (DownloadDir src) (inl e)] (Err (WithStackTrace e))
| necessary_check_fails pre cc e :
    pre = [] \/ pre = [EvRemoveAll (DownloadDir src) (inr tt)] ->
    forallb is_cache_check cc = true ->
    necessary_steps src cfg oc (pre ++ cc) (Err e)
| necessary_skip pre cc :
    pre = [] \/ pre = [EvRemoveAll (DownloadDir src) (inr tt)] ->
    forallb is_cache_check cc = true ->
    necessary_steps src cfg oc (pre ++ cc) (Ok tt)
| necessary_fetch pre cc g w post r w' :
    pre = [] \/ pre = [EvRemoveAll (DownloadDir src) (inr tt)] ->
    forallb is_cache_check cc = true ->
    fetch_steps src cfg oc g w post r w' ->
    necessary_steps src cfg oc (pre ++ cc ++ post) r.

(** The runs of [downloadTerraformSource] once the source is resolved:
    the overlay is called when, and only when, what comes before it
    returned without error. *)
Inductive acquisition_steps (src : TerraformSource) (cfg : TerragruntConfig)
    (o oc : TerragruntOptions) : list Event -> outcome unit -> Prop :=
| acquisition_aborts tr e :
    necessary_steps src cfg oc tr (Err e) ->
    acquisition_steps src cfg o oc tr (Err e)
| acquisition_overlays tr r :
    necessary_steps src cfg oc tr (Ok tt) ->
    acquisition_steps src cfg o oc
      (tr ++ [EvCopyFolderContents (options.WorkingDir o) (config.WorkingDir src)
                MODULE_MANIFEST_NAME r])
      (of_result r).

(** The state in which the cache check runs: the one left by the removal
    of the download directory when the update is forced. *)
Definition after_forced_removal (o : TerragruntOptions) (src : TerraformSource)
    (s : State E) : State E :=
  if SourceUpdate o
  then {| world := (os_RemoveAll E (DownloadDir src) (world s)).1;
          opts := opts s; maps := maps s;
          getter_Getters := getter_Getters s;
          trace := trace s ++
                   [EvRemoveAll (DownloadDir src)
                      (os_RemoveAll E (DownloadDir src) (world s)).2] |}
  else s.

(** The cache check ends in an error [e] in the world [w]: the glob fails,
    or the marker is there and cannot be read. *)
Definition cache_check_fails (src : TerraformSource) (w : W E) (e : error) : Prop :=
  config_IsLocalSource E (CanonicalSourceURL src) = false /\
  util_FileExists E (DownloadDir src) w = true /\
  util_FileExists E (config.WorkingDir src) w = true /\
  util_FileExists E (VersionFile src) w = true /\
  ((exists e0, filepath_Glob E (config.WorkingDir src +:+ "/*.tf") w = inl e0 /\
               e = WithStackTrace e0) \/
   (exists tfFiles, filepath_Glob E (config.WorkingDir src +:+ "/*.tf") w = inr tfFiles /\
                    tfFiles <> [] /\
                    config_ReadVersionFile E src w = inl e)).

(** The cache is valid for [src] in the world [w]: the conditions under
    which [alreadyHaveLatestCode] answers true. *)
Definition cache_valid (src : TerraformSource) (w : W E) : Prop :=
  config_IsLocalSource E (CanonicalSourceURL src) = false /\
  util_FileExists E (DownloadDir src) w = true /\
  util_FileExists E (config.WorkingDir src) w = true /\
  util_FileExists E (VersionFile src) w = true /\
  (exists tfFiles, filepath_Glob E (config.WorkingDir src +:+ "/*.tf") w = inr tfFiles /\
                   tfFiles <> []) /\
  config_ReadVersionFile E src w =
    inr (config_EncodeSourceVersion E (CanonicalSourceURL src)).

End FetchPath.

Arguments download_options E o : clear implicits.
Arguments necessary_steps E src cfg oc _ _ : clear implicits.
Arguments acquisition_steps E src cfg o oc _ _ : clear implicits.

(** os.RemoveAll leaves nothing at the path it removed. *)
Definition RemoveAll_removes (E : Env) : Prop :=
  forall path w w',
    os_RemoveAll E path w = (w', inr tt) -> util_FileExists E path w' = false.

(** ** An in-memory filesystem

    Paths are strings, compared as written: the model has no symbolic
    links, no current directory and no [.] or [..] inside a path. *)

Inductive Node : Type :=
| File (content : string)
| Dir.

Fixpoint strip_prefix (p s : string) : option string :=
  match p with
  | EmptyString => Some s
  | String c p' =>
      match s with
      | String d s' => if Ascii.eqb c d then strip_prefix p' s' else None
      | EmptyString => None
      end
  end.

Fixpoint contains (c : ascii) (s : string) : bool :=
  match s with
  | EmptyString => false
  | String d s' => Ascii.eqb c d || contains c s'
  end.

Fixpoint ends_with_slash (s : string) : bool :=
  match s with
  | EmptyString => false
  | String c EmptyString => Ascii.eqb c "/"
  | String _ s' => ends_with_slash s'
  end.

Fixpoint chop_last (s : string) : string :=
  match s with
  | EmptyString => EmptyString
  | String _ EmptyString => EmptyString
  | String c s' => String c (chop_last s')
  end.

(** The package path/filepath of Go, after its documentation: the pattern
    syntax of [Match], and [Glob] with the steps of its implementation.
    Names are byte strings; [?] and a character class take one byte. *)
Module filepath.

Definition ErrBadPattern : error := Errno "syntax error in pattern".

Inductive term : Type :=
| TStar                                           (* '*' *)
| TAny                                            (* '?' *)
| TClass (negated : bool) (ranges : list (ascii * ascii))
| TLit (c : ascii).

Inductive pstate : Type :=
| PTop
| PEsc
| PClassStart
| PClassLo (negated : bool) (ranges : list (ascii * ascii))
| PClassLoEsc (negated : bool) (ranges : list (ascii * ascii))
| PClassAfterLo (negated : bool) (ranges : list (ascii * ascii)) (lo : ascii)
| PClassHi (negated : bool) (ranges : list (ascii * ascii)) (lo : ascii)
| PClassHiEsc (negated : bool) (ranges : list (ascii * ascii)) (lo : ascii).

(** One byte [c] read where a range of a class, or its closing bracket, is
    expected; [k] parses what follows in the state it is given. *)
Definition class_lo (negated : bool) (ranges : list (ascii * ascii)) (c : ascii)
    (k : pstate -> option (list term)) : option (list term) :=
  if Ascii.eqb c "]" then
    match ranges with
    | [] => None
    | _ => cons (TClass negated ranges) <$> k PTop
    end
  else if Ascii.eqb c "-" then None
  else if Ascii.eqb c "\" then k (PClassLoEsc negated ranges)
  else k (PClassAfterLo negated ranges c).

(** The terms of a pattern, [None] for a malformed one. *)
Fixpoint parse (st : pstate) (p : string) : option (list term) :=
  match p with
  | EmptyString =>
      match st with
      | PTop => Some []
      | _ => None
      end
  | String c r =>
      let k := fun st' => parse st' r in
      match st with
      | PTop =>
          if Ascii.eqb c "*" then cons TStar <$> k PTop
          else if Ascii.eqb c "?" then cons TAny <$> k PTop
          else if Ascii.eqb c "[" then k PClassStart
          else if Ascii.eqb c "\" then k PEsc
          else cons (TLit c) <$> k PTop
      | PEsc => cons (TLit c) <$> k PTop
      | PClassStart =>
          if Ascii.eqb c "^" then k (PClassLo true [])
          else class_lo false [] c k
      | PClassLo negated ranges => class_lo negated ranges c k
      | PClassLoEsc negated ranges => k (PClassAfterLo negated ranges c)
      | PClassAfterLo negated ranges lo =>
          if Ascii.eqb c "-" then k (PClassHi negated ranges lo)
          else class_lo negated (ranges ++ [(lo, lo)]) c k
      | PClassHi negated ranges lo =>
          if Ascii.eqb c "-" || Ascii.eqb c "]" then None
          else if Ascii.eqb c "\" then k (PClassHiEsc negated ranges lo)
          else k (PClassLo negated (ranges ++ [(lo, c)]))
      | PClassHiEsc negated ranges lo =>
          k (PClassLo negated (ranges ++ [(lo, c)]))
      end
  end.

Definition in_ranges (c : ascii) (ranges : list (ascii * ascii)) : bool :=
  existsb
    (fun '(lo, hi) =>
       (nat_of_ascii lo <=? nat_of_ascii c) && (nat_of_ascii c <=? nat_of_ascii hi))
    ranges.

(** ['*'] matches any sequence of non-separator bytes: [k] is tried on
    every suffix reached without crossing a separator. *)
Fixpoint star (k : string -> bool) (s : string) : bool :=
  k s ||
  match s with
  | EmptyString => false
  | String c s' => negb (Ascii.eqb c "/") && star k s'
  end.

Fixpoint match_terms (ts : list term) (s : string) : bool :=
  match ts with
  | [] => match s with EmptyString => true | _ => false end
  | TStar :: ts' => star (match_terms ts') s
  | TAny :: ts' =>
      match s with
      | String c s' => negb (Ascii.eqb c "/") && match_terms ts' s'
      | EmptyString => false
      end
  | TClass negated ranges :: ts' =>
      match s with
      | String c s' => negb (Bool.eqb (in_ranges c ranges) negated) && match_terms ts' s'
      | EmptyString => false
      end
  | TLit c' :: ts' =>
      match s with
      | String c s' => Ascii.eqb c' c && match_terms ts' s'
      | EmptyString => false
      end
  end.

(** [Match(pattern, name)]: the pattern must match all of the name. *)
Definition Match (pattern name : string) : result bool :=
  match parse PTop pattern with
  | None => inl ErrBadPattern
  | Some ts => inr (match_terms ts name)
  end.

(** [hasMeta]: whether the path contains one of the magic bytes. *)
Definition hasMeta (path : string) : bool :=
  contains "*" path || contains "?" path || contains "[" path || contains "\" path.

(** [Split]: the path up to and with its last separator, and the rest. *)
Fixpoint Split (path : string) : string * string :=
  match path with
  | EmptyString => (EmptyString, EmptyString)
  | String c r =>
      let '(dir, file) := Split r in
      match dir with
      | EmptyString =>
          if Ascii.eqb c "/" then (String c EmptyString, file)
          else (EmptyString, String c file)
      | _ => (String c dir, file)
      end
  end.

Definition cleanGlobPath (path : string) : string :=
  if String.eqb path "" then "."
  else if String.eqb path "/" then path
  else chop_last path.

(** What is put before a name to name it inside [dir]. *)
Definition dir_prefix (dir : string) : string :=
  if String.eqb dir "." then ""
  else if ends_with_slash dir then dir
  else dir +:+ "/".

(** [Join(dir, name)] for a clean [dir] and a name. *)
Definition Join (dir name : string) : string := dir_prefix dir +:+ name.

(** The name of [path] inside [dir], if it lies directly in it. *)
Definition child_name (dir path : string) : option string :=
  match strip_prefix (dir_prefix dir) path with
  | Some name =>
      if String.eqb name "" || contains "/" name then None else Some name
  | None => None
  end.

Definition str_le (a b : string) : Prop := String.leb a b = true.

#[local] Instance str_le_dec : RelDecision str_le.
Proof. intros a b. unfold str_le. apply _. Defined.

(** [Readdirnames] followed by [sort.Strings]. *)
Definition Readdirnames (dir : string) (fs : gmap string Node) : list string :=
  merge_sort str_le (omap (child_name dir) (map_to_list fs).*1).

(** [glob]: the entries of [dir] that match [pattern], appended to
    [matches]; a [dir] that is missing or no directory adds nothing. *)
Definition glob (dir pattern : string) (matches : list string)
    (fs : gmap string Node) : result (list string) :=
  match fs !! dir with
  | Some Dir =>
      foldl
        (fun (acc : result (list string)) n =>
           match acc with
           | inl e => inl e
           | inr m =>
               match Match pattern n with
               | inl e => inl e
               | inr true => inr (m ++ [Join dir n])
               | inr false => inr m
               end
           end)
        (inr matches) (Readdirnames dir fs)
  | _ => inr matches
  end.

Fixpoint Glob_rec (fuel : nat) (pattern : string) (fs : gmap string Node) :
    result (list string) :=
  match fuel with
  | 0 => inl ErrBadPattern
  | S fuel' =>
      if negb (hasMeta pattern) then
        match fs !! pattern with
        | Some _ => inr [pattern]
        | None => inr []
        end
      else
        let '(dir, file) := Split pattern in
        let dir := cleanGlobPath dir in
        if negb (hasMeta dir) then glob dir file [] fs
        else if String.eqb dir pattern then inl ErrBadPattern
        else
          match Glob_rec fuel' dir fs with
          | inl e => inl e
          | inr m =>
              foldl
                (fun (acc : result (list string)) d =>
                   match acc with
                   | inl e => inl e
                   | inr matches => glob d file matches fs
                   end)
                (inr []) m
          end
  end.

(** [Glob(pattern)]: a malformed pattern is refused before anything is
    looked up. Each level of the recursion works on a strictly shorter
    pattern, so the length of the pattern is fuel enough. *)
Definition Glob (pattern : string) (fs : gmap string Node) : result (list string) :=
  match parse PTop pattern with
  | None => inl ErrBadPattern
  | Some _ => Glob_rec (S (String.length pattern)) pattern fs
  end.

End filepath.

(** ** The surroundings over the in-memory filesystem

    The operations of [Env] on a world that is a map from paths to nodes.
    Resolution of a source, the fingerprint, the hooks and what the remote
    end serves stay parameters. *)
Module mem.

Record Params : Type := {
  resolve : string -> TerragruntOptions -> result TerraformSource;
  encode : string -> string;
  hooks : HookPhase -> TerragruntOptions -> TerragruntConfig ->
          gmap string Node -> gmap string Node * result unit;
  remote : string -> option (list (string * Node))
}.

Definition ENOENT : error := Errno "no such file or directory".
Definition EISDIR : error := Errno "is a directory".
Definition ENOTDIR : error := Errno "not a directory".
Definition EINVAL : error := Errno "invalid argument".

(** Modelled from the spec: util.FileExists is in package util; a path
    exists when [os.Stat] finds it, file or directory. The empty path
    names nothing. *)
Definition FileExists (path : string) (fs : gmap string Node) : bool :=
  negb (String.eqb path "") && bool_decide (is_Some (fs !! path)).

(** Modelled from the spec: config.IsLocalSource is in package config;
    section 4.5 of the specification has the classification made on the
    scheme of the reference, not on the filesystem. *)
Definition IsLocalSource (url : string) : bool := String.prefix "file://" url.

(** Modelled from the spec: TerraformSource.ReadVersionFile is in package
    config; the marker is read back as the string it holds. *)
Definition ReadVersionFile (src : TerraformSource) (fs : gmap string Node) :
    result string :=
  match fs !! VersionFile src with
  | Some (File content) => inr content
  | Some Dir => inl EISDIR
  | None => inl ENOENT
  end.

(** The directory a path lies in. *)
Definition parent (path : string) : string :=
  filepath.cleanGlobPath (filepath.Split path).1.

(** Modelled from the spec: TerraformSource.WriteVersionFile is in package
    config; it persists the current fingerprint to the marker file. *)
Definition WriteVersionFile (fingerprint : string -> string) (src : TerraformSource)
    (fs : gmap string Node) : gmap string Node * result unit :=
  match fs !! VersionFile src with
  | Some Dir => (fs, inl EISDIR)
  | _ =>
      match fs !! parent (VersionFile src) with
      | Some Dir =>
          (<[VersionFile src := File (fingerprint (CanonicalSourceURL src))]> fs,
           inr tt)
      | _ => (fs, inl ENOENT)
      end
  end.

(** Modelled from the spec: TerragruntOptions.Clone is in package options;
    the design notes of the specification have it copy the options value.
    The new struct takes the configuration path it is given. *)
Definition Clone (o : TerragruntOptions) (terragruntConfigPath : string) :
    TerragruntOptions :=
  {| TerragruntConfigPath := terragruntConfigPath;
     TerraformCommand := TerraformCommand o;
     options.WorkingDir := options.WorkingDir o;
     options.Source := options.Source o;
     SourceUpdate := SourceUpdate o |}.

Fixpoint has_suffix (suffix s : string) : bool :=
  String.eqb s suffix ||
  match s with
  | EmptyString => false
  | String _ s' => has_suffix suffix s'
  end.

(** [path] is [dir] or lies below it. *)
Definition under (dir path : string) : bool :=
  String.eqb path dir ||
  match strip_prefix (dir +:+ "/") path with
  | Some _ => true
  | None => false
  end.

(** os.RemoveAll: the path and all below it; the empty path removes
    nothing, and a path that ends in a dot is refused. *)
Definition RemoveAll (path : string) (fs : gmap string Node) :
    gmap string Node * result unit :=
  if String.eqb path "" then (fs, inr tt)
  else if String.eqb path "." || has_suffix "/." path then (fs, inl EINVAL)
  else (filter (fun kv => under path kv.1 = false) fs, inr tt).

(** Modelled from the spec: util.CopyFolderContents is in package util;
    section 6 of the specification has it copy the tree under [from] into
    [to], leaving out the file named [manifest]. The pruning of what an
    earlier run copied is not modelled. *)
Definition CopyFolderContents (from to manifest : string) (fs : gmap string Node) :
    gmap string Node * result unit :=
  match fs !! from, fs !! to with
  | Some Dir, Some (File _) => (fs, inl ENOTDIR)
  | Some Dir, _ =>
      (map_fold
         (fun path node acc =>
            match strip_prefix (from +:+ "/") path with
            | Some rel =>
                if String.eqb rel manifest then acc
                else <[to +:+ "/" +:+ rel := node]> acc
            | None => acc
            end)
         (<[to := Dir]> fs) fs,
       inr tt)
  | _, _ => (fs, inl ENOENT)
  end.

(** The overlay of [from] into [to] copies an entry of [fs] onto [path]. *)
Definition copied_onto (from to manifest : string) (fs : gmap string Node)
    (path : string) : bool :=
  match strip_prefix (to +:+ "/") path with
  | Some rel =>
      negb (String.eqb rel manifest) &&
      bool_decide (is_Some (fs !! (from +:+ "/" +:+ rel)))
  | None => false
  end.

(** The transfer: the tree served for the source is put below [dst]. *)
Definition fetch (served : string -> option (list (string * Node)))
    (dst src : string) (getters : gmap string Getter) (fs : gmap string Node) :
    gmap string Node * result unit :=
  match served src with
  | Some tree =>
      (foldr (fun '(rel, node) acc => <[dst +:+ "/" +:+ rel := node]> acc)
             (<[dst := Dir]> fs) tree,
       inr tt)
  | None => (fs, inl (Errno "error downloading"))
  end.

Definition env (P : Params) : Env :=
  {| W := gmap string Node;
     config_ProcessTerraformSource := resolve P;
     config_IsLocalSource := IsLocalSource;
     config_EncodeSourceVersion := encode P;
     config_ReadVersionFile := ReadVersionFile;
     config_WriteVersionFile := WriteVersionFile (encode P);
     options_Clone := Clone;
     util_FileExists := FileExists;
     util_CopyFolderContents := CopyFolderContents;
     os_RemoveAll := RemoveAll;
     filepath_Glob := filepath.Glob;
     cli_processHooks := hooks P;
     getter_fetch := fetch (remote P) |}.

End mem.

(** ** Contracts of the marker and of the overlay *)

(** A marker that was written reads back as the current fingerprint. *)
Definition marker_reads_back (E : Env) (src : TerraformSource) : Prop :=
  forall w w',
    config_WriteVersionFile E src w = (w', inr tt) ->
    config_ReadVersionFile E src w' =
      inr (config_EncodeSourceVersion E (CanonicalSourceURL src)).

(** The overlay of the caller's tree into the working directory leaves
    the marker as it is. *)
Definition overlay_keeps_marker (E : Env) (o : TerragruntOptions)
    (src : TerraformSource) : Prop :=
  forall w,
    config_ReadVersionFile E src
      (util_CopyFolderContents E (options.WorkingDir o) (config.WorkingDir src)
         MODULE_MANIFEST_NAME w).1
    = config_ReadVersionFile E src w.

(** ** A module, a cache and an operator's directory

    The data of the examples: one remote module, resolved to a download
    directory under [/cache], and an operator's directory [/live/app]. *)
Module scenario.

Definition url : string := "git::https://example/repo.git//mod?ref=v1".

Definition src : TerraformSource :=
  {| CanonicalSourceURL := url;
     DownloadDir := "/cache/k1";
     config.WorkingDir := "/cache/k1/mod";
     VersionFile := "/cache/k1/.terragrunt-source-version" |}.

Definition local_url : string := "file:///src/repo//mod".

Definition local_src : TerraformSource :=
  {| CanonicalSourceURL := local_url;
     DownloadDir := "/cache/k2";
     config.WorkingDir := "/cache/k2/mod";
     VersionFile := "/cache/k2/.terragrunt-source-version" |}.

Definition resolve (source : string) (o : TerragruntOptions) : result TerraformSource :=
  if String.eqb source url then inr src
  else if String.eqb source local_url then inr local_src
  else inl (Errno "malformed source").

Definition encode (u : string) : string := "sha1:" +:+ u.

Definition no_hooks (ph : HookPhase) (o : TerragruntOptions) (cfg : TerragruntConfig)
    (fs : gmap string Node) : gmap string Node * result unit :=
  (fs, inr tt).

(** A before hook of the download that fails. *)
Definition failing_hook (ph : HookPhase) (o : TerragruntOptions)
    (cfg : TerragruntConfig) (fs : gmap string Node) :
    gmap string Node * result unit :=
  match ph with
  | BeforeHooks =>
      if String.eqb (TerraformCommand o) CMD_INIT_FROM_MODULE
      then (fs, inl (Errno "hook exited with status 1"))
      else (fs, inr tt)
  | AfterHooks => (fs, inr tt)
  end.

(** The module as the remote end serves it. *)
Definition module_tf : list (string * Node) :=
  [("mod", Dir); ("mod/main.tf", File "resource")].

(** The same module written in JSON syntax only. *)
Definition module_json : list (string * Node) :=
  [("mod", Dir); ("mod/main.tf.json", File "{}")].

Definition serves (tree : list (string * Node)) (u : string) :
    option (list (string * Node)) :=
  if String.eqb u url then Some tree else None.

Definition params (tree : list (string * Node)) : mem.Params :=
  {| mem.resolve := resolve; mem.encode := encode;
     mem.hooks := no_hooks; mem.remote := serves tree |}.

Definition params_failing_hook : mem.Params :=
  {| mem.resolve := resolve; mem.encode := encode;
     mem.hooks := failing_hook; mem.remote := serves module_tf |}.

(** Nothing fetched yet. *)
Definition fs_empty_cache : gmap string Node :=
  list_to_map
    [("/cache", Dir); ("/live", Dir); ("/live/app", Dir);
     ("/live/app/terragrunt.hcl", File "terraform { source = ... }")].

(** The module fetched and marked with the current fingerprint. *)
Definition fs_cached : gmap string Node :=
  list_to_map
    [("/cache", Dir); ("/cache/k1", Dir); ("/cache/k1/mod", Dir);
     ("/cache/k1/mod/main.tf", File "resource");
     ("/cache/k1/.terragrunt-source-version", File (encode url));
     ("/live", Dir); ("/live/app", Dir);
     ("/live/app/terragrunt.hcl", File "terraform { source = ... }")].

(** The same with a marker that is a directory, so that it exists and
    cannot be read. *)
Definition fs_unreadable_marker : gmap string Node :=
  <["/cache/k1/.terragrunt-source-version" := Dir]> fs_cached.

Definition opts0 : TerragruntOptions :=
  {| TerragruntConfigPath := "/live/app/terragrunt.hcl";
     TerraformCommand := "plan";
     options.WorkingDir := "/live/app";
     options.Source := "";
     SourceUpdate := false |}.

Definition opts_forced : TerragruntOptions :=
  {| TerragruntConfigPath := "/live/app/terragrunt.hcl";
     TerraformCommand := "plan";
     options.WorkingDir := "/live/app";
     options.Source := "";
     SourceUpdate := true |}.

Definition cfg : TerragruntConfig :=
  {| Terraform := Some {| config.Source := Some url |} |}.

(** The backends go-getter registers by default. *)
Definition default_getters : gmap string Getter :=
  list_to_map
    [("file", FileGetter); ("git", GitGetter); ("gcs", GCSGetter);
     ("hg", HgGetter); ("s3", S3Getter); ("http", HttpGetter);
     ("https", HttpGetter)].

(** A process that starts on the filesystem [fs] with the options [o]
    behind pointer 0. *)
Definition start (P : mem.Params) (fs : gmap string Node) (o : TerragruntOptions) :
    State (mem.env P) :=
  @Build_State (mem.env P) fs [o] [default_getters] (Some 0) [].

(** A download directory whose path has a bracket in it, with the module
    in it and a marker that holds the current fingerprint. *)
Definition bracket_src : TerraformSource :=
  {| CanonicalSourceURL := url;
     DownloadDir := "/work/app[v2]/k1";
     config.WorkingDir := "/work/app[v2]/k1/mod";
     VersionFile := "/work/app[v2]/k1/.terragrunt-source-version" |}.

Definition fs_bracket : gmap string Node :=
  list_to_map
    [("/work", Dir); ("/work/app[v2]", Dir); ("/work/app[v2]/k1", Dir);
     ("/work/app[v2]/k1/mod", Dir);
     ("/work/app[v2]/k1/mod/main.tf", File "resource");
     ("/work/app[v2]/k1/.terragrunt-source-version", File (encode url))].

(** A module referenced without a subdirectory: its working directory is
    the download directory, so the marker lies inside the directory the
    overlay writes. The operator's directory holds a file with the name
    of the marker. *)
Definition flat_url : string := "git::https://example/flat.git?ref=v1".

Definition flat_src : TerraformSource :=
  {| CanonicalSourceURL := flat_url;
     DownloadDir := "/cache/k3";
     config.WorkingDir := "/cache/k3";
     VersionFile := "/cache/k3/.terragrunt-source-version" |}.

Definition flat_cfg : TerragruntConfig :=
  {| Terraform := Some {| config.Source := Some flat_url |} |}.

Definition params_flat : mem.Params :=
  {| mem.resolve := fun source o =>
       if String.eqb source flat_url then inr flat_src
       else inl (Errno "malformed source");
     mem.encode := encode;
     mem.hooks := no_hooks;
     mem.remote := fun u =>
       if String.eqb u flat_url then Some [("main.tf", File "resource")]
       else None |}.

Definition fs_marker_in_live : gmap string Node :=
  list_to_map
    [("/cache", Dir); ("/live", Dir); ("/live/app", Dir);
     ("/live/app/terragrunt.hcl", File "terraform { source = ... }");
     ("/live/app/.terragrunt-source-version", File "sha1:elsewhere")].

End scenario.

(** ** The runs of the file as step relations

    The calls of a run, its outcome and the world it leaves, for the cache
    check, the conditional download and the whole acquisition. *)

Section Steps.

Context {E : Env}.

(** The runs of [alreadyHaveLatestCode] in the world [w]: the calls it
    makes and what it answers. *)
Inductive check_steps (src : TerraformSource) (w : W E) :
    list Event -> outcome bool -> Prop :=
| check_local :
    config_IsLocalSource E (CanonicalSourceURL src) = true ->
    check_steps src w [] (Ok false)
| check_no_download_dir :
    config_IsLocalSource E (CanonicalSourceURL src) = false ->
    util_FileExists E (DownloadDir src) w = false ->
    check_steps src w [EvFileExists (DownloadDir src) false] (Ok false)
| check_no_working_dir :
    config_IsLocalSource E (CanonicalSourceURL src) = false ->
    util_FileExists E (DownloadDir src) w = true ->
    util_FileExists E (config.WorkingDir src) w = false ->
    check_steps src w
      [EvFileExists (DownloadDir src) true;
       EvFileExists (config.WorkingDir src) false]
      (Ok false)
| check_no_version_file :
    config_IsLocalSource E (CanonicalSourceURL src) = false ->
    util_FileExists E (DownloadDir src) w = true ->
    util_FileExists E (config.WorkingDir src) w = true ->
    util_FileExists E (VersionFile src) w = false ->
    check_steps src w
      [EvFileExists (DownloadDir src) true;
       EvFileExists (config.WorkingDir src) true;
       EvFileExists (VersionFile src) false]
      (Ok false)
| check_glob_fails e :
    config_IsLocalSource E (CanonicalSourceURL src) = false ->
    util_FileExists E (DownloadDir src) w = true ->
    util_FileExists E (config.WorkingDir src) w = true ->
    util_FileExists E (VersionFile src) w = true ->
    filepath_Glob E (config.WorkingDir src +:+ "/*.tf") w = inl e ->
    check_steps src w
      [EvFileExists (DownloadDir src) true;
       EvFileExists (config.WorkingDir src) true;
       EvFileExists (VersionFile src) true;
       EvGlob (config.WorkingDir src +:+ "/*.tf") (inl e)]
      (Err (WithStackTrace e))
| check_no_tf_files :
    config_IsLocalSource E (CanonicalSourceURL src) = false ->
    util_FileExists E (DownloadDir src) w = true ->
    util_FileExists E (config.WorkingDir src) w = true ->
    util_FileExists E (VersionFile src) w = true ->
    filepath_Glob E (config.WorkingDir src +:+ "/*.tf") w = inr [] ->
    check_steps src w
      [EvFileExists (DownloadDir src) true;
       EvFileExists (config.WorkingDir src) true;
       EvFileExists (VersionFile src) true;
       EvGlob (config.WorkingDir src +:+ "/*.tf") (inr [])]
      (Ok false)
| check_read_fails tfFiles e :
    config_IsLocalSource E (CanonicalSourceURL src) = false ->
    util_FileExists E (DownloadDir src) w = true ->
    util_FileExists E (config.WorkingDir src) w = true ->
    util_FileExists E (VersionFile src) w = true ->
    filepath_Glob E (config.WorkingDir src +:+ "/*.tf") w = inr tfFiles ->
    tfFiles <> [] ->
    config_ReadVersionFile E src w = inl e ->
    check_steps src w
      [EvFileExists (DownloadDir src) true;
       EvFileExists (config.WorkingDir src) true;
       EvFileExists (VersionFile src) true;
       EvGlob (config.WorkingDir src +:+ "/*.tf") (inr tfFiles);
       EvReadVersionFile src (inl e)]
      (Err e)
| check_compares tfFiles previousVersion :
    config_IsLocalSource E (CanonicalSourceURL src) = false ->
    util_FileExists E (DownloadDir src) w = true ->
    util_FileExists E (config.WorkingDir src) w = true ->
    util_FileExists E (VersionFile src) w = true ->
    filepath_Glob E (config.WorkingDir src +:+ "/*.tf") w = inr tfFiles ->
    tfFiles <> [] ->
    config_ReadVersionFile E src w = inr previousVersion ->
    check_steps src w
      [EvFileExists (DownloadDir src) true;
       EvFileExists (config.WorkingDir src) true;
       EvFileExists (VersionFile src) true;
       EvGlob (config.WorkingDir src +:+ "/*.tf") (inr tfFiles);
       EvReadVersionFile src (inr previousVersion)]
      (Ok (String.eqb previousVersion
             (config_EncodeSourceVersion E (CanonicalSourceURL src)))).

(** Lines 47-52 went through: nothing was removed because the update is
    not forced, or the download directory was removed. *)
Definition removal_done (o : TerragruntOptions) (src : TerraformSource)
    (w : W E) (pre : list Event) (w1 : W E) : Prop :=
  (SourceUpdate o = false /\ pre = [] /\ w1 = w) \/
  (SourceUpdate o = true /\
   os_RemoveAll E (DownloadDir src) w = (w1, inr tt) /\
   pre = [EvRemoveAll (DownloadDir src) (inr tt)]).

(** The runs of [downloadTerraformSourceIfNecessary] for a caller whose
    options are [o], with the worlds they pass through. *)
Inductive download_steps (src : TerraformSource) (cfg : TerragruntConfig)
    (o : TerragruntOptions) (g : gmap string Getter) :
    W E -> list Event -> outcome unit -> W E -> Prop :=
| download_removal_fails w w1 e :
    SourceUpdate o = true ->
    os_RemoveAll E (DownloadDir src) w = (w1, inl e) ->
    download_steps src cfg o g w
      [EvRemoveAll (DownloadDir src) (inl e)] (Err (WithStackTrace e)) w1
| download_check_fails w pre w1 cc e :
    removal_done o src w pre w1 ->
    check_steps src w1 cc (Err e) ->
    download_steps src cfg o g w (pre ++ cc) (Err e) w1
| download_skipped w pre w1 cc :
    removal_done o src w pre w1 ->
    check_steps src w1 cc (Ok true) ->
    download_steps src cfg o g w (pre ++ cc) (Ok tt) w1
| download_fetched w pre w1 cc post r w2 :
    removal_done o src w pre w1 ->
    check_steps src w1 cc (Ok false) ->
    fetch_steps src cfg (download_options E o) g w1 post r w2 ->
    download_steps src cfg o g w (pre ++ cc ++ post) r w2.

(** The runs of [downloadTerraformSource]. *)
Inductive acquire_steps (source : string) (cfg : TerragruntConfig)
    (o : TerragruntOptions) (g : gmap string Getter) :
    W E -> list Event -> outcome unit -> W E -> Prop :=
| acquire_unresolved w e :
    config_ProcessTerraformSource E source o = inl e ->
    acquire_steps source cfg o g w [] (Err e) w
| acquire_download_fails w src tr e w1 :
    config_ProcessTerraformSource E source o = inr src ->
    download_steps src cfg o g w tr (Err e) w1 ->
    acquire_steps source cfg o g w tr (Err e) w1
| acquire_overlay w src tr w1 w2 res :
    config_ProcessTerraformSource E source o = inr src ->
    download_steps src cfg o g w tr (Ok tt) w1 ->
    util_CopyFolderContents E (options.WorkingDir o) (config.WorkingDir src)
      MODULE_MANIFEST_NAME w1 = (w2, res) ->
    acquire_steps source cfg o g w
      (tr ++ [EvCopyFolderContents (options.WorkingDir o) (config.WorkingDir src)
                MODULE_MANIFEST_NAME res])
      (of_result res) w2.

End Steps.

(** The error a call ended in, if it did. *)
Definition event_error (ev : Event) : option error :=
  match ev with
  | EvRemoveAll _ (inl e) | EvGlob _ (inl e) | EvReadVersionFile _ (inl e)
  | EvProcessHooks _ _ (inl e) | EvFetch _ _ _ (inl e)
  | EvWriteVersionFile _ (inl e) | EvCopyFolderContents _ _ _ (inl e) => Some e
  | _ => None
  end.

(** The error the file returns for the error [e] of a call: those of
    os.RemoveAll, filepath.Glob and the transfer are wrapped by
    errors.WithStackTrace (lines 50, 99 and 140), the others are returned
    as they come. *)
Definition returned_for (ev : Event) (e : error) : error :=
  match ev with
  | EvRemoveAll _ _ | EvGlob _ _ | EvFetch _ _ _ _ => WithStackTrace e
  | _ => e
  end.

Definition is_hook (e : Event) : bool :=
  match e with EvProcessHooks _ _ _ => true | _ => false end.

(** How many calls of a kind a trace has. *)
Definition count (P : Event -> bool) (tr : list Event) : nat :=
  List.length (List.filter P tr).

(** The error a run returned, if it did. *)
Definition outcome_error {A} (r : outcome A) : option error :=
  match r with
  | Err e => Some e
  | _ => None
  end.

(** No error is swallowed and none is made up: a call that ended in an
    error is the last call of the run and its error, wrapped or not as
    [returned_for] says, is what the run returned; and a run that returned
    an error has such a last call. *)
Definition errors_propagate (tr : list Event) (returned : option error) : Prop :=
  (forall ev e, ev ∈ tr -> event_error ev = Some e ->
     last tr = Some ev /\ returned = Some (returned_for ev e)) /\
  (forall e', returned = Some e' ->
     exists ev e, last tr = Some ev /\ event_error ev = Some e /\
                  e' = returned_for ev e).

(** * Properties *)

(** ** The cache check *)

Section CacheCheck.

Context (E : Env).

Implicit Types (s : State E) (src : TerraformSource).

Ltac run_check :=
  unfold shouldFetch, alreadyHaveLatestCode, bind, test, query, call,
    with_stack_trace, ret, of_result; cbn.

(** The cache check reads the world and touches nothing: whatever it
    answers, the store is the one it started from, the trace grew by
    existence tests, a glob and a read of the marker, and it did not
    panic. *)
Lemma alreadyHaveLatestCode_frame src p s :
  exists cc,
    same_store s (alreadyHaveLatestCode src p s).1 /\
    trace (alreadyHaveLatestCode src p s).1 = trace s ++ cc /\
    forallb is_cache_check cc = true /\
    (alreadyHaveLatestCode src p s).2 <> Panic.
Proof.
  unfold same_store. run_check.
  destruct (config_IsLocalSource E _); cbn.
  { exists []. rewrite app_nil_r. done. }
  destruct (util_FileExists E (DownloadDir src) _); cbn.
  2:{ eexists [_]. done. }
  destruct (util_FileExists E (config.WorkingDir src) _); cbn.
  2:{ eexists [_; _]. rewrite <- app_assoc. done. }
  destruct (util_FileExists E (VersionFile src) _); cbn.
  2:{ eexists [_; _; _]. rewrite <- !app_assoc. done. }
  destruct (filepath_Glob E _ _) as [e|l]; cbn.
  { eexists [_; _; _; _]. rewrite <- !app_assoc. done. }
  destruct (Nat.eqb (List.length l) 0); cbn.
  { eexists [_; _; _; _]. rewrite <- !app_assoc. done. }
  destruct (config_ReadVersionFile E _ _) as [e|v]; cbn;
    eexists [_; _; _; _; _]; rewrite <- !app_assoc; done.
Qed.

(** The answer of the cache check depends on the world alone. *)
Lemma alreadyHaveLatestCode_world src p q s s' :
  world s = world s' ->
  (alreadyHaveLatestCode src p s).2 = (alreadyHaveLatestCode src q s').2.
Proof.
  intros Hw. run_check.
  destruct (config_IsLocalSource E _); cbn; [done|]. rewrite <- Hw.
  destruct (util_FileExists E (DownloadDir src) _); cbn; [|done].
  destruct (util_FileExists E (config.WorkingDir src) _); cbn; [|done].
  destruct (util_FileExists E (VersionFile src) _); cbn; [|done].
  destruct (filepath_Glob E _ _) as [e|l]; cbn; [done|].
  destruct (Nat.eqb (List.length l) 0); cbn; [done|].
  destruct (config_ReadVersionFile E _ _) as [e|v]; cbn; done.
Qed.

(** With the cache valid, the check answers true. *)
Lemma alreadyHaveLatestCode_valid src p s :
  cache_valid src (world s) ->
  (alreadyHaveLatestCode src p s).2 = Ok true.
Proof.
  intros (Hloc & Hd & Hw & Hv & (files & Hg & Hne) & Hr).
  run_check. rewrite Hloc; cbn. rewrite Hd; cbn. rewrite Hw; cbn.
  rewrite Hv; cbn. rewrite Hg; cbn.
  destruct files as [|f files]; [done|]. cbn.
  rewrite Hr; cbn. by rewrite String.eqb_refl.
Qed.

(** An answer of true comes from a valid cache. *)
Lemma alreadyHaveLatestCode_true_inv src p s :
  (alreadyHaveLatestCode src p s).2 = Ok true ->
  cache_valid src (world s).
Proof.
  unfold cache_valid. run_check.
  destruct (config_IsLocalSource E _); cbn; [done|].
  destruct (util_FileExists E (DownloadDir src) _); cbn; [|done].
  destruct (util_FileExists E (config.WorkingDir src) _); cbn; [|done].
  destruct (util_FileExists E (VersionFile src) _); cbn; [|done].
  destruct (filepath_Glob E _ _) as [e|l]; cbn; [done|].
  destruct l as [|f l]; cbn; [done|].
  destruct (config_ReadVersionFile E _ _) as [e|v]; cbn; [done|].
  intros [= Heq]. apply String.eqb_eq in Heq. subst v.
  repeat split; eauto.
Qed.

(** X15. For a remote source whose download directory, working directory
    and marker exist, when the glob of the check returns at least one
    path and the marker reads back a fingerprint, [shouldFetch] answers
    false exactly when that fingerprint is the one of the current
    canonical URL, and true in every other case; [alreadyHaveLatestCode]
    answers the opposite. *)
Theorem shouldFetch_false_iff_same_fingerprint src p s tfFiles previousVersion :
  config_IsLocalSource E (CanonicalSourceURL src) = false ->
  util_FileExists E (DownloadDir src) (world s) = true ->
  util_FileExists E (config.WorkingDir src) (world s) = true ->
  util_FileExists E (VersionFile src) (world s) = true ->
  filepath_Glob E (config.WorkingDir src +:+ "/*.tf") (world s) = inr tfFiles ->
  tfFiles <> [] ->
  config_ReadVersionFile E src (world s) = inr previousVersion ->
  exists fetch,
    (shouldFetch src p s).2 = Ok fetch /\
    (alreadyHaveLatestCode src p s).2 = Ok (negb fetch) /\
    (fetch = false <->
       previousVersion = config_EncodeSourceVersion E (CanonicalSourceURL src)) /\
    (fetch = true <->
       previousVersion <> config_EncodeSourceVersion E (CanonicalSourceURL src)).
Proof.
  intros Hloc Hd Hw Hv Hg Hne Hr.
  exists (negb (String.eqb previousVersion
                  (config_EncodeSourceVersion E (CanonicalSourceURL src)))).
  run_check. rewrite Hloc; cbn. rewrite Hd; cbn. rewrite Hw; cbn.
  rewrite Hv; cbn. rewrite Hg; cbn.
  destruct tfFiles as [|f files]; [done|]. cbn.
  rewrite Hr; cbn. rewrite negb_involutive.
  destruct (String.eqb_spec previousVersion
              (config_EncodeSourceVersion E (CanonicalSourceURL src))); cbn.
  all: repeat split; intros; congruence.
Qed.

(** C2. For a source classified as a local path the cache check answers
    that a fetch is required, whatever the world holds, and without a
    single call to the filesystem. *)
Theorem local_source_always_fetched src p s :
  config_IsLocalSource E (CanonicalSourceURL src) = true ->
  alreadyHaveLatestCode src p s = (s, Ok false) /\
  shouldFetch src p s = (s, Ok true).
Proof.
  intros Hloc. run_check. rewrite Hloc. done.
Qed.

(** The two ways the cache check ends in an error. *)
Lemma alreadyHaveLatestCode_fails src p s e :
  cache_check_fails src (world s) e ->
  (alreadyHaveLatestCode src p s).2 = Err e.
Proof.
  intros (Hloc & Hd & Hw & Hv & Hcase).
  run_check. rewrite Hloc; cbn. rewrite Hd; cbn. rewrite Hw; cbn.
  rewrite Hv; cbn.
  destruct Hcase as [(e0 & Hg & ->)|(files & Hg & Hne & Hr)]; rewrite Hg; cbn.
  - done.
  - destruct files as [|f files]; [done|]. cbn. by rewrite Hr.
Qed.

End CacheCheck.

(** ** The registry of fetch backends *)

Lemma lookup_snoc {A} (l : list A) (x : A) : (l ++ [x]) !! List.length l = Some x.
Proof. rewrite lookup_app_r by lia. by rewrite Nat.sub_diag. Qed.

Lemma insert_snoc {A} (l : list A) (x y : A) :
  <[List.length l := y]> (l ++ [x]) = l ++ [y].
Proof.
  replace (List.length l) with (List.length l + 0) at 1 by lia.
  by rewrite insert_app_r.
Qed.

Lemma with_file_copy_lookup defaults name :
  with_file_copy defaults !! name =
  (fun g => if String.eqb name "file" then FileCopyGetter else g) <$> defaults !! name.
Proof.
  unfold with_file_copy. rewrite map_lookup_imap.
  destruct (defaults !! name); reflexivity.
Qed.

Lemma with_file_copy_insert defaults name g :
  with_file_copy (<[name := g]> defaults) =
  <[name := if String.eqb name "file" then FileCopyGetter else g]>
    (with_file_copy defaults).
Proof. unfold with_file_copy. by rewrite map_imap_insert. Qed.

Lemma registry_of_allocated ms a :
  a < List.length ms ->
  registry_of ms (Some a) = with_file_copy (default ∅ (ms !! a)).
Proof. intros Ha. unfold registry_of. by rewrite lookup_app_l. Qed.

Section Registry.

Context (E : Env).

Implicit Types (s : State E).

(** The loop of [copyFiles], run on a state whose last map is the one just
    allocated: it ends with the image of the entries ranged over in that
    map and changes nothing else. *)
Lemma copyFiles_loop (entries : gmap string Getter) s0 :
  map_fold
    (fun getterName getterValue (acc : M E unit) =>
       let* _ := acc in
       if String.eqb getterName "file"
       then map_store (Some (List.length (maps s0))) getterName FileCopyGetter
       else map_store (Some (List.length (maps s0))) getterName getterValue)
    (ret tt) entries
    {| world := world s0; opts := opts s0; maps := maps s0 ++ [∅];
       getter_Getters := getter_Getters s0; trace := trace s0 |}
  = ({| world := world s0; opts := opts s0;
        maps := maps s0 ++ [with_file_copy entries];
        getter_Getters := getter_Getters s0; trace := trace s0 |}, Ok tt).
Proof.
  revert entries.
  apply (map_fold_weak_ind (fun (acc : M E unit) entries =>
    acc {| world := world s0; opts := opts s0; maps := maps s0 ++ [∅];
           getter_Getters := getter_Getters s0; trace := trace s0 |}
    = ({| world := world s0; opts := opts s0;
          maps := maps s0 ++ [with_file_copy entries];
          getter_Getters := getter_Getters s0; trace := trace s0 |}, Ok tt))).
  - unfold with_file_copy. by rewrite map_imap_empty.
  - intros name g entries acc Hfresh IH.
    unfold bind. rewrite IH.
    rewrite with_file_copy_insert.
    assert (Hput : forall v,
      map_store (E := E) (Some (List.length (maps s0))) name v
        {| world := world s0; opts := opts s0;
           maps := maps s0 ++ [with_file_copy entries];
           getter_Getters := getter_Getters s0; trace := trace s0 |}
      = ({| world := world s0; opts := opts s0;
            maps := maps s0 ++ [<[name := v]> (with_file_copy entries)];
            getter_Getters := getter_Getters s0; trace := trace s0 |}, Ok tt)).
    { intros v. unfold map_store. cbn.
      rewrite lookup_snoc. by rewrite insert_snoc. }
    destruct (String.eqb name "file"); apply Hput.
Qed.

(** What one call of [copyFiles] does to the state: one map more, the
    registry, and the client pointing to it. *)
Lemma copyFiles_run client s :
  copyFiles client s
  = ({| world := world s; opts := opts s;
        maps := maps s ++ [registry_of (maps s) (getter_Getters s)];
        getter_Getters := getter_Getters s; trace := trace s |},
     Ok {| Getters := Some (List.length (maps s)) |}).
Proof.
  unfold copyFiles, bind, new_map, ret. cbn.
  rewrite (copyFiles_loop _ s). done.
Qed.

(** C6. A call of [copyFiles] allocates a map that was not there before
    and hands it to the client. The new map has the keys of the map held
    by getter.Getters, every key other than "file" with the backend the
    default map has for it and "file" with [FileCopyGetter]. No map that
    existed before the call, the default one among them, is written, and
    getter.Getters still holds the map it held. A second call allocates
    yet another map. *)
Theorem copyFiles_fresh_registry client client' s :
  (forall a, getter_Getters s = Some a -> a < List.length (maps s)) ->
  let defaults := map_contents s (getter_Getters s) in
  exists s' fresh registry,
    copyFiles client s = (s', Ok {| Getters := Some fresh |}) /\
    maps s !! fresh = None /\
    maps s' !! fresh = Some registry /\
    dom registry = dom defaults /\
    (forall name g, name <> "file" ->
       defaults !! name = Some g -> registry !! name = Some g) /\
    (forall g, defaults !! "file" = Some g ->
       registry !! "file" = Some FileCopyGetter) /\
    (forall r, r < List.length (maps s) -> maps s' !! r = maps s !! r) /\
    getter_Getters s' = getter_Getters s /\
    map_contents s' (getter_Getters s') = defaults /\
    world s' = world s /\ opts s' = opts s /\ trace s' = trace s /\
    exists s'' fresh',
      copyFiles client' s' = (s'', Ok {| Getters := Some fresh' |}) /\
      fresh' <> fresh /\
      maps s'' !! fresh' = Some registry /\
      maps s'' !! fresh = Some registry.
Proof.
  intros Hvalid defaults.
  assert (Hreg : registry_of (maps s) (getter_Getters s) = with_file_copy defaults).
  { unfold defaults, map_contents.
    destruct (getter_Getters s) as [a|] eqn:Hg; [|done].
    by apply registry_of_allocated, Hvalid. }
  eexists _, (List.length (maps s)), (with_file_copy defaults).
  rewrite copyFiles_run, Hreg. cbn [maps getter_Getters world opts trace].
  assert (Hkeep : forall r, r < List.length (maps s) ->
            (maps s ++ [with_file_copy defaults]) !! r = maps s !! r).
  { intros r Hr. by rewrite lookup_app_l. }
  assert (Hdefaults :
    map_contents
      {| world := world s; opts := opts s;
         maps := maps s ++ [with_file_copy defaults];
         getter_Getters := getter_Getters s; trace := trace s |}
      (getter_Getters s) = defaults).
  { unfold defaults, map_contents. cbn.
    destruct (getter_Getters s) as [a|] eqn:Hg; [|done].
    by rewrite Hkeep by auto. }
  split; [done|].
  split; [apply lookup_ge_None; lia|].
  split; [apply lookup_snoc|].
  split.
  { apply set_eq. intros name. rewrite !elem_of_dom, with_file_copy_lookup.
    by rewrite fmap_is_Some. }
  split.
  { intros name g Hname Hg. rewrite with_file_copy_lookup, Hg. cbn.
    destruct (String.eqb_spec name "file"); [done|done]. }
  split.
  { intros g Hg. by rewrite with_file_copy_lookup, Hg. }
  split; [done|].
  split; [done|].
  split; [done|].
  split; [done|]. split; [done|]. split; [done|].
  eexists _, (List.length (maps s ++ [with_file_copy defaults])).
  rewrite copyFiles_run.
  split; [done|]. cbn [maps getter_Getters].
  split; [rewrite length_app; cbn; lia|].
  split.
  { rewrite lookup_snoc. f_equal.
    unfold registry_of. destruct (getter_Getters s) as [a|] eqn:Hg; [|done].
    specialize (Hvalid a eq_refl).
    rewrite lookup_app_l by (rewrite length_app; cbn; lia).
    rewrite lookup_app_l by done.
    unfold defaults, map_contents. done. }
  rewrite lookup_app_l by (rewrite length_app; cbn; lia).
  apply lookup_snoc.
Qed.

End Registry.

(** ** The orchestrator *)

Section Orchestrator.

Context (E : Env).

Implicit Types (s : State E) (src : TerraformSource) (o : TerragruntOptions).

(** [downloadSource] builds the registry and makes the one transfer. *)
Lemma downloadSource_run src p cfg s :
  downloadSource src p cfg s =
  let g := registry_of (maps s) (getter_Getters s) in
  let wr := getter_fetch E (DownloadDir src) (CanonicalSourceURL src) g (world s) in
  ({| world := wr.1; opts := opts s; maps := maps s ++ [g];
      getter_Getters := getter_Getters s;
      trace := trace s ++
               [EvFetch (DownloadDir src) (CanonicalSourceURL src) g wr.2] |},
   match wr.2 with
   | inl e => Err (WithStackTrace e)
   | inr u => Ok u
   end).
Proof.
  unfold downloadSource, getter_GetAny, with_stack_trace, bind.
  rewrite copyFiles_run. unfold call, map_contents. cbn.
  rewrite lookup_snoc. cbn.
  destruct (getter_fetch E _ _ _ _) as [w' [e|[]]]; done.
Qed.

(** The fetch path, started with the caller's options [o] behind [p]:
    its calls are those of [fetch_steps], the clone is the one struct it
    adds to the heap, and it does not panic. *)
Lemma fetch_path_run src p cfg s o :
  opts s !! p = Some o ->
  exists s' r post,
    fetch_path src p cfg s = (s', r) /\
    fetch_steps src cfg (download_options E o)
      (registry_of (maps s) (getter_Getters s)) (world s) post r (world s') /\
    trace s' = trace s ++ post /\
    opts s' = opts s ++ [download_options E o] /\
    getter_Getters s' = getter_Getters s.
Proof.
  intros Hp.
  unfold fetch_path, Clone, runActionWithHooks, bind, deref, new_options, assign.
  rewrite Hp. cbn. rewrite Hp. cbn.
  rewrite lookup_snoc, insert_snoc. cbn. rewrite lookup_snoc.
  fold (download_options E o).
  unfold call at 1. cbn.
  destruct (cli_processHooks E BeforeHooks _ _ _) as [w1 [e|[]]] eqn:Hb; cbn.
  { eexists _, _, _. split; [reflexivity|]. cbn.
    split; [by apply fetch_before_hooks_fail|]. done. }
  rewrite downloadSource_run. cbn.
  destruct (getter_fetch E _ _ _ _) as [w2 [e|[]]] eqn:Hf; cbn.
  { eexists _, _, _. split; [reflexivity|]. cbn.
    split; [by eapply fetch_transfer_fails|].
    rewrite <- app_assoc. done. }
  rewrite lookup_snoc. unfold call. cbn.
  destruct (cli_processHooks E AfterHooks _ _ _) as [w3 [e|[]]] eqn:Ha; cbn.
  { eexists _, _, _. split; [reflexivity|]. cbn.
    split; [by eapply fetch_after_hooks_fail|].
    rewrite <- !app_assoc. done. }
  destruct (config_WriteVersionFile E _ _) as [w4 r] eqn:Hw; cbn.
  eexists _, _, _. split; [reflexivity|]. cbn.
  split; [by eapply fetch_then_marker|].
  rewrite <- !app_assoc. done.
Qed.

(** The fetch path does not panic. *)
Lemma fetch_steps_no_panic src cfg oc g (w w' : W E) post r :
  fetch_steps src cfg oc g w post r w' -> r <> Panic.
Proof. destruct 1; try done. by destruct r. Qed.

(** A failed removal of the download directory ends the run. *)
Lemma downloadTerraformSourceIfNecessary_removal_fails src p cfg s o e :
  opts s !! p = Some o ->
  SourceUpdate o = true ->
  (os_RemoveAll E (DownloadDir src) (world s)).2 = inl e ->
  downloadTerraformSourceIfNecessary src p cfg s =
  (after_forced_removal o src s, Err (WithStackTrace e)).
Proof.
  intros Hp Hforce Hrm.
  unfold downloadTerraformSourceIfNecessary, after_forced_removal, bind, deref,
    with_stack_trace, call.
  rewrite Hp, Hforce.
  destruct (os_RemoveAll E _ _) as [w' r]. cbn in *. by subst r.
Qed.

(** Otherwise the cache check runs in the state the removal left, and its
    answer selects what follows. *)
Lemma downloadTerraformSourceIfNecessary_unfold src p cfg s o :
  opts s !! p = Some o ->
  SourceUpdate o = false \/
    (os_RemoveAll E (DownloadDir src) (world s)).2 = inr tt ->
  downloadTerraformSourceIfNecessary src p cfg s =
  match alreadyHaveLatestCode src p (after_forced_removal o src s) with
  | (s2, Ok true) => (s2, Ok tt)
  | (s2, Ok false) => fetch_path src p cfg s2
  | (s2, Err e) => (s2, Err e)
  | (s2, Panic) => (s2, Panic)
  end.
Proof.
  intros Hp Hrm.
  unfold downloadTerraformSourceIfNecessary, after_forced_removal, fetch_path.
  unfold bind at 1. unfold deref at 1. rewrite Hp.
  unfold bind at 1.
  destruct (SourceUpdate o) eqn:Hforce.
  - destruct Hrm as [|Hrm]; [done|].
    unfold with_stack_trace, call.
    destruct (os_RemoveAll E _ _) as [w' r]. cbn in *. subst r. cbn.
    unfold bind at 1.
    destruct (alreadyHaveLatestCode src p _) as [s2 [[]|e|]]; done.
  - unfold ret at 1. unfold bind at 1.
    destruct (alreadyHaveLatestCode src p _) as [s2 [[]|e|]]; done.
Qed.

End Orchestrator.

(** ** Order of the calls *)

Lemma StronglySorted_lookup_lt {A} (R : relation A) (l : list A) i j x y :
  StronglySorted R l -> i < j -> l !! i = Some x -> l !! j = Some y -> R x y.
Proof.
  intros Hs. revert i j. induction Hs as [|a l Hs IH Hall]; intros i j Hij Hi Hj.
  - done.
  - destruct j as [|j]; [lia|]. cbn in Hj.
    destruct i as [|i]; cbn in Hi.
    + injection Hi as ->. rewrite Forall_forall in Hall.
      apply Hall. by eapply list_elem_of_lookup_2.
    + eapply (IH i j); [lia|done|done].
Qed.

(** In a trace in phase order, the calls of a stage come strictly before
    those of any later stage. *)
Lemma in_phase_order_precedes (P Q : Event -> bool) k tr :
  in_phase_order tr ->
  (forall e, P e = true -> phase e <= k) ->
  (forall e, Q e = true -> k < phase e) ->
  precedes P Q tr.
Proof.
  intros Hs HP HQ i j e1 e2 Hi Hj HPe HQe.
  destruct (decide (i < j)) as [|Hge]; [done|]. exfalso.
  specialize (HP _ HPe). specialize (HQ _ HQe).
  destruct (decide (i = j)) as [->|Hne].
  - rewrite Hi in Hj. injection Hj as ->. lia.
  - assert (Hlt : j < i) by lia.
    pose proof (StronglySorted_lookup_lt _ _ _ _ _ _ Hs Hlt Hj Hi) as Hle.
    cbn in Hle. lia.
Qed.

Lemma in_phase_order_same k tr :
  Forall (fun e => phase e = k) tr -> in_phase_order tr.
Proof.
  unfold in_phase_order. induction 1 as [|e tr He Hall IH]; constructor; [done|].
  eapply Forall_impl; [exact Hall|]. cbn. intros e' He'. lia.
Qed.

Lemma in_phase_order_app k tr1 tr2 :
  in_phase_order tr1 -> in_phase_order tr2 ->
  Forall (fun e => phase e <= k) tr1 ->
  Forall (fun e => k <= phase e) tr2 ->
  in_phase_order (tr1 ++ tr2).
Proof.
  intros H1 H2 Hlo Hhi. apply StronglySorted_app_2; [|done|done].
  rewrite Forall_forall in Hlo, Hhi.
  intros e1 e2 He1 He2. specialize (Hlo _ He1). specialize (Hhi _ He2). lia.
Qed.

Lemma cache_check_phase cc :
  forallb is_cache_check cc = true -> Forall (fun e => phase e = 1) cc.
Proof.
  rewrite forallb_forall, Forall_forall. intros H e He.
  apply list_elem_of_In in He. specialize (H _ He). by destruct e.
Qed.

Lemma removal_phase pre :
  forallb is_removal pre = true -> Forall (fun e => phase e = 0) pre.
Proof.
  rewrite forallb_forall, Forall_forall. intros H e He.
  apply list_elem_of_In in He. specialize (H _ He). by destruct e.
Qed.

(** ** Runs of the orchestrator *)

Section Runs.

Context (E : Env).

Implicit Types (s : State E) (src : TerraformSource) (o : TerragruntOptions).

Lemma after_forced_removal_store o src s :
  opts (after_forced_removal o src s) = opts s /\
  maps (after_forced_removal o src s) = maps s /\
  getter_Getters (after_forced_removal o src s) = getter_Getters s.
Proof. unfold after_forced_removal. by destruct (SourceUpdate o). Qed.

Lemma after_forced_removal_trace o src s :
  SourceUpdate o = false \/
    (os_RemoveAll E (DownloadDir src) (world s)).2 = inr tt ->
  exists pre,
    trace (after_forced_removal o src s) = trace s ++ pre /\
    (pre = [] \/ pre = [EvRemoveAll (DownloadDir src) (inr tt)]) /\
    (SourceUpdate o = true -> pre = [EvRemoveAll (DownloadDir src) (inr tt)]) /\
    (SourceUpdate o = false ->
       pre = [] /\ world (after_forced_removal o src s) = world s).
Proof.
  unfold after_forced_removal. intros Hrm.
  destruct (SourceUpdate o) eqn:Hforce.
  - destruct Hrm as [|Hrm]; [done|]. cbn [trace]. rewrite Hrm.
    eexists. split; [done|]. split; [by right|]. split; [done|]. done.
  - exists []. rewrite app_nil_r. split; [done|]. split; [by left|]. done.
Qed.

(** The calls of [downloadTerraformSourceIfNecessary] are those of
    [necessary_steps]; the caller's struct is left as it was, and at most
    the clone is added to the heap. *)
Lemma downloadTerraformSourceIfNecessary_steps src p cfg s o :
  opts s !! p = Some o ->
  exists s' r tr,
    downloadTerraformSourceIfNecessary src p cfg s = (s', r) /\
    trace s' = trace s ++ tr /\
    necessary_steps E src cfg (download_options E o) tr r /\
    opts s' !! p = Some o /\
    (opts s' = opts s /\ Forall (fun e => phase e <= 1) tr \/
     opts s' = opts s ++ [download_options E o]) /\
    getter_Getters s' = getter_Getters s.
Proof.
  intros Hp.
  assert (Hfront : forall pre cc,
            pre = [] \/ pre = [EvRemoveAll (DownloadDir src) (inr tt)] ->
            forallb is_cache_check cc = true ->
            Forall (fun e => phase e <= 1) (pre ++ cc)).
  { intros pre cc Hpre Hcc. apply Forall_app. split.
    - destruct Hpre as [-> | ->]; repeat constructor.
    - eapply Forall_impl; [by apply cache_check_phase|]. cbn; intros; lia. }
  destruct (SourceUpdate o) eqn:Hforce.
  1: destruct (os_RemoveAll E (DownloadDir src) (world s)) as [w1 [e|[]]] eqn:Hrm.
  1:{ rewrite (downloadTerraformSourceIfNecessary_removal_fails E src p cfg s o e)
        by (done || by rewrite Hrm).
      unfold after_forced_removal. rewrite Hforce, Hrm. cbn.
      eexists _, _, _. split; [reflexivity|]. cbn.
      split; [done|]. split; [constructor|].
      split; [done|]. split; [|done]. left. split; [done|]. repeat constructor. }
  all: rewrite (downloadTerraformSourceIfNecessary_unfold E src p cfg s o)
         by (done || (right; by rewrite Hrm) || by left).
  all: destruct (after_forced_removal_trace o src s) as (pre & Htr1 & Hpre & _);
         [(right; by rewrite Hrm) || by left|].
  all: destruct (after_forced_removal_store o src s) as (Ho1 & Hm1 & Hg1).
  all: destruct (alreadyHaveLatestCode_frame E src p (after_forced_removal o src s))
         as (cc & (Hw2 & Ho2 & Hm2 & Hg2) & Htr2 & Hcc & Hnp).
  all: destruct (alreadyHaveLatestCode src p (after_forced_removal o src s))
         as [s2 [[]|e|]]; cbn in *; [| | |done].
  all: try (eexists _, _, _; split; [reflexivity|];
            rewrite Htr2, Htr1, <- app_assoc;
            split; [done|]; split; [by constructor|];
            rewrite Ho2, Ho1, Hg2, Hg1; by auto 6).
  all: destruct (fetch_path_run E src p cfg s2 o) as (s3 & r & post & Hrun & Hsteps & Htr3 & Ho3 & Hg3);
         [by rewrite Ho2, Ho1|].
  all: rewrite Hrun; eexists _, _, _; split; [reflexivity|].
  all: rewrite Htr3, Htr2, Htr1, <- !app_assoc.
  all: split; [done|]; split; [by econstructor|].
  all: rewrite Ho3, Hg3, Ho2, Ho1, Hg2, Hg1.
  all: split; [rewrite lookup_app_l; [done|by eapply lookup_lt_Some]|]; auto.
Qed.

End Runs.

(** ** Runs of the whole acquisition *)

Section Acquisition.

Context (E : Env).

Implicit Types (s : State E) (src : TerraformSource) (o : TerragruntOptions).

(** Lines 34-42: the overlay, and the caller's working directory set to
    the fetched one when the overlay succeeded. *)
Lemma overlay_run src p s o :
  opts s !! p = Some o ->
  (let* o := deref p in
   let* _ :=
     call (EvCopyFolderContents (options.WorkingDir o) (config.WorkingDir src)
                                MODULE_MANIFEST_NAME)
          (util_CopyFolderContents E (options.WorkingDir o) (config.WorkingDir src)
                                   MODULE_MANIFEST_NAME) in
   assign p (fun o => set_WorkingDir o (config.WorkingDir src))) s
  =
  let wr := util_CopyFolderContents E (options.WorkingDir o) (config.WorkingDir src)
              MODULE_MANIFEST_NAME (world s) in
  ({| world := wr.1;
      opts := match wr.2 with
              | inr _ => <[p := set_WorkingDir o (config.WorkingDir src)]> (opts s)
              | inl _ => opts s
              end;
      maps := maps s; getter_Getters := getter_Getters s;
      trace := trace s ++
               [EvCopyFolderContents (options.WorkingDir o) (config.WorkingDir src)
                  MODULE_MANIFEST_NAME wr.2] |},
   of_result wr.2).
Proof.
  intros Hp. unfold bind, deref, call, assign. rewrite Hp.
  destruct (util_CopyFolderContents E _ _ _ _) as [w' [e|[]]]; cbn; [done|].
  by rewrite Hp.
Qed.

Lemma downloadTerraformSource_unfold source p cfg s o :
  opts s !! p = Some o ->
  downloadTerraformSource source p cfg s =
  match config_ProcessTerraformSource E source o with
  | inl e => (s, Err e)
  | inr src =>
      match downloadTerraformSourceIfNecessary src p cfg s with
      | (s1, Ok _) =>
          (let* o := deref p in
           let* _ :=
             call (EvCopyFolderContents (options.WorkingDir o)
                     (config.WorkingDir src) MODULE_MANIFEST_NAME)
                  (util_CopyFolderContents E (options.WorkingDir o)
                     (config.WorkingDir src) MODULE_MANIFEST_NAME) in
           assign p (fun o => set_WorkingDir o (config.WorkingDir src))) s1
      | (s1, Err e) => (s1, Err e)
      | (s1, Panic) => (s1, Panic)
      end
  end.
Proof.
  intros Hp. unfold downloadTerraformSource.
  unfold bind at 1. unfold deref at 1. rewrite Hp.
  unfold bind at 1.
  destruct (config_ProcessTerraformSource E source o) as [e|src]; cbn; [done|].
  unfold bind at 1.
  destruct (downloadTerraformSourceIfNecessary src p cfg s) as [s1 [[]|e|]]; done.
Qed.

(** The calls of a whole acquisition whose source resolves to [src] are
    those of [acquisition_steps]; the caller's working directory is the
    fetched one after a run without error and the old one after any
    other. *)
Lemma downloadTerraformSource_steps source p cfg s o src :
  opts s !! p = Some o ->
  config_ProcessTerraformSource E source o = inr src ->
  exists s' r tr,
    downloadTerraformSource source p cfg s = (s', r) /\
    trace s' = trace s ++ tr /\
    acquisition_steps E src cfg o (download_options E o) tr r /\
    (r = Ok tt ->
       opts s' !! p = Some (set_WorkingDir o (config.WorkingDir src))) /\
    (forall e, r = Err e -> opts s' !! p = Some o).
Proof.
  intros Hp Hres.
  rewrite (downloadTerraformSource_unfold source p cfg s o Hp), Hres.
  destruct (downloadTerraformSourceIfNecessary_steps E src p cfg s o Hp)
    as (s1 & r1 & tr & Hrun & Htr & Hsteps & Hp1 & _ & _).
  rewrite Hrun.
  destruct r1 as [[]|e|].
  - rewrite (overlay_run src p s1 o Hp1). cbn.
    eexists _, _, _. split; [reflexivity|]. cbn.
    rewrite Htr, <- app_assoc. split; [done|].
    split; [by apply acquisition_overlays|].
    destruct (util_CopyFolderContents E _ _ _ _) as [w' [e|[]]]; cbn.
    + split; [done|]. by intros.
    + split; [|done]. intros _. apply list_lookup_insert_eq.
      by eapply lookup_lt_Some.
  - eexists _, _, _. split; [reflexivity|].
    split; [done|]. split; [by apply acquisition_aborts|].
    split; [done|]. by intros.
  - exfalso. inversion Hsteps as [| | |? ? ? ? ? ? ? ? ? Hf]; subst.
    by eapply fetch_steps_no_panic.
Qed.

End Acquisition.

(** ** What the step relations say about traces *)

(** Membership in a list that is written out. *)
Ltac elems :=
  repeat match goal with
  | H : _ ∈ _ :: _ |- _ => apply elem_of_cons in H; destruct H
  | H : _ ∈ [] |- _ => by apply elem_of_nil in H
  end.

Section Traces.

Context (E : Env).

Implicit Types (src : TerraformSource) (oc : TerragruntOptions).

Lemma fetch_steps_trace src cfg oc g (w w' : W E) post r :
  fetch_steps src cfg oc g w post r w' ->
  in_phase_order post /\
  Forall (fun e => 2 <= phase e <= 3) post /\
  failure_aborts post r /\
  (forall ph o' res, EvProcessHooks ph o' res ∈ post -> o' = oc) /\
  marker_after_fetch src post /\
  (exists res, head post = Some (EvProcessHooks BeforeHooks oc res)) /\
  (r = Ok tt ->
     EvFetch (DownloadDir src) (CanonicalSourceURL src) g (inr tt) ∈ post /\
     EvWriteVersionFile src (inr tt) ∈ post).
Proof.
  unfold in_phase_order, failure_aborts, marker_after_fetch, quiet.
  destruct 1 as [w w1 e Hb|w w1 w2 e Hb Hf|w w1 w2 w3 e Hb Hf Ha
                |w w1 w2 w3 w4 res Hb Hf Ha Hw].
  4: destruct res as [e|[]].
  all: split; [repeat constructor; cbn; lia|].
  all: split; [repeat constructor; cbn; lia|].
  all: split; [split; intros; elems; try congruence;
               (split; [congruence|repeat constructor])|].
  all: split; [intros; elems; congruence|].
  all: split; [intros; elems; try congruence;
               eexists; rewrite !elem_of_cons; naive_solver|].
  all: split; [eauto|].
  all: try done.
  intros _. rewrite !elem_of_cons. naive_solver.
Qed.

(** The same for the conditional download: the calls in front of the
    fetch path are removals and cache checks. *)
Lemma necessary_steps_trace src cfg oc tr r :
  necessary_steps E src cfg oc tr r ->
  in_phase_order tr /\
  Forall (fun e => phase e <= 3) tr /\
  failure_aborts tr r /\
  (forall ph o' res, EvProcessHooks ph o' res ∈ tr -> o' = oc) /\
  marker_after_fetch src tr /\
  r <> Panic.
Proof.
  assert (Hpre : forall pre,
            pre = [] \/ pre = [EvRemoveAll (DownloadDir src) (inr tt)] ->
            Forall (fun e => phase e = 0) pre).
  { intros pre [->| ->]; repeat constructor. }
  assert (Hfront : forall pre cc,
            Forall (fun e => phase e = 0) pre ->
            Forall (fun e => phase e = 1) cc ->
            in_phase_order (pre ++ cc) /\
            Forall (fun e => phase e <= 1) (pre ++ cc)).
  { intros pre cc H0 H1. split.
    - apply (in_phase_order_app 0); [by eapply in_phase_order_same
        |by eapply in_phase_order_same| |].
      + eapply Forall_impl; [exact H0|]. cbn; intros; lia.
      + eapply Forall_impl; [exact H1|]. cbn; intros; lia.
    - apply Forall_app. split; (eapply Forall_impl; [eassumption|]);
        cbn; intros; lia. }
  assert (Hno : forall front,
            Forall (fun e => phase e <= 1) front ->
            failure_aborts front r /\
            (forall ph o' res, EvProcessHooks ph o' res ∈ front -> o' = oc) /\
            marker_after_fetch src front).
  { intros front Hf. rewrite Forall_forall in Hf.
    unfold failure_aborts, marker_after_fetch.
    repeat split; intros; exfalso;
      match goal with H : _ ∈ front |- _ => apply Hf in H; cbn in H; lia end. }
  destruct 1 as [e|pre cc e Hp Hcc|pre cc Hp Hcc|pre cc g w post r w' Hp Hcc Hsteps].
  - split; [repeat constructor|]. split; [repeat constructor; cbn; lia|].
    unfold failure_aborts, marker_after_fetch.
    repeat split; intros; elems; congruence.
  - destruct (Hfront pre cc (Hpre _ Hp) (cache_check_phase _ Hcc)) as [Ho Hb].
    destruct (Hno _ Hb) as (? & ? & ?).
    split; [done|]. split; [|done].
    eapply Forall_impl; [exact Hb|]. cbn; intros; lia.
  - destruct (Hfront pre cc (Hpre _ Hp) (cache_check_phase _ Hcc)) as [Ho Hb].
    destruct (Hno _ Hb) as (? & ? & ?).
    split; [done|]. split; [|done].
    eapply Forall_impl; [exact Hb|]. cbn; intros; lia.
  - destruct (Hfront pre cc (Hpre _ Hp) (cache_check_phase _ Hcc)) as [Ho Hb].
    destruct (fetch_steps_trace _ _ _ _ _ _ _ _ Hsteps)
      as (Hpo & Hpb & [Hfa1 Hfa2] & Hopt & Hmark & _ & _).
    rewrite app_assoc.
    assert (Hquiet : Forall quiet (pre ++ cc)).
    { eapply Forall_impl; [exact Hb|]. intros ev Hev. by destruct ev; cbn in Hev; try lia. }
    rewrite Forall_forall in Hb.
    split.
    { apply (in_phase_order_app 1); [done|done| |].
      - by apply Forall_forall.
      - eapply Forall_impl; [exact Hpb|]. cbn; intros; lia. }
    split.
    { apply Forall_app. split.
      - apply Forall_forall. intros ev Hev. apply Hb in Hev. lia.
      - eapply Forall_impl; [exact Hpb|]. cbn; intros; lia. }
    split.
    { split; intros until e; rewrite elem_of_app; intros [Hin|Hin].
      - apply Hb in Hin. cbn in Hin. lia.
      - destruct (Hfa1 _ _ _ Hin). split; [done|]. by apply Forall_app.
      - apply Hb in Hin. cbn in Hin. lia.
      - destruct (Hfa2 _ _ _ _ Hin). split; [done|]. by apply Forall_app. }
    split.
    { intros ph o' res. rewrite elem_of_app. intros [Hin|Hin]; [|by eauto].
      apply Hb in Hin. cbn in Hin. lia. }
    split.
    { intros src' res. rewrite elem_of_app. intros [Hin|Hin].
      - apply Hb in Hin. cbn in Hin. lia.
      - destruct (Hmark _ _ Hin) as [g' Hg']. exists g'.
        rewrite elem_of_app. by right. }
    by eapply fetch_steps_no_panic.
Qed.

End Traces.

(** ** Ordering, abort and frame theorems *)

Section Theorems.

Context (E : Env).

Implicit Types (s : State E) (src : TerraformSource) (o : TerragruntOptions).

Lemma acquisition_steps_trace src cfg o oc tr r :
  acquisition_steps E src cfg o oc tr r ->
  in_phase_order tr /\
  failure_aborts tr r /\
  marker_after_fetch src tr /\
  r <> Panic.
Proof.
  destruct 1 as [tr e Hn|tr res Hn];
    destruct (necessary_steps_trace E _ _ _ _ _ Hn)
      as (Hord & Hle & [Hf1 Hf2] & _ & Hmark & Hnp).
  - done.
  - split.
    { apply (in_phase_order_app 3); [done|repeat constructor|done|].
      repeat constructor. }
    split.
    { split; intros until e; rewrite elem_of_app; intros [Hin|Hin].
      - by destruct (Hf1 _ _ _ Hin).
      - elems. congruence.
      - by destruct (Hf2 _ _ _ _ Hin).
      - elems. congruence. }
    split.
    { intros src' res'. rewrite elem_of_app. intros [Hin|Hin].
      - destruct (Hmark _ _ Hin) as [g Hg]. exists g.
        rewrite elem_of_app. by left.
      - elems. congruence. }
    by destruct res.
Qed.

(** C4. In the calls of one acquisition every call of the cache check
    comes strictly before every call of the hook-wrapped fetch, every call
    of the fetch strictly before the write of the marker, and the write of
    the marker strictly before the overlay; the marker is written only in
    a run whose transfer succeeded. A hook or a transfer that fails is the
    error of the acquisition (the transfer's wrapped by [downloadSource]),
    and that run has no write of the marker and no overlay. *)
Theorem acquisition_order_and_fetch_abort source p cfg s o :
  opts s !! p = Some o ->
  exists s' r tr,
    downloadTerraformSource source p cfg s = (s', r) /\
    trace s' = trace s ++ tr /\
    precedes is_cache_check is_fetch tr /\
    precedes is_fetch is_marker_write tr /\
    precedes is_marker_write is_overlay tr /\
    (forall ev, ev ∈ tr -> is_marker_write ev = true ->
       exists d u g, EvFetch d u g (inr tt) ∈ tr) /\
    (forall ph o' e, EvProcessHooks ph o' (inl e) ∈ tr ->
       r = Err e /\
       Forall (fun ev => is_marker_write ev = false /\ is_overlay ev = false) tr) /\
    (forall d u g e, EvFetch d u g (inl e) ∈ tr ->
       r = Err (WithStackTrace e) /\
       Forall (fun ev => is_marker_write ev = false /\ is_overlay ev = false) tr).
Proof.
  intros Hp.
  destruct (config_ProcessTerraformSource E source o) as [e|src] eqn:Hres.
  - rewrite (downloadTerraformSource_unfold E source p cfg s o Hp), Hres.
    exists s, (Err e), []. rewrite app_nil_r.
    split; [done|]. split; [done|].
    repeat split; try (intros ? ? ? ? Hi; by rewrite lookup_nil in Hi);
      intros; elems.
  - destruct (downloadTerraformSource_steps E source p cfg s o src Hp Hres)
      as (s' & r & tr & Hrun & Htr & Hsteps & _ & _).
    destruct (acquisition_steps_trace _ _ _ _ _ _ Hsteps)
      as (Hord & [Hf1 Hf2] & Hmark & _).
    exists s', r, tr. split; [done|]. split; [done|].
    split.
    { apply (in_phase_order_precedes _ _ 1); [done| |]; intros [] ?; cbn; done || lia. }
    split.
    { apply (in_phase_order_precedes _ _ 2); [done| |]; intros [] ?; cbn; done || lia. }
    split.
    { apply (in_phase_order_precedes _ _ 3); [done| |]; intros [] ?; cbn; done || lia. }
    split.
    { intros [] Hin Hw; try done. destruct (Hmark _ _ Hin) as [g Hg]. eauto. }
    split; [exact Hf1|exact Hf2].
Qed.

(** Without a download directory the cache check answers false. *)
Lemma alreadyHaveLatestCode_no_download_dir src p s :
  util_FileExists E (DownloadDir src) (world s) = false ->
  (alreadyHaveLatestCode src p s).2 = Ok false.
Proof.
  intros Hd.
  unfold alreadyHaveLatestCode, bind, test, ret.
  destruct (config_IsLocalSource E _); cbn; [done|].
  by rewrite Hd.
Qed.

(** C3. With the update forced, the first call of the run removes the
    download directory. If the removal fails, the run ends there with the
    error wrapped by errors.WithStackTrace and no other call is made. If
    it succeeds, the cache check runs in the world the removal left and,
    the directory being gone, answers false: the hook-wrapped download is
    entered, starting with the before hooks of the download options. *)
Theorem forced_update_removes_then_fetches src p cfg s o :
  opts s !! p = Some o ->
  SourceUpdate o = true ->
  RemoveAll_removes E ->
  (forall w' e,
     os_RemoveAll E (DownloadDir src) (world s) = (w', inl e) ->
     downloadTerraformSourceIfNecessary src p cfg s =
     ({| world := w'; opts := opts s; maps := maps s;
         getter_Getters := getter_Getters s;
         trace := trace s ++ [EvRemoveAll (DownloadDir src) (inl e)] |},
      Err (WithStackTrace e))) /\
  (forall w',
     os_RemoveAll E (DownloadDir src) (world s) = (w', inr tt) ->
     exists s' r cc post res,
       downloadTerraformSourceIfNecessary src p cfg s = (s', r) /\
       trace s' = trace s ++ [EvRemoveAll (DownloadDir src) (inr tt)] ++ cc ++ post /\
       forallb is_cache_check cc = true /\
       fetch_steps src cfg (download_options E o)
         (registry_of (maps s) (getter_Getters s)) w' post r (world s') /\
       head post = Some (EvProcessHooks BeforeHooks (download_options E o) res)).
Proof.
  intros Hp Hforce Hcontract. split.
  - intros w' e Hrm.
    rewrite (downloadTerraformSourceIfNecessary_removal_fails E src p cfg s o e)
      by (done || by rewrite Hrm).
    unfold after_forced_removal. by rewrite Hforce, Hrm.
  - intros w' Hrm.
    rewrite (downloadTerraformSourceIfNecessary_unfold E src p cfg s o)
      by (done || (right; by rewrite Hrm)).
    pose proof (alreadyHaveLatestCode_frame E src p (after_forced_removal o src s))
      as (cc & (Hw2 & Ho2 & Hm2 & Hg2) & Htr2 & Hcc & _).
    pose proof (alreadyHaveLatestCode_no_download_dir src p
                  (after_forced_removal o src s)) as Hfalse.
    unfold after_forced_removal in *. rewrite Hforce, Hrm in *. cbn in *.
    specialize (Hfalse (Hcontract _ _ _ Hrm)).
    match goal with
    | |- context [alreadyHaveLatestCode src p ?s1] =>
        destruct (alreadyHaveLatestCode src p s1) as [s2 r2]
    end.
    cbn in *. subst r2.
    destruct (fetch_path_run E src p cfg s2 o)
      as (s3 & r & post & Hrun & Hsteps & Htr3 & _ & _); [by rewrite Ho2|].
    rewrite Hm2, Hg2, Hw2 in Hsteps.
    destruct (fetch_steps_trace E _ _ _ _ _ _ _ _ Hsteps)
      as (_ & _ & _ & _ & _ & [res Hhead] & _).
    exists s3, r, cc, post, res.
    split; [done|]. rewrite Htr3, Htr2, <- !app_assoc. done.
Qed.

(** C5. The working directory of the caller's options is set to the
    fetched one in a run where the source resolved, the conditional
    download returned without error and the overlay succeeded, and in no
    other: an error of any of the three is the error of the acquisition,
    and after an error the caller's options are what they were. *)
Theorem working_dir_repointed_only_on_success source p cfg s o :
  opts s !! p = Some o ->
  exists s' r,
    downloadTerraformSource source p cfg s = (s', r) /\
    r <> Panic /\
    (forall e, r = Err e -> opts s' !! p = Some o) /\
    (r = Ok tt ->
       exists src s1,
         config_ProcessTerraformSource E source o = inr src /\
         downloadTerraformSourceIfNecessary src p cfg s = (s1, Ok tt) /\
         (util_CopyFolderContents E (options.WorkingDir o) (config.WorkingDir src)
            MODULE_MANIFEST_NAME (world s1)).2 = inr tt /\
         opts s' !! p = Some (set_WorkingDir o (config.WorkingDir src))) /\
    (forall e, config_ProcessTerraformSource E source o = inl e -> r = Err e) /\
    (forall src s1 e,
       config_ProcessTerraformSource E source o = inr src ->
       downloadTerraformSourceIfNecessary src p cfg s = (s1, Err e) ->
       r = Err e) /\
    (forall src s1 e,
       config_ProcessTerraformSource E source o = inr src ->
       downloadTerraformSourceIfNecessary src p cfg s = (s1, Ok tt) ->
       (util_CopyFolderContents E (options.WorkingDir o) (config.WorkingDir src)
          MODULE_MANIFEST_NAME (world s1)).2 = inl e ->
       r = Err e).
Proof.
  intros Hp.
  rewrite (downloadTerraformSource_unfold E source p cfg s o Hp).
  destruct (config_ProcessTerraformSource E source o) as [e|src] eqn:Hres.
  { exists s, (Err e). repeat split; try done; intros; congruence. }
  destruct (downloadTerraformSourceIfNecessary_steps E src p cfg s o Hp)
    as (s1 & r1 & tr & Hrun & Htr & Hsteps & Hp1 & _ & _).
  rewrite Hrun.
  assert (Hsame : forall src0 s0 r0,
            inr src = inr (A := error) src0 ->
            downloadTerraformSourceIfNecessary src0 p cfg s = (s0, r0) ->
            src0 = src /\ s0 = s1 /\ r0 = r1).
  { intros src0 s0 r0 [= <-] Hrun0. rewrite Hrun in Hrun0. by injection Hrun0 as <- <-. }
  destruct r1 as [[]|e|].
  - rewrite (overlay_run E src p s1 o Hp1). cbn.
    destruct (util_CopyFolderContents E _ _ _ (world s1)) as [w' [e|[]]] eqn:Hcopy;
      cbn; eexists _, _; (split; [reflexivity|]); cbn.
    + split; [done|]. split; [done|]. split; [done|].
      split; [intros; congruence|].
      split.
      { intros src0 s0 e0 H1 H2. by destruct (Hsame _ _ _ H1 H2) as (_ & _ & ?). }
      intros src0 s0 e0 H1 H2. destruct (Hsame _ _ _ H1 H2) as (-> & -> & _).
      rewrite Hcopy. cbn. congruence.
    + split; [done|]. split; [done|].
      split.
      { intros _. exists src, s1. rewrite Hcopy. cbn.
        do 3 (split; [done|]).
        apply list_lookup_insert_eq. by eapply lookup_lt_Some. }
      split; [intros; congruence|].
      split.
      { intros src0 s0 e0 H1 H2. by destruct (Hsame _ _ _ H1 H2) as (_ & _ & ?). }
      intros src0 s0 e0 H1 H2. destruct (Hsame _ _ _ H1 H2) as (-> & -> & _).
      rewrite Hcopy. cbn. congruence.
  - eexists _, _. split; [reflexivity|].
    split; [done|]. split; [by intros|]. split; [done|].
    split; [intros; congruence|].
    split.
    { intros src0 s0 e0 H1 H2. destruct (Hsame _ _ _ H1 H2) as (_ & _ & ?).
      congruence. }
    intros src0 s0 e0 H1 H2. by destruct (Hsame _ _ _ H1 H2) as (_ & _ & ?).
  - exfalso. by destruct (necessary_steps_trace E _ _ _ _ _ Hsteps)
      as (_ & _ & _ & _ & _ & Hnp).
Qed.

(** C7. The hooks of the download run against the struct that [Clone]
    allocated, with the command set to the download command and no other
    field changed: it is a struct of its own, at an address that was not
    on the heap before, and every struct that was on the heap, the
    caller's options among them, is left as it was. *)
Theorem download_hooks_run_on_clone src p cfg s o :
  opts s !! p = Some o ->
  let clone := options_Clone E o (TerragruntConfigPath o) in
  exists s' r tr,
    downloadTerraformSourceIfNecessary src p cfg s = (s', r) /\
    trace s' = trace s ++ tr /\
    opts s' !! p = Some o /\
    (forall q o', opts s !! q = Some o' -> opts s' !! q = Some o') /\
    (forall ph o' res, EvProcessHooks ph o' res ∈ tr ->
       o' = set_TerraformCommand clone CMD_INIT_FROM_MODULE /\
       TerraformCommand o' = CMD_INIT_FROM_MODULE /\
       TerragruntConfigPath o' = TerragruntConfigPath clone /\
       options.WorkingDir o' = options.WorkingDir clone /\
       options.Source o' = options.Source clone /\
       SourceUpdate o' = SourceUpdate clone /\
       opts s !! List.length (opts s) = None /\
       opts s' !! List.length (opts s) = Some o' /\
       List.length (opts s) <> p).
Proof.
  intros Hp clone.
  destruct (downloadTerraformSourceIfNecessary_steps E src p cfg s o Hp)
    as (s' & r & tr & Hrun & Htr & Hsteps & Hp' & Hopts & _).
  destruct (necessary_steps_trace E _ _ _ _ _ Hsteps)
    as (_ & _ & _ & Hhooks & _ & _).
  exists s', r, tr. split; [done|]. split; [done|]. split; [done|].
  split.
  { intros q o' Hq. destruct Hopts as [[-> _]| ->]; [done|].
    by apply lookup_app_l_Some. }
  intros ph o' res Hin. pose proof (Hhooks _ _ _ Hin) as ->.
  split; [done|]. do 5 (split; [done|]).
  split; [apply lookup_ge_None; lia|].
  destruct Hopts as [[_ Hle]| ->].
  - exfalso. rewrite Forall_forall in Hle. apply Hle in Hin. cbn in Hin. lia.
  - split; [apply lookup_snoc|].
    apply lookup_lt_Some in Hp. lia.
Qed.

(** C9. When the cache check runs into a glob that fails, or into a
    marker that is there and cannot be read, it returns that error, the
    glob's wrapped by errors.WithStackTrace; the conditional download and
    the whole acquisition return the same error. The only calls made after
    the state [s1] in which the check started are those of the check: no
    hook, no transfer, no write of the marker, no overlay; and the options
    on the heap are untouched. *)
Theorem cache_check_error_aborts source p cfg s o src e :
  opts s !! p = Some o ->
  config_ProcessTerraformSource E source o = inr src ->
  SourceUpdate o = false \/
    (os_RemoveAll E (DownloadDir src) (world s)).2 = inr tt ->
  let s1 := after_forced_removal o src s in
  cache_check_fails src (world s1) e ->
  exists s' cc,
    alreadyHaveLatestCode src p s1 = (s', Err e) /\
    downloadTerraformSourceIfNecessary src p cfg s = (s', Err e) /\
    downloadTerraformSource source p cfg s = (s', Err e) /\
    trace s' = trace s1 ++ cc /\
    forallb is_cache_check cc = true /\
    world s' = world s1 /\
    opts s' = opts s.
Proof.
  intros Hp Hres Hrm s1 Hfail.
  pose proof (alreadyHaveLatestCode_fails E src p s1 e Hfail) as Herr.
  pose proof (alreadyHaveLatestCode_frame E src p s1)
    as (cc & (Hw2 & Ho2 & _) & Htr2 & Hcc & _).
  destruct (after_forced_removal_store E o src s) as (Ho1 & _).
  rewrite (downloadTerraformSource_unfold E source p cfg s o Hp), Hres.
  rewrite (downloadTerraformSourceIfNecessary_unfold E src p cfg s o Hp Hrm).
  fold s1. destruct (alreadyHaveLatestCode src p s1) as [s2 r2].
  cbn in *. subst r2.
  exists s2, cc. rewrite Ho2. done.
Qed.

End Theorems.

(** ** Strings and paths *)

#[local] Arguments Ascii.eqb : simpl never.
#[local] Arguments String.eqb : simpl never.
#[local] Arguments String.append !_ _ / : simpl nomatch.

Lemma strip_prefix_app p r : strip_prefix p (p +:+ r) = Some r.
Proof.
  induction p as [|c p IH]; cbn; [done|]. by rewrite Ascii.eqb_refl.
Qed.

Lemma strip_prefix_Some p s r : strip_prefix p s = Some r -> s = p +:+ r.
Proof.
  revert s. induction p as [|c p IH]; intros s; cbn.
  - by intros [= ->].
  - destruct s as [|d s]; [done|].
    destruct (Ascii.eqb_spec c d) as [->|]; [|done].
    intros H. by rewrite (IH _ H).
Qed.

Lemma append_assoc a b c : (a +:+ b) +:+ c = a +:+ b +:+ c.
Proof. induction a as [|d a IH]; cbn; [done|]. by rewrite IH. Qed.

Lemma strip_prefix_app_assoc a b c : strip_prefix (a +:+ b) (a +:+ b +:+ c) = Some c.
Proof. rewrite <- append_assoc. apply strip_prefix_app. Qed.

Lemma contains_app c a b : contains c (a +:+ b) = contains c a || contains c b.
Proof.
  induction a as [|d a IH]; cbn; [done|]. rewrite IH. by rewrite orb_assoc.
Qed.

Lemma chop_last_snoc a c : chop_last (a +:+ String c EmptyString) = a.
Proof.
  induction a as [|d a IH]; cbn; [done|]. rewrite IH.
  by destruct a.
Qed.

Lemma hasMeta_app a b :
  filepath.hasMeta (a +:+ b) = filepath.hasMeta a || filepath.hasMeta b.
Proof.
  unfold filepath.hasMeta. rewrite !contains_app.
  repeat match goal with |- context [contains ?c ?x] => destruct (contains c x) end;
    reflexivity.
Qed.

Lemma Split_no_separator f :
  contains "/" f = false -> filepath.Split f = (EmptyString, f).
Proof.
  induction f as [|c f IH]; cbn; [done|].
  intros H. apply orb_false_iff in H as [Hc Hf].
  rewrite (IH Hf). rewrite Ascii.eqb_sym in Hc. by rewrite Hc.
Qed.

Lemma Split_last_separator d f :
  contains "/" f = false ->
  filepath.Split (d +:+ "/" +:+ f) = (d +:+ "/", f).
Proof.
  intros Hf. induction d as [|c d IH]; cbn.
  - by rewrite (Split_no_separator f Hf).
  - cbn in IH. rewrite IH. by destruct d.
Qed.

Lemma cleanGlobPath_dir d :
  d <> "" -> filepath.cleanGlobPath (d +:+ "/") = d.
Proof.
  intros Hd. unfold filepath.cleanGlobPath.
  destruct (String.eqb_spec (d +:+ "/") "") as [Heq|_].
  { by destruct d. }
  destruct (String.eqb_spec (d +:+ "/") "/") as [Heq|_].
  { destruct d as [|c d]; [done|]. cbn in Heq. injection Heq as _ Heq.
    by destruct d. }
  apply (chop_last_snoc d "/").
Qed.

(** A path without magic bytes parses as itself. *)
Lemma parse_literal a b :
  filepath.hasMeta a = false ->
  filepath.parse filepath.PTop (a +:+ b) =
  (fun ts => map filepath.TLit (list_ascii_of_string a) ++ ts)
    <$> filepath.parse filepath.PTop b.
Proof.
  induction a as [|c a IH]; intros Hm.
  - cbn. by destruct (filepath.parse _ b).
  - unfold filepath.hasMeta in Hm. cbn in Hm.
    repeat (apply orb_false_iff in Hm as [Hm ?]).
    repeat match goal with
           | H : _ || _ = false |- _ => apply orb_false_iff in H as [? ?]
           end.
    cbn. rewrite (Ascii.eqb_sym c "*"), (Ascii.eqb_sym c "?"),
      (Ascii.eqb_sym c "["), (Ascii.eqb_sym c "\").
    repeat match goal with H : Ascii.eqb _ c = false |- _ => rewrite H; clear H end.
    rewrite IH.
    + by destruct (filepath.parse _ b).
    + unfold filepath.hasMeta.
      repeat match goal with H : contains _ a = false |- _ => rewrite H; clear H end.
      done.
Qed.

Lemma star_ext (k k' : string -> bool) name :
  (forall s, k s = k' s) -> filepath.star k name = filepath.star k' name.
Proof.
  intros Hk. induction name as [|c name IH]; cbn; rewrite Hk; [done|].
  by rewrite IH.
Qed.

Lemma match_dot_tf s :
  filepath.match_terms [filepath.TLit "."; filepath.TLit "t"; filepath.TLit "f"] s
  = String.eqb s ".tf".
Proof.
  apply eq_true_iff_eq. rewrite String.eqb_eq. split.
  - destruct s as [|c1 [|c2 [|c3 [|c4 r]]]]; cbn;
      rewrite ?andb_false_r; try done.
    rewrite !andb_true_iff, !Ascii.eqb_eq. by intros (<- & <- & <- & _).
  - by intros ->.
Qed.

(** The pattern [*.tf] matches the names that end in [.tf] and have no
    separator. *)
Lemma star_dot_tf name :
  filepath.Match "*.tf" name =
  inr (filepath.star (fun s => String.eqb s ".tf") name).
Proof.
  unfold filepath.Match. cbn. f_equal. apply star_ext, match_dot_tf.
Qed.

(** What [star] accepts with that continuation. *)
Lemma star_dot_tf_true name :
  filepath.star (fun s => String.eqb s ".tf") name = true <->
  exists stem, name = stem +:+ ".tf" /\ contains "/" stem = false.
Proof.
  induction name as [|c name IH]; cbn.
  - split; [done|]. intros (stem & Hs & _). by destruct stem.
  - rewrite orb_true_iff, andb_true_iff, IH, String.eqb_eq, negb_true_iff.
    split.
    + intros [->|[Hc (stem & -> & Hstem)]].
      * by exists "".
      * exists (String c stem). cbn. rewrite Ascii.eqb_sym, Hc. done.
    + intros (stem & Hs & Hstem). destruct stem as [|d stem].
      * left. done.
      * right. cbn in Hs. injection Hs as -> ->.
        cbn in Hstem. apply orb_false_iff in Hstem as [Hc Hstem].
        rewrite Ascii.eqb_sym. eauto.
Qed.

(** ** Fuel of the glob *)

Lemma chop_last_length s :
  String.length (chop_last s) = Nat.pred (String.length s).
Proof.
  induction s as [|c s IH]; cbn; [done|].
  destruct s as [|d s]; [done|]. cbn in *. by rewrite IH.
Qed.

Lemma Split_length path :
  String.length (filepath.Split path).1 + String.length (filepath.Split path).2
  = String.length path.
Proof.
  induction path as [|c path IH]; cbn; [done|].
  destruct (filepath.Split path) as [dir file]. cbn in IH.
  destruct dir as [|d dir]; cbn in *.
  - destruct (Ascii.eqb c "/"); cbn; lia.
  - lia.
Qed.

(** A directory part that has magic bytes is shorter than the pattern it
    was split from. *)
Lemma cleanGlobPath_shorter pattern :
  filepath.hasMeta (filepath.cleanGlobPath (filepath.Split pattern).1) = true ->
  String.length (filepath.cleanGlobPath (filepath.Split pattern).1)
  < String.length pattern.
Proof.
  pose proof (Split_length pattern) as Hlen.
  destruct (filepath.Split pattern) as [dir file]. cbn [fst snd] in *.
  unfold filepath.cleanGlobPath.
  destruct (String.eqb_spec dir "") as [->|Hne]; [done|].
  destruct (String.eqb_spec dir "/") as [->|Hne']; [done|].
  intros _. rewrite chop_last_length.
  destruct dir; [done|]. cbn in *. lia.
Qed.

(** With more fuel than the pattern is long, the fuel does not matter:
    [filepath.Glob] never runs out of it. *)
Lemma Glob_rec_fuel fs n m pattern :
  String.length pattern < n -> String.length pattern < m ->
  filepath.Glob_rec n pattern fs = filepath.Glob_rec m pattern fs.
Proof.
  revert m pattern. induction n as [|n IH]; intros m pattern Hn Hm; [lia|].
  destruct m as [|m]; [lia|]. cbn [filepath.Glob_rec].
  destruct (negb (filepath.hasMeta pattern)); [done|].
  pose proof (cleanGlobPath_shorter pattern) as Hshort.
  destruct (filepath.Split pattern) as [dir file]. cbn [fst] in Hshort.
  destruct (filepath.hasMeta (filepath.cleanGlobPath dir)) eqn:Hmeta; cbn [negb];
    [|done].
  destruct (String.eqb (filepath.cleanGlobPath dir) pattern); [done|].
  specialize (Hshort eq_refl).
  by rewrite (IH m (filepath.cleanGlobPath dir)) by lia.
Qed.

(** ** The glob of the cache check *)

Lemma child_name_Some dir path name :
  filepath.child_name dir path = Some name <->
  path = filepath.Join dir name /\ name <> "" /\ contains "/" name = false.
Proof.
  unfold filepath.child_name, filepath.Join. split.
  - destruct (strip_prefix _ path) as [n|] eqn:Hs; [|done].
    apply strip_prefix_Some in Hs.
    destruct (String.eqb_spec n ""); cbn; [done|].
    destruct (contains "/" n) eqn:Hc; [done|]. by intros [= <-].
  - intros (-> & Hne & Hc). rewrite strip_prefix_app, Hc.
    by destruct (String.eqb_spec name "").
Qed.

Lemma Readdirnames_elem dir fs name :
  name ∈ filepath.Readdirnames dir fs <->
  name <> "" /\ contains "/" name = false /\
  is_Some (fs !! filepath.Join dir name).
Proof.
  unfold filepath.Readdirnames.
  rewrite merge_sort_Permutation, list_elem_of_omap. split.
  - intros (path & Hin & Hchild).
    apply child_name_Some in Hchild as (-> & Hne & Hc).
    apply list_elem_of_fmap in Hin as ([path node] & Hpath & Hin).
    cbn in Hpath. subst path. apply elem_of_map_to_list in Hin. eauto.
  - intros (Hne & Hc & [node Hnode]).
    exists (filepath.Join dir name). split.
    + apply list_elem_of_fmap. exists (filepath.Join dir name, node).
      split; [done|]. by apply elem_of_map_to_list.
    + by apply child_name_Some.
Qed.

(** The loop of [glob] for the pattern [*.tf]. *)
Lemma glob_tf_loop dir names matches :
  foldl
    (fun (acc : result (list string)) n =>
       match acc with
       | inl e => inl e
       | inr m =>
           match filepath.Match "*.tf" n with
           | inl e => inl e
           | inr true => inr (m ++ [filepath.Join dir n])
           | inr false => inr m
           end
       end)
    (inr matches) names
  = inr (matches ++
         map (filepath.Join dir)
             (List.filter (filepath.star (fun s => String.eqb s ".tf")) names)).
Proof.
  revert matches. induction names as [|n names IH]; intros matches.
  - cbn. by rewrite app_nil_r.
  - cbn [foldl List.filter]. rewrite star_dot_tf.
    destruct (filepath.star _ n); rewrite IH; [|done].
    by rewrite <- app_assoc.
Qed.

(** For a working directory whose path has no magic bytes, the glob of
    the cache check is one call of [glob] on that directory. *)
Lemma Glob_working_dir wd fs :
  filepath.hasMeta wd = false -> wd <> "" ->
  filepath.Glob (wd +:+ "/*.tf") fs = filepath.glob wd "*.tf" [] fs.
Proof.
  intros Hm Hne. unfold filepath.Glob.
  rewrite (parse_literal wd "/*.tf" Hm). cbn [fmap option_fmap option_map].
  change (filepath.parse filepath.PTop "/*.tf")
    with (Some [filepath.TLit "/"; filepath.TStar; filepath.TLit ".";
                filepath.TLit "t"; filepath.TLit "f"]).
  cbn [fmap option_fmap option_map filepath.Glob_rec].
  rewrite hasMeta_app.
  change (filepath.hasMeta "/*.tf") with true. rewrite orb_true_r. cbn [negb].
  change (wd +:+ "/*.tf") with (wd +:+ "/" +:+ "*.tf").
  rewrite (Split_last_separator wd "*.tf" eq_refl).
  rewrite (cleanGlobPath_dir wd Hne), Hm. done.
Qed.

(** The glob of the cache check finds the entries directly inside the
    working directory whose name ends in [.tf], and nothing else. *)
Lemma Glob_working_dir_elem wd fs :
  filepath.hasMeta wd = false -> wd <> "" ->
  exists tfFiles,
    filepath.Glob (wd +:+ "/*.tf") fs = inr tfFiles /\
    forall path,
      path ∈ tfFiles <->
      fs !! wd = Some Dir /\
      exists stem,
        contains "/" stem = false /\
        path = filepath.Join wd (stem +:+ ".tf") /\
        is_Some (fs !! path).
Proof.
  intros Hm Hne. rewrite (Glob_working_dir wd fs Hm Hne).
  unfold filepath.glob.
  destruct (fs !! wd) as [[content|]|] eqn:Hwd.
  1,3: exists []; split; [done|]; intros path; split;
         [by intros ?%elem_of_nil|by intros [? _]].
  rewrite glob_tf_loop. eexists. split; [reflexivity|].
  intros path. cbn [app]. rewrite list_elem_of_In, in_map_iff. split.
  - intros (name & <- & Hin). split; [done|].
    apply filter_In in Hin as [Hin Htf].
    apply list_elem_of_In, Readdirnames_elem in Hin as (_ & Hc & Hsome).
    apply star_dot_tf_true in Htf as (stem & -> & Hstem). eauto.
  - intros (_ & stem & Hstem & -> & Hsome).
    exists (stem +:+ ".tf"). split; [done|].
    apply filter_In. split.
    + apply list_elem_of_In, Readdirnames_elem.
      split; [by destruct stem|]. split; [|done].
      by rewrite contains_app, Hstem.
    + apply star_dot_tf_true. eauto.
Qed.

(** ** The in-memory surroundings keep the contracts *)

Lemma mem_RemoveAll_removes (P : mem.Params) : RemoveAll_removes (mem.env P).
Proof.
  unfold RemoveAll_removes. cbn. intros path fs fs'.
  unfold mem.RemoveAll, mem.FileExists.
  destruct (String.eqb_spec path "") as [->|Hne]; [done|].
  destruct (String.eqb path "." || mem.has_suffix "/." path); [done|].
  intros [= <-]. cbn.
  apply bool_decide_eq_false. rewrite <- not_eq_None_Some. intros Hin. apply Hin.
  apply map_lookup_filter_None. right. intros node _. cbn.
  unfold mem.under. by rewrite String.eqb_refl.
Qed.

Lemma mem_marker_reads_back (P : mem.Params) src :
  marker_reads_back (mem.env P) src.
Proof.
  unfold marker_reads_back. cbn. intros fs fs'.
  unfold mem.WriteVersionFile, mem.ReadVersionFile.
  destruct (fs !! VersionFile src) as [[c|]|];
    destruct (fs !! mem.parent (VersionFile src)) as [[c'|]|]; try done.
  all: intros [= <-]; by rewrite lookup_insert_eq.
Qed.

(** The overlay writes the target directory and paths below it. *)
Lemma mem_overlay_outside from to manifest fs path :
  mem.under to path = false ->
  (mem.CopyFolderContents from to manifest fs).1 !! path = fs !! path.
Proof.
  intros Hout. unfold mem.under in Hout. apply orb_false_iff in Hout as [Hne Hpre].
  apply String.eqb_neq in Hne.
  unfold mem.CopyFolderContents.
  destruct (fs !! from) as [[c|]|]; [done| |done].
  destruct (fs !! to) as [[c|]|]; [done| |]; cbn.
  all: apply (map_fold_weak_ind (fun acc (_ : gmap string Node) =>
                acc !! path = fs !! path)).
  all: try (rewrite lookup_insert_ne; done).
  all: intros k node m acc _ IH.
  all: destruct (strip_prefix (from +:+ "/") k) as [rel|]; [|done].
  all: destruct (String.eqb rel manifest); [done|].
  all: rewrite lookup_insert_ne; [done|].
  all: intros Heq.
  all: assert (Hs : strip_prefix (to +:+ "/") path = Some rel)
         by (rewrite <- Heq; exact (strip_prefix_app_assoc to "/" rel)).
  all: by rewrite Hs in Hpre.
Qed.

Lemma mem_overlay_keeps_marker (P : mem.Params) o src :
  mem.under (config.WorkingDir src) (VersionFile src) = false ->
  overlay_keeps_marker (mem.env P) o src.
Proof.
  intros Hout. unfold overlay_keeps_marker. cbn. intros fs.
  unfold mem.ReadVersionFile. by rewrite mem_overlay_outside.
Qed.

(** What was there before the overlay is there after it. *)
Lemma mem_overlay_keeps_entries from to manifest fs path :
  is_Some (fs !! path) ->
  is_Some ((mem.CopyFolderContents from to manifest fs).1 !! path).
Proof.
  intros Hin. unfold mem.CopyFolderContents.
  destruct (fs !! from) as [[c|]|]; [done| |done].
  assert (Hbase : is_Some (<[to := Dir]> fs !! path)).
  { destruct (decide (to = path)) as [->|];
      [by rewrite lookup_insert_eq|by rewrite lookup_insert_ne]. }
  destruct (fs !! to) as [[c|]|]; [done| |]; cbn.
  all: apply (map_fold_weak_ind (fun acc (_ : gmap string Node) =>
                is_Some (acc !! path))); [done|].
  all: intros k node m acc _ IH.
  all: destruct (strip_prefix (from +:+ "/") k) as [rel|]; [|done].
  all: destruct (String.eqb rel manifest); [done|].
  all: apply lookup_insert_is_Some'; by right.
Qed.

(** A file that no entry is copied onto is left as it is by the overlay,
    also when the file lies inside the target directory. *)
Lemma mem_overlay_keeps_file from to manifest fs path content :
  fs !! path = Some (File content) ->
  mem.copied_onto from to manifest fs path = false ->
  (mem.CopyFolderContents from to manifest fs).1 !! path = Some (File content).
Proof.
  intros Hfile Hclear.
  assert (Hfold : forall base : gmap string Node,
            base !! path = Some (File content) ->
            map_fold
              (fun k node acc =>
                 match strip_prefix (from +:+ "/") k with
                 | Some rel =>
                     if String.eqb rel manifest then acc
                     else <[to +:+ "/" +:+ rel := node]> acc
                 | None => acc
                 end) base fs !! path = Some (File content)).
  { intros base Hbase.
    refine (map_fold_weak_ind
              (fun acc (m : gmap string Node) =>
                 m ⊆ fs -> acc !! path = Some (File content)) _ _ _ _ fs _);
      [done| |done].
    intros k node m acc Hk IH Hsub.
    assert (Hin : fs !! k = Some node)
      by (eapply lookup_weaken; [apply lookup_insert_eq|done]).
    assert (Hsub' : m ⊆ fs)
      by (etrans; [by apply insert_subseteq|done]).
    destruct (strip_prefix (from +:+ "/") k) as [rel|] eqn:Hrel; [|by apply IH].
    destruct (String.eqb rel manifest) eqn:Hman; [by apply IH|].
    rewrite lookup_insert_ne; [by apply IH|].
    intros Heq. unfold mem.copied_onto in Hclear. subst path.
    rewrite (strip_prefix_app_assoc to "/" rel), Hman in Hclear.
    apply strip_prefix_Some in Hrel. rewrite append_assoc in Hrel.
    rewrite <- Hrel, Hin in Hclear. done. }
  unfold mem.CopyFolderContents.
  destruct (fs !! from) as [[c|]|]; [done| |done].
  destruct (fs !! to) as [[c|]|] eqn:Hto; [done| |]; cbn.
  all: apply Hfold; rewrite lookup_insert_ne; [done|]; intros ->; congruence.
Qed.

(** ** A second acquisition *)

Section SecondRun.

Context (E : Env).

Implicit Types (s : State E) (src : TerraformSource) (o : TerragruntOptions).

(** After a conditional download that returned without error the marker
    reads back as the current fingerprint: either the cache was valid
    and nothing was written, or the fetch path wrote it last. *)
Lemma marker_current_after_download src p cfg s o s' :
  opts s !! p = Some o ->
  marker_reads_back E src ->
  downloadTerraformSourceIfNecessary src p cfg s = (s', Ok tt) ->
  config_ReadVersionFile E src (world s') =
    inr (config_EncodeSourceVersion E (CanonicalSourceURL src)).
Proof.
  intros Hp Hmarker Hrun.
  assert (Hrm : SourceUpdate o = false \/
                (os_RemoveAll E (DownloadDir src) (world s)).2 = inr tt).
  { destruct (SourceUpdate o) eqn:Hforce; [|by left]. right.
    destruct (os_RemoveAll E (DownloadDir src) (world s)) as [w1 [e|[]]] eqn:Hr;
      [|done].
    rewrite (downloadTerraformSourceIfNecessary_removal_fails E src p cfg s o e)
      in Hrun by (done || by rewrite Hr). done. }
  rewrite (downloadTerraformSourceIfNecessary_unfold E src p cfg s o Hp Hrm) in Hrun.
  pose proof (alreadyHaveLatestCode_frame E src p (after_forced_removal o src s))
    as (cc & (Hw2 & Ho2 & _) & _).
  pose proof (alreadyHaveLatestCode_true_inv E src p (after_forced_removal o src s))
    as Hinv.
  destruct (after_forced_removal_store E o src s) as (Ho1 & _).
  destruct (alreadyHaveLatestCode src p (after_forced_removal o src s))
    as [s2 [[]|e|]]; cbn in *; try done.
  - injection Hrun as <-. rewrite Hw2. by destruct (Hinv eq_refl) as (_ & _ & _ & _ & _ & ?).
  - destruct (fetch_path_run E src p cfg s2 o)
      as (s3 & r & post & Hrun' & Hsteps & _); [by rewrite Ho2, Ho1|].
    rewrite Hrun in Hrun'. injection Hrun' as <- <-.
    inversion Hsteps as [| | |w w1 w2 w3 w4 res Hb Hf Ha Hw]; subst.
    destruct res as [e|[]]; [done|]. by eapply Hmarker.
Qed.

End SecondRun.

(** C8, as amended. Take a remote reference, options without the force
    flag and a working directory whose path has none of the magic bytes
    of a glob. After an acquisition that returned without error and left
    the download directory, the working directory and the marker in
    place, with at least one entry directly inside the working directory
    whose name ends in [.tf], and with nothing in the operator's
    directory that the overlay copies onto the marker, a second
    acquisition of the same reference with the same options makes the
    calls of the cache check and the overlay and no other: no hook, no
    transfer, no write of the marker. The marker reads as before, and
    when the overlay succeeds the working directory of the options is the
    fetched one. *)
Theorem second_acquisition_skips_fetch (P : mem.Params) source cfg o src p
    (s s1 : State (mem.env P)) p2 (s2 : State (mem.env P)) :
  opts s !! p = Some o ->
  SourceUpdate o = false ->
  mem.resolve P source o = inr src ->
  mem.IsLocalSource (CanonicalSourceURL src) = false ->
  downloadTerraformSource source p cfg s = (s1, Ok tt) ->
  mem.FileExists (DownloadDir src) (world s1) = true ->
  mem.FileExists (config.WorkingDir src) (world s1) = true ->
  mem.FileExists (VersionFile src) (world s1) = true ->
  filepath.hasMeta (config.WorkingDir src) = false ->
  (world s1 : gmap string Node) !! config.WorkingDir src = Some Dir ->
  (exists stem,
     contains "/" stem = false /\
     is_Some ((world s1 : gmap string Node)
                !! filepath.Join (config.WorkingDir src) (stem +:+ ".tf"))) ->
  mem.copied_onto (options.WorkingDir o) (config.WorkingDir src)
    MODULE_MANIFEST_NAME (world s1) (VersionFile src) = false ->
  opts s2 !! p2 = Some o ->
  world s2 = world s1 ->
  exists s3 cc res,
    downloadTerraformSource source p2 cfg s2 = (s3, of_result res) /\
    trace s3 = trace s2 ++ cc ++
               [EvCopyFolderContents (options.WorkingDir o) (config.WorkingDir src)
                  MODULE_MANIFEST_NAME res] /\
    forallb is_cache_check cc = true /\
    Forall (fun ev => is_fetch ev = false /\ is_backend_call ev = false /\
                      is_marker_write ev = false)
           (cc ++ [EvCopyFolderContents (options.WorkingDir o)
                     (config.WorkingDir src) MODULE_MANIFEST_NAME res]) /\
    mem.ReadVersionFile src (world s3) = mem.ReadVersionFile src (world s1) /\
    mem.ReadVersionFile src (world s3) =
      inr (mem.encode P (CanonicalSourceURL src)) /\
    (res = inr tt ->
       opts s3 !! p2 = Some (set_WorkingDir o (config.WorkingDir src))).
Proof.
  intros Hp Hforce Hres Hremote Hrun1 Hd Hwd Hv Hmeta Hdir Htf Hclear Hp2 Hw.
  (* the first run: the download leaves a current marker, the overlay
     copies nothing onto it *)
  assert (Hfirst : exists w' : gmap string Node,
            mem.ReadVersionFile src w' =
              inr (mem.encode P (CanonicalSourceURL src)) /\
            world s1 = (mem.CopyFolderContents (options.WorkingDir o)
                          (config.WorkingDir src) MODULE_MANIFEST_NAME w').1).
  { rewrite (downloadTerraformSource_unfold (mem.env P) source p cfg s o Hp) in Hrun1.
    cbn [config_ProcessTerraformSource mem.env] in Hrun1. rewrite Hres in Hrun1.
    destruct (downloadTerraformSourceIfNecessary_steps (mem.env P) src p cfg s o Hp)
      as (s' & r1 & tr & Hrun & _ & _ & Hp1 & _ & _).
    rewrite Hrun in Hrun1. destruct r1 as [[]|e|]; [|done|done].
    rewrite (overlay_run (mem.env P) src p s' o Hp1) in Hrun1. cbn in Hrun1.
    injection Hrun1 as <- _. exists (world s'). split; [|done].
    exact (marker_current_after_download (mem.env P) src p cfg s o s' Hp
             (mem_marker_reads_back P src) Hrun). }
  destruct Hfirst as (w' & Hread' & Hw1).
  assert (Hfile : (world s1 : gmap string Node) !! VersionFile src =
                  Some (File (mem.encode P (CanonicalSourceURL src)))).
  { unfold mem.ReadVersionFile in Hread'.
    destruct (w' !! VersionFile src) as [[content|]|] eqn:Hm; try done.
    injection Hread' as ->. rewrite Hw1.
    apply mem_overlay_keeps_file; [done|].
    unfold mem.copied_onto in *.
    destruct (strip_prefix (config.WorkingDir src +:+ "/") (VersionFile src))
      as [rel|]; [|done].
    destruct (String.eqb rel MODULE_MANIFEST_NAME); [done|]. cbn in *.
    apply bool_decide_eq_false. apply bool_decide_eq_false in Hclear.
    intros Hin. apply Hclear. rewrite Hw1. by apply mem_overlay_keeps_entries. }
  assert (Hfp : mem.ReadVersionFile src (world s1) =
                inr (mem.encode P (CanonicalSourceURL src))).
  { unfold mem.ReadVersionFile. by rewrite Hfile. }
  (* the second run *)
  assert (Hne : config.WorkingDir src <> "").
  { intros Heq. unfold mem.FileExists in Hwd. by rewrite Heq in Hwd. }
  destruct (Glob_working_dir_elem (config.WorkingDir src) (world s1) Hmeta Hne)
    as (tfFiles & Hglob & Helem).
  assert (Hvalid : cache_valid src (world s2)).
  { rewrite Hw. unfold cache_valid. cbn. do 4 (split; [done|]). split; [|done].
    exists tfFiles. split; [done|]. intros ->.
    destruct Htf as (stem & Hstem & Hsome).
    eapply elem_of_nil. apply Helem. eauto 10. }
  rewrite (downloadTerraformSource_unfold (mem.env P) source p2 cfg s2 o Hp2).
  cbn [config_ProcessTerraformSource mem.env]. rewrite Hres.
  rewrite (downloadTerraformSourceIfNecessary_unfold (mem.env P) src p2 cfg s2 o Hp2)
    by by left.
  unfold after_forced_removal. rewrite Hforce.
  pose proof (alreadyHaveLatestCode_valid (mem.env P) src p2 s2 Hvalid) as Htrue.
  pose proof (alreadyHaveLatestCode_frame (mem.env P) src p2 s2)
    as (cc & (Hw2 & Ho2 & _) & Htr2 & Hcc & _).
  destruct (alreadyHaveLatestCode src p2 s2) as [s2' r2]. cbn [fst snd] in *.
  subst r2.
  rewrite (overlay_run (mem.env P) src p2 s2' o) by by rewrite Ho2.
  cbn. eexists _, cc, _. split; [reflexivity|]. cbn.
  rewrite Htr2, <- app_assoc.
  split; [done|]. split; [done|].
  split.
  { apply Forall_app. split; [|by repeat constructor].
    eapply Forall_impl; [by apply cache_check_phase|].
    intros ev Hev. by destruct ev. }
  rewrite Hw2, Hw, Hfp.
  assert (Hafter : mem.ReadVersionFile src
                     (mem.CopyFolderContents (options.WorkingDir o)
                        (config.WorkingDir src) MODULE_MANIFEST_NAME (world s1)).1 =
                   inr (mem.encode P (CanonicalSourceURL src))).
  { unfold mem.ReadVersionFile at 1.
    by rewrite (mem_overlay_keeps_file _ _ _ _ _ _ Hfile Hclear). }
  split; [done|]. split; [done|].
  intros Hok. rewrite Hok. rewrite Ho2.
  apply list_lookup_insert_eq. by eapply lookup_lt_Some.
Qed.

(** C8, two inputs at which the claim as it stands fails. In the first
    the module holds its configuration in [main.tf.json] only: the first
    acquisition fetches it, writes the marker, overlays the operator's
    files and returns without error; the second, on the filesystem the
    first one left and with the same options, finds no [*.tf] in the
    working directory and calls the fetch backend again. In the second
    the module has a [main.tf] and no subdirectory, so that the marker
    lies in the working directory, and the operator's directory holds a
    file with the name of the marker: the overlay of the first
    acquisition copies it over the marker that was just written, and the
    second acquisition reads a fingerprint that is not the current one
    and calls the fetch backend again. *)
Lemma second_acquisition_can_fetch_again :
  (let P := scenario.params scenario.module_json in
   let run1 :=
     downloadTerraformSource scenario.url 0 scenario.cfg
       (scenario.start P scenario.fs_empty_cache scenario.opts0) in
   let run2 :=
     downloadTerraformSource scenario.url 0 scenario.cfg
       (scenario.start P (world run1.1) scenario.opts0) in
   config_IsLocalSource (mem.env P) scenario.url = false /\
   run1.2 = Ok tt /\
   existsb is_backend_call (trace run2.1) = true) /\
  (let P := scenario.params_flat in
   let src := scenario.flat_src in
   let run1 :=
     downloadTerraformSource scenario.flat_url 0 scenario.flat_cfg
       (scenario.start P scenario.fs_marker_in_live scenario.opts0) in
   let run2 :=
     downloadTerraformSource scenario.flat_url 0 scenario.flat_cfg
       (scenario.start P (world run1.1) scenario.opts0) in
   config_IsLocalSource (mem.env P) scenario.flat_url = false /\
   run1.2 = Ok tt /\
   mem.FileExists (DownloadDir src) (world run1.1) = true /\
   mem.FileExists (VersionFile src) (world run1.1) = true /\
   (world run1.1 : gmap string Node) !! (config.WorkingDir src +:+ "/main.tf")
     = Some (File "resource") /\
   mem.ReadVersionFile src (world run1.1) = inr "sha1:elsewhere" /\
   existsb is_backend_call (trace run2.1) = true).
Proof. vm_compute. auto 12. Qed.

(** ** What the cache check takes for configuration files *)

(** On the in-memory filesystem, for a working directory whose path has
    none of the magic bytes of a glob: the cache check goes on to compare
    fingerprints exactly when the working directory is a directory with
    an entry directly inside it whose name ends in [.tf]; otherwise it
    answers false. Entries further down, and names that go on after
    [.tf], do not count. *)
Lemma tf_entries_decide_cache_check (P : mem.Params) src p (s : State (mem.env P)) :
  mem.IsLocalSource (CanonicalSourceURL src) = false ->
  mem.FileExists (DownloadDir src) (world s) = true ->
  mem.FileExists (config.WorkingDir src) (world s) = true ->
  mem.FileExists (VersionFile src) (world s) = true ->
  filepath.hasMeta (config.WorkingDir src) = false ->
  let counted :=
    (world s : gmap string Node) !! config.WorkingDir src = Some Dir /\
    exists stem,
      contains "/" stem = false /\
      is_Some ((world s : gmap string Node)
                 !! filepath.Join (config.WorkingDir src) (stem +:+ ".tf")) in
  (~ counted -> (alreadyHaveLatestCode src p s).2 = Ok false) /\
  (counted ->
     (alreadyHaveLatestCode src p s).2 =
     match mem.ReadVersionFile src (world s) with
     | inl e => Err e
     | inr previousVersion =>
         Ok (String.eqb previousVersion (mem.encode P (CanonicalSourceURL src)))
     end).
Proof.
  intros Hloc Hd Hwd Hv Hm counted.
  assert (Hne : config.WorkingDir src <> "").
  { intros Heq. unfold mem.FileExists in Hwd. by rewrite Heq in Hwd. }
  destruct (Glob_working_dir_elem (config.WorkingDir src) (world s) Hm Hne)
    as (tfFiles & Hglob & Helem).
  unfold alreadyHaveLatestCode, bind, test, query, call, with_stack_trace, ret.
  cbn. rewrite Hloc. cbn. rewrite Hd. cbn. rewrite Hwd. cbn. rewrite Hv. cbn.
  rewrite Hglob. cbn.
  destruct tfFiles as [|path tfFiles]; cbn.
  - split; [done|]. intros (Hdir & stem & Hstem & Hsome). exfalso.
    eapply elem_of_nil. apply Helem. eauto 10.
  - split.
    + intros Hnot. exfalso. apply Hnot.
      destruct (proj1 (Helem path)) as (Hdir & stem & Hstem & -> & Hsome);
        [by left|].
      split; [done|]. eauto.
    + intros _. by destruct (mem.ReadVersionFile src (world s)).
Qed.

(** A cache whose working directory holds configuration only one level
    down and in a file named [main.tf.json]: neither counts, and the
    check answers false although the marker is current. *)
Example nested_and_json_files_do_not_count :
  let P := scenario.params scenario.module_tf in
  let fs : gmap string Node :=
    list_to_map
      [("/cache", Dir); ("/cache/k1", Dir); ("/cache/k1/mod", Dir);
       ("/cache/k1/mod/main.tf.json", File "{}");
       ("/cache/k1/mod/sub", Dir);
       ("/cache/k1/mod/sub/main.tf", File "resource");
       ("/cache/k1/.terragrunt-source-version",
        File (scenario.encode scenario.url))] in
  let s := scenario.start P fs scenario.opts0 in
  filepath.Glob "/cache/k1/mod/*.tf" fs = inr [] /\
  mem.ReadVersionFile scenario.src fs = inr (scenario.encode scenario.url) /\
  (alreadyHaveLatestCode scenario.src 0 s).2 = Ok false.
Proof. vm_compute. auto. Qed.

(** C10, the code at an input where it parts from the claim. The path of
    the working directory has a bracket in it. The working directory
    exists and holds [main.tf] directly inside it, and the marker holds
    the fingerprint of the current URL; but the glob reads [[v2]] as a
    character class, finds nothing, and the cache check answers false. *)
Lemma bracket_in_path_hides_tf_files :
  let P := scenario.params scenario.module_tf in
  let s := scenario.start P scenario.fs_bracket scenario.opts0 in
  let src := scenario.bracket_src in
  mem.IsLocalSource (CanonicalSourceURL src) = false /\
  mem.FileExists (DownloadDir src) (world s) = true /\
  scenario.fs_bracket !! config.WorkingDir src = Some Dir /\
  scenario.fs_bracket !! (config.WorkingDir src +:+ "/main.tf") = Some (File "resource") /\
  mem.ReadVersionFile src (world s) = inr (mem.encode P (CanonicalSourceURL src)) /\
  filepath.Glob (config.WorkingDir src +:+ "/*.tf") scenario.fs_bracket = inr [] /\
  (alreadyHaveLatestCode src 0 s).2 = Ok false.
Proof. vm_compute. auto 10. Qed.

(** C1, the code at an input where it parts from the claim. The source
    is remote; the download directory, the working directory and the
    marker exist; the working directory holds [main.tf] directly inside
    it; the fingerprint stored in the marker is the one of the current
    canonical URL. The path of the download directory has a bracket in
    it, and [shouldFetch] answers true. *)
Lemma shouldFetch_true_with_current_marker_below_bracket :
  let P := scenario.params scenario.module_tf in
  let s := scenario.start P scenario.fs_bracket scenario.opts0 in
  let src := scenario.bracket_src in
  mem.IsLocalSource (CanonicalSourceURL src) = false /\
  mem.FileExists (DownloadDir src) (world s) = true /\
  mem.FileExists (config.WorkingDir src) (world s) = true /\
  mem.FileExists (VersionFile src) (world s) = true /\
  scenario.fs_bracket !! filepath.Join (config.WorkingDir src) "main.tf"
    = Some (File "resource") /\
  mem.ReadVersionFile src (world s) = inr (mem.encode P (CanonicalSourceURL src)) /\
  trace (shouldFetch src 0 s).1 =
    [EvFileExists (DownloadDir src) true;
     EvFileExists (config.WorkingDir src) true;
     EvFileExists (VersionFile src) true;
     EvGlob (config.WorkingDir src +:+ "/*.tf") (inr [])] /\
  (shouldFetch src 0 s).2 = Ok true.
Proof. vm_compute. auto 10. Qed.

(** * The theorems at the data of the scenario *)

(** X15 on the cached module: the marker holds the current fingerprint,
    and no fetch is asked for. *)
Lemma shouldFetch_false_iff_same_fingerprint_witness :
  let P := scenario.params scenario.module_tf in
  let s := scenario.start P scenario.fs_cached scenario.opts0 in
  exists fetch,
    (shouldFetch scenario.src 0 s).2 = Ok fetch /\
    (alreadyHaveLatestCode scenario.src 0 s).2 = Ok (negb fetch) /\
    (fetch = false <-> scenario.encode scenario.url = scenario.encode scenario.url) /\
    (fetch = true <-> scenario.encode scenario.url <> scenario.encode scenario.url).
Proof.
  intros P s.
  apply (shouldFetch_false_iff_same_fingerprint (mem.env P) scenario.src 0 s
           ["/cache/k1/mod/main.tf"] (scenario.encode scenario.url)).
  - reflexivity.
  - reflexivity.
  - reflexivity.
  - reflexivity.
  - vm_compute. reflexivity.
  - discriminate.
  - reflexivity.
Defined.

(** C2 on a local source, with a complete cache for it in place. *)
Lemma local_source_always_fetched_witness :
  let P := scenario.params scenario.module_tf in
  let fs : gmap string Node :=
    list_to_map
      [("/cache/k2", Dir); ("/cache/k2/mod", Dir);
       ("/cache/k2/mod/main.tf", File "resource");
       ("/cache/k2/.terragrunt-source-version",
        File (scenario.encode scenario.local_url))] in
  let s := scenario.start P fs scenario.opts0 in
  alreadyHaveLatestCode scenario.local_src 0 s = (s, Ok false) /\
  shouldFetch scenario.local_src 0 s = (s, Ok true).
Proof.
  intros P fs s.
  apply (local_source_always_fetched (mem.env P) scenario.local_src 0 s).
  reflexivity.
Defined.

(** C3 on the cached module with the update forced: the directory is
    removed and the module fetched again. *)
Lemma forced_update_removes_then_fetches_witness :
  let P := scenario.params scenario.module_tf in
  let s := scenario.start P scenario.fs_cached scenario.opts_forced in
  exists s' r cc post res,
    downloadTerraformSourceIfNecessary scenario.src 0 scenario.cfg s = (s', r) /\
    trace s' = trace s ++ [EvRemoveAll "/cache/k1" (inr tt)] ++ cc ++ post /\
    forallb is_cache_check cc = true /\
    @fetch_steps (mem.env P) scenario.src scenario.cfg
      (download_options (mem.env P) scenario.opts_forced)
      (registry_of (maps s) (getter_Getters s))
      (mem.RemoveAll "/cache/k1" scenario.fs_cached).1 post r (world s') /\
    head post =
      Some (EvProcessHooks BeforeHooks
              (download_options (mem.env P) scenario.opts_forced) res).
Proof.
  intros P s.
  apply (forced_update_removes_then_fetches (mem.env P) scenario.src 0
           scenario.cfg s scenario.opts_forced).
  - reflexivity.
  - reflexivity.
  - apply mem_RemoveAll_removes.
  - reflexivity.
Defined.

(** C4 on a first acquisition into an empty cache. *)
Lemma acquisition_order_and_fetch_abort_witness :
  let P := scenario.params scenario.module_tf in
  let s := scenario.start P scenario.fs_empty_cache scenario.opts0 in
  exists s' r tr,
    downloadTerraformSource scenario.url 0 scenario.cfg s = (s', r) /\
    trace s' = trace s ++ tr /\
    precedes is_cache_check is_fetch tr /\
    precedes is_fetch is_marker_write tr /\
    precedes is_marker_write is_overlay tr /\
    (forall ev, ev ∈ tr -> is_marker_write ev = true ->
       exists d u g, EvFetch d u g (inr tt) ∈ tr) /\
    (forall ph o' e, EvProcessHooks ph o' (inl e) ∈ tr ->
       r = Err e /\
       Forall (fun ev => is_marker_write ev = false /\ is_overlay ev = false) tr) /\
    (forall d u g e, EvFetch d u g (inl e) ∈ tr ->
       r = Err (WithStackTrace e) /\
       Forall (fun ev => is_marker_write ev = false /\ is_overlay ev = false) tr).
Proof.
  intros P s.
  apply (acquisition_order_and_fetch_abort (mem.env P) scenario.url 0
           scenario.cfg s scenario.opts0).
  reflexivity.
Defined.

(** C5 on a first acquisition into an empty cache. *)
Lemma working_dir_repointed_only_on_success_witness :
  let P := scenario.params scenario.module_tf in
  let s := scenario.start P scenario.fs_empty_cache scenario.opts0 in
  let o := scenario.opts0 in
  exists s' r,
    downloadTerraformSource scenario.url 0 scenario.cfg s = (s', r) /\
    r <> Panic /\
    (forall e, r = Err e -> opts s' !! 0 = Some o) /\
    (r = Ok tt ->
       exists src s1,
         scenario.resolve scenario.url o = inr src /\
         downloadTerraformSourceIfNecessary src 0 scenario.cfg s = (s1, Ok tt) /\
         (mem.CopyFolderContents (options.WorkingDir o) (config.WorkingDir src)
            MODULE_MANIFEST_NAME (world s1)).2 = inr tt /\
         opts s' !! 0 = Some (set_WorkingDir o (config.WorkingDir src))) /\
    (forall e, scenario.resolve scenario.url o = inl e -> r = Err e) /\
    (forall src s1 e,
       scenario.resolve scenario.url o = inr src ->
       downloadTerraformSourceIfNecessary src 0 scenario.cfg s = (s1, Err e) ->
       r = Err e) /\
    (forall src s1 e,
       scenario.resolve scenario.url o = inr src ->
       downloadTerraformSourceIfNecessary src 0 scenario.cfg s = (s1, Ok tt) ->
       (mem.CopyFolderContents (options.WorkingDir o) (config.WorkingDir src)
          MODULE_MANIFEST_NAME (world s1)).2 = inl e ->
       r = Err e).
Proof.
  intros P s o.
  apply (working_dir_repointed_only_on_success (mem.env P) scenario.url 0
           scenario.cfg s scenario.opts0).
  reflexivity.
Defined.

(** C6 on the default backends of go-getter. *)
Lemma copyFiles_fresh_registry_witness :
  let P := scenario.params scenario.module_tf in
  let s := scenario.start P scenario.fs_empty_cache scenario.opts0 in
  let defaults := map_contents s (getter_Getters s) in
  exists s' fresh registry,
    copyFiles {| Getters := None |} s = (s', Ok {| Getters := Some fresh |}) /\
    maps s !! fresh = None /\
    maps s' !! fresh = Some registry /\
    dom registry = dom defaults /\
    (forall name g, name <> "file" ->
       defaults !! name = Some g -> registry !! name = Some g) /\
    (forall g, defaults !! "file" = Some g ->
       registry !! "file" = Some FileCopyGetter) /\
    (forall r, r < List.length (maps s) -> maps s' !! r = maps s !! r) /\
    getter_Getters s' = getter_Getters s /\
    map_contents s' (getter_Getters s') = defaults /\
    world s' = world s /\ opts s' = opts s /\ trace s' = trace s /\
    exists s'' fresh',
      copyFiles {| Getters := None |} s' = (s'', Ok {| Getters := Some fresh' |}) /\
      fresh' <> fresh /\
      maps s'' !! fresh' = Some registry /\
      maps s'' !! fresh = Some registry.
Proof.
  intros P s defaults.
  apply (copyFiles_fresh_registry (mem.env P) {| Getters := None |}
           {| Getters := None |} s).
  intros a [= <-]. cbn. lia.
Defined.

(** C7 on a first acquisition into an empty cache. *)
Lemma download_hooks_run_on_clone_witness :
  let P := scenario.params scenario.module_tf in
  let s := scenario.start P scenario.fs_empty_cache scenario.opts0 in
  let o := scenario.opts0 in
  let clone := mem.Clone o (TerragruntConfigPath o) in
  exists s' r tr,
    downloadTerraformSourceIfNecessary scenario.src 0 scenario.cfg s = (s', r) /\
    trace s' = trace s ++ tr /\
    opts s' !! 0 = Some o /\
    (forall q o', opts s !! q = Some o' -> opts s' !! q = Some o') /\
    (forall ph o' res, EvProcessHooks ph o' res ∈ tr ->
       o' = set_TerraformCommand clone CMD_INIT_FROM_MODULE /\
       TerraformCommand o' = CMD_INIT_FROM_MODULE /\
       TerragruntConfigPath o' = TerragruntConfigPath clone /\
       options.WorkingDir o' = options.WorkingDir clone /\
       options.Source o' = options.Source clone /\
       SourceUpdate o' = SourceUpdate clone /\
       opts s !! List.length (opts s) = None /\
       opts s' !! List.length (opts s) = Some o' /\
       List.length (opts s) <> 0).
Proof.
  intros P s o clone.
  apply (download_hooks_run_on_clone (mem.env P) scenario.src 0 scenario.cfg s o).
  reflexivity.
Defined.

(** C8 as amended, on the module that has a [main.tf]: fetched by the
    first acquisition, found in the cache by the second. *)
Lemma second_acquisition_skips_fetch_witness :
  let P := scenario.params scenario.module_tf in
  let o := scenario.opts0 in
  let src := scenario.src in
  let s := scenario.start P scenario.fs_empty_cache o in
  let s1 := (downloadTerraformSource scenario.url 0 scenario.cfg s).1 in
  let s2 := scenario.start P (world s1) o in
  exists s3 cc res,
    downloadTerraformSource scenario.url 0 scenario.cfg s2 = (s3, of_result res) /\
    trace s3 = trace s2 ++ cc ++
               [EvCopyFolderContents (options.WorkingDir o) (config.WorkingDir src)
                  MODULE_MANIFEST_NAME res] /\
    forallb is_cache_check cc = true /\
    Forall (fun ev => is_fetch ev = false /\ is_backend_call ev = false /\
                      is_marker_write ev = false)
           (cc ++ [EvCopyFolderContents (options.WorkingDir o)
                     (config.WorkingDir src) MODULE_MANIFEST_NAME res]) /\
    mem.ReadVersionFile src (world s3) = mem.ReadVersionFile src (world s1) /\
    mem.ReadVersionFile src (world s3) = inr (scenario.encode scenario.url) /\
    (res = inr tt ->
       opts s3 !! 0 = Some (set_WorkingDir o (config.WorkingDir src))).
Proof.
  intros P o src s s1 s2.
  apply (second_acquisition_skips_fetch P scenario.url scenario.cfg
           o src 0 s s1 0 s2).
  - reflexivity.
  - reflexivity.
  - reflexivity.
  - reflexivity.
  - vm_compute. reflexivity.
  - vm_compute. reflexivity.
  - vm_compute. reflexivity.
  - vm_compute. reflexivity.
  - reflexivity.
  - vm_compute. reflexivity.
  - exists "main". split; vm_compute; eauto.
  - vm_compute. reflexivity.
  - reflexivity.
  - reflexivity.
Defined.

(** C9 on a cache whose marker is a directory: it exists and cannot be
    read. *)
Lemma cache_check_error_aborts_witness :
  let P := scenario.params scenario.module_tf in
  let o := scenario.opts0 in
  let src := scenario.src in
  let s := scenario.start P scenario.fs_unreadable_marker o in
  let s1 := after_forced_removal o src s in
  exists s' cc,
    alreadyHaveLatestCode src 0 s1 = (s', Err mem.EISDIR) /\
    downloadTerraformSourceIfNecessary src 0 scenario.cfg s = (s', Err mem.EISDIR) /\
    downloadTerraformSource scenario.url 0 scenario.cfg s = (s', Err mem.EISDIR) /\
    trace s' = trace s1 ++ cc /\
    forallb is_cache_check cc = true /\
    world s' = world s1 /\
    opts s' = opts s.
Proof.
  intros P o src s s1.
  apply (cache_check_error_aborts (mem.env P) scenario.url 0 scenario.cfg s o src
           mem.EISDIR).
  - reflexivity.
  - reflexivity.
  - left. reflexivity.
  - split; [reflexivity|]. split; [reflexivity|]. split; [reflexivity|].
    split; [reflexivity|]. right.
    exists ["/cache/k1/mod/main.tf"].
    split; [vm_compute; reflexivity|]. split; [discriminate|]. reflexivity.
Defined.

(** * Further properties of the code *)

(** ** The code runs by the step relations *)

Section StepsOfTheCode.

Context (E : Env).

Implicit Types (s : State E) (src : TerraformSource) (o : TerragruntOptions).

Lemma alreadyHaveLatestCode_run src p s :
  exists s' r cc,
    alreadyHaveLatestCode src p s = (s', r) /\
    same_store s s' /\
    trace s' = trace s ++ cc /\
    check_steps src (world s) cc r.
Proof.
  unfold same_store, alreadyHaveLatestCode, bind, test, query, call,
    with_stack_trace, ret, of_result. cbn.
  destruct (config_IsLocalSource E _) eqn:Hloc; cbn.
  { eexists _, _, []. split; [reflexivity|]. rewrite app_nil_r.
    split; [done|]. split; [done|]. by constructor. }
  destruct (util_FileExists E (DownloadDir src) _) eqn:Hd; cbn.
  2:{ eexists _, _, _. split; [reflexivity|]. cbn.
      split; [done|]. split; [done|]. by constructor. }
  destruct (util_FileExists E (config.WorkingDir src) _) eqn:Hw; cbn.
  2:{ eexists _, _, _. split; [reflexivity|]. cbn. rewrite <- app_assoc.
      split; [done|]. split; [done|]. by constructor. }
  destruct (util_FileExists E (VersionFile src) _) eqn:Hv; cbn.
  2:{ eexists _, _, _. split; [reflexivity|]. cbn. rewrite <- !app_assoc.
      split; [done|]. split; [done|]. by constructor. }
  destruct (filepath_Glob E _ _) as [e|tfFiles] eqn:Hg; cbn.
  { eexists _, _, _. split; [reflexivity|]. cbn. rewrite <- !app_assoc.
    split; [done|]. split; [done|]. by constructor. }
  destruct tfFiles as [|f tfFiles]; cbn.
  { eexists _, _, _. split; [reflexivity|]. cbn. rewrite <- !app_assoc.
    split; [done|]. split; [done|]. by constructor. }
  destruct (config_ReadVersionFile E _ _) as [e|v] eqn:Hr; cbn.
  - eexists _, _, _. split; [reflexivity|]. cbn. rewrite <- !app_assoc.
    split; [done|]. split; [done|]. by eapply check_read_fails.
  - eexists _, _, _. split; [reflexivity|]. cbn. rewrite <- !app_assoc.
    split; [done|]. split; [done|]. by eapply check_compares.
Qed.

Lemma check_steps_no_panic src (w : W E) cc r :
  check_steps src w cc r -> r <> Panic.
Proof. by destruct 1. Qed.

Lemma downloadTerraformSourceIfNecessary_run src p cfg s o :
  opts s !! p = Some o ->
  exists s' r tr,
    downloadTerraformSourceIfNecessary src p cfg s = (s', r) /\
    trace s' = trace s ++ tr /\
    download_steps src cfg o (registry_of (maps s) (getter_Getters s))
      (world s) tr r (world s') /\
    opts s' !! p = Some o /\
    (forall q o', opts s !! q = Some o' -> opts s' !! q = Some o') /\
    getter_Getters s' = getter_Getters s.
Proof.
  intros Hp.
  destruct (SourceUpdate o) eqn:Hforce.
  1: destruct (os_RemoveAll E (DownloadDir src) (world s)) as [w1 [e|[]]] eqn:Hrm.
  1:{ rewrite (downloadTerraformSourceIfNecessary_removal_fails E src p cfg s o e)
        by (done || by rewrite Hrm).
      unfold after_forced_removal. rewrite Hforce, Hrm. cbn.
      eexists _, _, _. split; [reflexivity|]. cbn.
      split; [done|]. split; [by constructor|]. done. }
  all: rewrite (downloadTerraformSourceIfNecessary_unfold E src p cfg s o)
         by (done || (right; by rewrite Hrm) || by left).
  all: assert (Hdone : exists pre,
         removal_done o src (world s) pre (world (after_forced_removal o src s)) /\
         trace (after_forced_removal o src s) = trace s ++ pre)
         by (unfold after_forced_removal, removal_done; rewrite Hforce, ?Hrm; cbn;
             eexists; split; [(by right) || (by left)|]; by rewrite ?app_nil_r).
  all: destruct Hdone as (pre & Hdone & Htr1).
  all: destruct (after_forced_removal_store E o src s) as (Ho1 & Hm1 & Hg1).
  all: destruct (alreadyHaveLatestCode_run src p (after_forced_removal o src s))
         as (s2 & r2 & cc & Hcheck & (Hw2 & Ho2 & Hm2 & Hg2) & Htr2 & Hsteps).
  all: rewrite Hcheck.
  all: destruct r2 as [[]|e|]; [| | |by apply check_steps_no_panic in Hsteps].
  all: try (eexists _, _, _; split; [reflexivity|];
            rewrite Htr2, Htr1, <- app_assoc, Hw2, Ho2, Ho1, Hg2, Hg1;
            split; [done|]; split; [by econstructor|]; done).
  all: destruct (fetch_path_run E src p cfg s2 o)
         as (s3 & r & post & Hrun & Hfetch & Htr3 & Ho3 & Hg3);
         [by rewrite Ho2, Ho1|].
  all: rewrite Hrun; eexists _, _, _; split; [reflexivity|].
  all: rewrite Htr3, Htr2, Htr1, <- !app_assoc.
  all: rewrite Hm2, Hm1, Hg2, Hg1, Hw2 in Hfetch.
  all: split; [done|]; split; [by econstructor|].
  all: rewrite Ho3, Hg3, Ho2, Ho1, Hg2, Hg1.
  all: split; [rewrite lookup_app_l; [done|by eapply lookup_lt_Some]|].
  all: split; [|done].
  all: intros q o' Hq; by apply lookup_app_l_Some.
Qed.

Lemma download_steps_no_panic src cfg o g (w w' : W E) tr r :
  download_steps src cfg o g w tr r w' -> r <> Panic.
Proof.
  destruct 1; try done. by eapply fetch_steps_no_panic.
Qed.

Lemma downloadTerraformSource_run source p cfg s o :
  opts s !! p = Some o ->
  exists s' r tr,
    downloadTerraformSource source p cfg s = (s', r) /\
    trace s' = trace s ++ tr /\
    acquire_steps source cfg o (registry_of (maps s) (getter_Getters s))
      (world s) tr r (world s') /\
    (forall e, r = Err e -> opts s' !! p = Some o) /\
    (forall src, r = Ok tt ->
       config_ProcessTerraformSource E source o = inr src ->
       opts s' !! p = Some (set_WorkingDir o (config.WorkingDir src))).
Proof.
  intros Hp.
  rewrite (downloadTerraformSource_unfold E source p cfg s o Hp).
  destruct (config_ProcessTerraformSource E source o) as [e|src] eqn:Hres.
  { exists s, (Err e), []. rewrite app_nil_r.
    split; [done|]. split; [done|]. split; [by constructor|]. done. }
  destruct (downloadTerraformSourceIfNecessary_run src p cfg s o Hp)
    as (s1 & r1 & tr & Hrun & Htr & Hsteps & Hp1 & _ & _).
  rewrite Hrun. destruct r1 as [[]|e|].
  - rewrite (overlay_run E src p s1 o Hp1). cbn.
    destruct (util_CopyFolderContents E _ _ _ (world s1)) as [w2 res] eqn:Hcopy.
    eexists _, _, _. split; [reflexivity|]. cbn.
    rewrite Htr, <- app_assoc. split; [done|].
    split; [by eapply acquire_overlay|].
    destruct res as [e|[]]; cbn.
    + split; [by intros|]. done.
    + split; [done|]. intros src' _ [= <-].
      apply list_lookup_insert_eq. by eapply lookup_lt_Some.
  - eexists _, _, _. split; [reflexivity|]. split; [done|].
    split; [by eapply acquire_download_fails|]. split; [by intros|]. done.
  - by apply download_steps_no_panic in Hsteps.
Qed.

End StepsOfTheCode.

(** ** Errors and numbers of calls, read off the step relations *)

Lemma count_app P tr1 tr2 : count P (tr1 ++ tr2) = count P tr1 + count P tr2.
Proof. unfold count. by rewrite List.filter_app, length_app. Qed.

Lemma errors_propagate_clean tr :
  errors_propagate tr None -> Forall (fun ev => event_error ev = None) tr.
Proof.
  intros [Hin _]. apply Forall_forall. intros ev Hev.
  destruct (event_error ev) as [e|] eqn:He; [|done].
  by destruct (Hin ev e Hev He) as [_ ?].
Qed.

Lemma errors_propagate_app tr1 tr2 returned :
  Forall (fun ev => event_error ev = None) tr1 ->
  errors_propagate tr2 returned ->
  errors_propagate (tr1 ++ tr2) returned.
Proof.
  intros Hclean [Hin Hout]. rewrite Forall_forall in Hclean. split.
  - intros ev e Hev He. apply elem_of_app in Hev as [Hev|Hev].
    { apply Hclean in Hev. congruence. }
    destruct (Hin ev e Hev He) as [Hlast ->]. split; [|done].
    rewrite last_app, Hlast. done.
  - intros e' He'. destruct (Hout e' He') as (ev & e & Hlast & He & ->).
    exists ev, e. rewrite last_app, Hlast. done.
Qed.

Lemma errors_propagate_nil : errors_propagate [] None.
Proof. split; [by intros ? ? ?%elem_of_nil|done]. Qed.

Section Relations.

Context (E : Env).

Implicit Types (src : TerraformSource) (o : TerragruntOptions).

Lemma check_steps_calls src (w : W E) cc r :
  check_steps src w cc r ->
  errors_propagate cc (outcome_error r) /\
  count is_removal cc = 0 /\ count is_cache_check cc <= 5 /\
  count is_hook cc = 0 /\ count is_backend_call cc = 0 /\
  count is_marker_write cc = 0 /\ count is_overlay cc = 0.
Proof.
  unfold errors_propagate, count.
  destruct 1; cbn; (split; [|lia]).
  all: split; [intros ev e' Hev He; elems; subst; cbn in He; try done;
               injection He as <-; done|].
  all: intros e' [= <-] || intros e' [=]; eexists _, _; done.
Qed.

Lemma fetch_steps_calls src cfg oc g (w w' : W E) post r :
  fetch_steps src cfg oc g w post r w' ->
  errors_propagate post (outcome_error r) /\
  count is_removal post = 0 /\ count is_cache_check post = 0 /\
  count is_hook post <= 2 /\ count is_backend_call post <= 1 /\
  count is_marker_write post <= 1 /\ count is_overlay post = 0.
Proof.
  unfold errors_propagate, count.
  destruct 1 as [w w1 e Hb|w w1 w2 e Hb Hf|w w1 w2 w3 e Hb Hf Ha
                |w w1 w2 w3 w4 res Hb Hf Ha Hw];
    cbn; (split; [|lia]).
  4: destruct res as [e|[]]; cbn.
  all: split; [intros ev e' Hev He; elems; subst; cbn in He; try done;
               injection He as <-; done|].
  all: intros e' [= <-] || intros e' [=]; eexists _, _; done.
Qed.

Lemma removal_done_calls o src (w w1 : W E) pre :
  removal_done o src w pre w1 ->
  Forall (fun ev => event_error ev = None) pre /\
  count is_removal pre <= 1 /\ count is_cache_check pre = 0 /\
  count is_hook pre = 0 /\ count is_backend_call pre = 0 /\
  count is_marker_write pre = 0 /\ count is_overlay pre = 0.
Proof.
  unfold count. intros [(_ & -> & _)|(_ & _ & ->)]; cbn;
    (split; [repeat constructor|lia]).
Qed.

Lemma download_steps_calls src cfg o g (w w' : W E) tr r :
  download_steps src cfg o g w tr r w' ->
  errors_propagate tr (outcome_error r) /\
  count is_removal tr <= 1 /\ count is_cache_check tr <= 5 /\
  count is_hook tr <= 2 /\ count is_backend_call tr <= 1 /\
  count is_marker_write tr <= 1 /\ count is_overlay tr = 0.
Proof.
  destruct 1 as [w w1 e Hforce Hrm|w pre w1 cc e Hpre Hcc|w pre w1 cc Hpre Hcc
                |w pre w1 cc post r w2 Hpre Hcc Hpost].
  - unfold errors_propagate, count. cbn. split; [|lia]. split.
    + intros ev e' Hev He. elems. subst. cbn in He. by injection He as <-.
    + intros e' [= <-]. eexists _, _. done.
  - destruct (removal_done_calls _ _ _ _ _ Hpre) as (Hclean & ?).
    destruct (check_steps_calls _ _ _ _ Hcc) as (Herr & ?).
    rewrite !count_app. split; [|lia]. by apply errors_propagate_app.
  - destruct (removal_done_calls _ _ _ _ _ Hpre) as (Hclean & ?).
    destruct (check_steps_calls _ _ _ _ Hcc) as (Herr & ?).
    rewrite !count_app. split; [|lia]. by apply errors_propagate_app.
  - destruct (removal_done_calls _ _ _ _ _ Hpre) as (Hclean & ?).
    destruct (check_steps_calls _ _ _ _ Hcc) as (Herr & ?).
    destruct (fetch_steps_calls _ _ _ _ _ _ _ _ Hpost) as (Herr' & ?).
    rewrite !count_app. split; [|lia].
    apply errors_propagate_app; [done|].
    apply errors_propagate_app; [|done].
    by apply errors_propagate_clean.
Qed.

End Relations.

(** ** The source URL, the cache check and the registry *)

Section FurtherCacheCheck.

Context (E : Env).

Implicit Types (s : State E) (src : TerraformSource) (o : TerragruntOptions).

(** X1. [getTerraformSourceUrl] prefers the source of the options: when
    that is not empty it is returned, whatever the configuration says;
    otherwise the source of the configuration, if it has a [terraform]
    block with one. The answer is the empty string exactly when neither
    names a source. The state is left as it is. *)
Theorem getTerraformSourceUrl_prefers_options p cfg s o :
  opts s !! p = Some o ->
  let configured :=
    match Terraform cfg with
    | Some tf => default "" (config.Source tf)
    | None => ""
    end in
  exists url,
    getTerraformSourceUrl p cfg s = (s, Ok url) /\
    (options.Source o <> "" -> url = options.Source o) /\
    (options.Source o = "" -> url = configured) /\
    (url = "" <-> options.Source o = "" /\ configured = "").
Proof.
  intros Hp configured. unfold getTerraformSourceUrl, bind, deref, ret.
  rewrite Hp. subst configured.
  destruct (String.eqb_spec (options.Source o) "") as [Heq|Hne]; cbn.
  - destruct (Terraform cfg) as [[[u|]]|]; cbn;
      eexists; (split; [reflexivity|]); rewrite Heq; tauto.
  - eexists. split; [reflexivity|]. tauto.
Qed.

(** X2. The cache check answers true in exactly one situation: the source
    is remote, the download directory, the working directory and the
    marker exist, the glob finds at least one file, and the marker reads
    back the fingerprint of the current URL. *)
Theorem alreadyHaveLatestCode_true_iff_cache_valid src p s :
  (alreadyHaveLatestCode src p s).2 = Ok true <-> cache_valid src (world s).
Proof.
  split.
  - apply alreadyHaveLatestCode_true_inv.
  - apply alreadyHaveLatestCode_valid.
Qed.

(** X3. For a remote source, when the download directory, the working
    directory or the marker is missing, the cache check answers false
    without an error. It has made existence tests only, three at most:
    the glob and the read of the marker are not reached. *)
Theorem missing_path_answers_false_early src p s :
  config_IsLocalSource E (CanonicalSourceURL src) = false ->
  util_FileExists E (DownloadDir src) (world s) = false \/
  util_FileExists E (config.WorkingDir src) (world s) = false \/
  util_FileExists E (VersionFile src) (world s) = false ->
  exists s' cc,
    alreadyHaveLatestCode src p s = (s', Ok false) /\
    same_store s s' /\
    trace s' = trace s ++ cc /\
    List.length cc <= 3 /\
    Forall (fun ev => exists path b, ev = EvFileExists path b) cc /\
    (util_FileExists E (DownloadDir src) (world s) = false ->
       cc = [EvFileExists (DownloadDir src) false]).
Proof.
  intros Hloc Hmissing.
  destruct (alreadyHaveLatestCode_run E src p s)
    as (s' & r & cc & Hrun & Hstore & Htr & Hsteps).
  exists s', cc.
  inversion Hsteps; subst; try congruence.
  all: try (exfalso; destruct Hmissing as [|[|]]; congruence).
  all: split; [done|]; split; [done|]; split; [done|]; split; [cbn; lia|].
  all: split; [repeat constructor; eauto|].
  all: intros; congruence.
Qed.

(** X4. A working directory in which the glob finds nothing makes the
    cache check answer false after the glob: the marker is not read, so
    the answer is the same whether or not it could be. *)
Theorem no_tf_files_marker_not_read src p s :
  config_IsLocalSource E (CanonicalSourceURL src) = false ->
  util_FileExists E (DownloadDir src) (world s) = true ->
  util_FileExists E (config.WorkingDir src) (world s) = true ->
  util_FileExists E (VersionFile src) (world s) = true ->
  filepath_Glob E (config.WorkingDir src +:+ "/*.tf") (world s) = inr [] ->
  exists s',
    alreadyHaveLatestCode src p s = (s', Ok false) /\
    same_store s s' /\
    trace s' = trace s ++
      [EvFileExists (DownloadDir src) true;
       EvFileExists (config.WorkingDir src) true;
       EvFileExists (VersionFile src) true;
       EvGlob (config.WorkingDir src +:+ "/*.tf") (inr [])].
Proof.
  intros Hloc Hd Hw Hv Hg.
  destruct (alreadyHaveLatestCode_run E src p s)
    as (s' & r & cc & Hrun & Hstore & Htr & Hsteps).
  exists s'. inversion Hsteps; subst; try congruence. done.
Qed.

(** X5. [copyFiles] does not look at the client it is given: whatever
    backends the client had, it leaves with the same new map. It returns
    nil in every state and does not panic; with getter.Getters nil the
    client gets an empty map, not a nil one. *)
Theorem copyFiles_discards_client_backends client client' s :
  copyFiles client s = copyFiles client' s /\
  exists s' fresh,
    copyFiles client s = (s', Ok {| Getters := Some fresh |}) /\
    is_Some (maps s' !! fresh) /\
    (getter_Getters s = None -> maps s' !! fresh = Some ∅).
Proof.
  rewrite !copyFiles_run. split; [done|].
  eexists _, _. split; [reflexivity|]. cbn. rewrite lookup_snoc.
  split; [done|]. intros ->. unfold registry_of, with_file_copy.
  by rewrite map_imap_empty.
Qed.

(** X6. [downloadSource] makes one call, the transfer into the download
    directory from the canonical URL, with the registry of [copyFiles]:
    under "file" there is [FileCopyGetter] or nothing, never the backend
    of go-getter. An error of the transfer is returned wrapped by
    errors.WithStackTrace. The options and the default map are left
    alone. *)
Theorem downloadSource_one_transfer_with_copy_backend src p cfg s :
  (forall a, getter_Getters s = Some a -> a < List.length (maps s)) ->
  let g := with_file_copy (map_contents s (getter_Getters s)) in
  exists s' res,
    downloadSource src p cfg s =
      (s', match res with inl e => Err (WithStackTrace e) | inr _ => Ok tt end) /\
    getter_fetch E (DownloadDir src) (CanonicalSourceURL src) g (world s)
      = (world s', res) /\
    trace s' = trace s ++
      [EvFetch (DownloadDir src) (CanonicalSourceURL src) g res] /\
    (g !! "file" = None \/ g !! "file" = Some FileCopyGetter) /\
    dom g = dom (map_contents s (getter_Getters s)) /\
    opts s' = opts s /\
    getter_Getters s' = getter_Getters s /\
    map_contents s' (getter_Getters s') = map_contents s (getter_Getters s).
Proof.
  intros Hvalid g.
  assert (Hreg : registry_of (maps s) (getter_Getters s) = g).
  { unfold g, map_contents.
    destruct (getter_Getters s) as [a|] eqn:Hg; [|done].
    by apply registry_of_allocated, Hvalid. }
  rewrite downloadSource_run, Hreg. cbn.
  destruct (getter_fetch E _ _ g (world s)) as [w' res] eqn:Hfetch.
  exists {| world := w'; opts := opts s; maps := maps s ++ [g];
            getter_Getters := getter_Getters s;
            trace := trace s ++
              [EvFetch (DownloadDir src) (CanonicalSourceURL src) g res] |}, res.
  cbn. split; [by destruct res as [e|[]]|].
  split; [done|]. split; [done|].
  split.
  { unfold g. rewrite with_file_copy_lookup.
    destruct (map_contents s (getter_Getters s) !! "file"); cbn; auto. }
  split.
  { apply set_eq. intros name. unfold g.
    rewrite !elem_of_dom, with_file_copy_lookup. by rewrite fmap_is_Some. }
  split; [done|]. split; [done|].
  unfold map_contents. cbn. destruct (getter_Getters s) as [a|] eqn:Hg; [|done].
  by rewrite lookup_app_l by auto.
Qed.

End FurtherCacheCheck.

(** ** The conditional download and the acquisition *)

Section FurtherOrchestrator.

Context (E : Env).

Implicit Types (s : State E) (src : TerraformSource) (o : TerragruntOptions).

(** X7. A cache hit only reads: with the update not forced and the cache
    valid, [downloadTerraformSourceIfNecessary] makes the three existence
    tests, the glob and the read of the marker, in that order, and returns
    nil. The world, the heap of options (no clone is allocated) and the
    maps are what they were. *)
Theorem cache_hit_only_reads src p cfg s o :
  opts s !! p = Some o ->
  SourceUpdate o = false ->
  cache_valid src (world s) ->
  exists s' tfFiles,
    downloadTerraformSourceIfNecessary src p cfg s = (s', Ok tt) /\
    same_store s s' /\
    trace s' = trace s ++
      [EvFileExists (DownloadDir src) true;
       EvFileExists (config.WorkingDir src) true;
       EvFileExists (VersionFile src) true;
       EvGlob (config.WorkingDir src +:+ "/*.tf") (inr tfFiles);
       EvReadVersionFile src
         (inr (config_EncodeSourceVersion E (CanonicalSourceURL src)))].
Proof.
  intros Hp Hforce (Hloc & Hd & Hw & Hv & (tfFiles & Hg & Hne) & Hr).
  rewrite (downloadTerraformSourceIfNecessary_unfold E src p cfg s o Hp)
    by by left.
  unfold after_forced_removal. rewrite Hforce.
  destruct (alreadyHaveLatestCode_run E src p s)
    as (s' & r & cc & Hrun & Hstore & Htr & Hsteps).
  rewrite Hrun. exists s', tfFiles.
  inversion Hsteps; subst; try congruence.
  replace previousVersion
    with (config_EncodeSourceVersion E (CanonicalSourceURL src)) in * by congruence.
  rewrite String.eqb_refl.
  replace tfFiles0 with tfFiles in * by congruence. done.
Qed.

Lemma check_steps_true src (w : W E) cc :
  check_steps src w cc (Ok true) -> cache_valid src w.
Proof.
  intros Hc. remember (Ok true) as r eqn:Hr.
  destruct Hc as [| | | | | | |tfFiles v Hloc Hd Hw Hv Hg Hne Hread];
    try discriminate.
  injection Hr as Hr. apply String.eqb_eq in Hr. subst v.
  unfold cache_valid. eauto 10.
Qed.

(** X8. Nothing stale is served: when [downloadTerraformSourceIfNecessary]
    returns nil without having called the fetch backend, the cache is
    valid in the world it leaves; in particular the marker reads back the
    fingerprint of the current URL. *)
Theorem no_transfer_only_with_valid_cache src p cfg s o s' tr :
  opts s !! p = Some o ->
  downloadTerraformSourceIfNecessary src p cfg s = (s', Ok tt) ->
  trace s' = trace s ++ tr ->
  count is_backend_call tr = 0 ->
  cache_valid src (world s') /\
  (SourceUpdate o = false -> world s' = world s).
Proof.
  intros Hp Hrun Htr Hcount.
  destruct (downloadTerraformSourceIfNecessary_run E src p cfg s o Hp)
    as (s0 & r & tr0 & Hrun0 & Htr0 & Hsteps & _).
  rewrite Hrun in Hrun0. injection Hrun0 as <- <-.
  rewrite Htr in Htr0. apply app_inv_head in Htr0. subst tr0.
  inversion Hsteps as [|
                      |w pre w1 cc Hpre Hcc
                      |w pre w1 cc post r w2 Hpre Hcc Hpost]; subst.
  - split.
    + by eapply check_steps_true.
    + intros Hforce. destruct Hpre as [(_ & _ & ?)|(? & _)]; [done|congruence].
  - exfalso. rewrite !count_app in Hcount.
    inversion Hpost as [| | |? ? ? ? ? res]; subst.
    unfold count in Hcount. cbn in Hcount. lia.
Qed.

(** X9. A local source is never taken from the cache: with the update not
    forced, [downloadTerraformSourceIfNecessary] makes no call of the
    cache check at all and goes straight into the hook-wrapped download,
    whatever the download directory holds. *)
Theorem local_source_download_not_skipped src p cfg s o :
  opts s !! p = Some o ->
  SourceUpdate o = false ->
  config_IsLocalSource E (CanonicalSourceURL src) = true ->
  exists s' r post res,
    downloadTerraformSourceIfNecessary src p cfg s = (s', r) /\
    trace s' = trace s ++ post /\
    fetch_steps src cfg (download_options E o)
      (registry_of (maps s) (getter_Getters s)) (world s) post r (world s') /\
    head post = Some (EvProcessHooks BeforeHooks (download_options E o) res).
Proof.
  intros Hp Hforce Hloc.
  destruct (downloadTerraformSourceIfNecessary_run E src p cfg s o Hp)
    as (s' & r & tr & Hrun & Htr & Hsteps & _).
  assert (Hpre : forall pre w1, removal_done o src (world s) pre w1 ->
                   pre = [] /\ w1 = world s).
  { intros pre w1 [(_ & ? & ?)|(? & _)]; [done|congruence]. }
  assert (Hcheck : forall (w1 : W E) cc rc, check_steps src w1 cc rc ->
                     cc = [] /\ rc = Ok false).
  { intros w1 cc rc Hc. inversion Hc; subst; (done || congruence). }
  inversion Hsteps as [|w pre w1 cc e Hp' Hcc
                      |w pre w1 cc Hp' Hcc
                      |w pre w1 cc post r' w2 Hp' Hcc Hpost]; subst.
  - congruence.
  - by destruct (Hcheck _ _ _ Hcc).
  - by destruct (Hcheck _ _ _ Hcc).
  - destruct (Hpre _ _ Hp') as [-> ->]. destruct (Hcheck _ _ _ Hcc) as [-> _].
    destruct (fetch_steps_trace E _ _ _ _ _ _ _ _ Hpost)
      as (_ & _ & _ & _ & _ & [res Hhead] & _).
    exists s', r, post, res. done.
Qed.

Lemma acquire_steps_calls source cfg o g (w w' : W E) tr r :
  acquire_steps source cfg o g w tr r w' ->
  ((forall ev e, ev ∈ tr -> event_error ev = Some e ->
      last tr = Some ev /\ r = Err (returned_for ev e)) /\
   (forall e', r = Err e' ->
      (tr = [] /\ config_ProcessTerraformSource E source o = inl e') \/
      exists ev e, last tr = Some ev /\ event_error ev = Some e /\
                   e' = returned_for ev e)) /\
  count is_removal tr <= 1 /\ count is_cache_check tr <= 5 /\
  count is_hook tr <= 2 /\ count is_backend_call tr <= 1 /\
  count is_marker_write tr <= 1 /\ count is_overlay tr <= 1.
Proof.
  destruct 1 as [w e Hres|w src tr e w1 Hres Hsteps|w src tr w1 w2 res Hres Hsteps Hcopy].
  - unfold count. cbn. split; [|lia]. split.
    + by intros ? ? ?%elem_of_nil.
    + intros e' [= <-]. by left.
  - destruct (download_steps_calls E _ _ _ _ _ _ _ _ Hsteps) as ([Hin Hout] & ?).
    split; [|lia]. split.
    + intros ev e0 Hev He. destruct (Hin ev e0 Hev He) as [? [= ->]]. done.
    + intros e' [= <-]. right. by apply Hout.
  - destruct (download_steps_calls E _ _ _ _ _ _ _ _ Hsteps) as (Herr & ?).
    pose proof (errors_propagate_clean _ Herr) as Hclean.
    rewrite !count_app. unfold count in *. cbn. split; [|lia].
    rewrite Forall_forall in Hclean. split.
    + intros ev e0 Hev He. apply elem_of_app in Hev as [Hev|Hev].
      { apply Hclean in Hev. congruence. }
      elems. subst. rewrite last_snoc. split; [done|].
      destruct res as [e|[]]; cbn in *; congruence.
    + intros e' He'. right. destruct res as [e|[]]; cbn in He'; [|done].
      injection He' as <-. eexists _, e. rewrite last_snoc. done.
Qed.

(** X10. No error is swallowed and none is made up. In every acquisition,
    a call that ends in an error is the last call made, and the
    acquisition returns that error, wrapped by errors.WithStackTrace for
    os.RemoveAll, filepath.Glob and the transfer and as it came for the
    others. An acquisition that returns an error either failed to resolve
    its source, having made no call, or ends with the call that gave the
    error; one that returns nil saw no call fail. *)
Theorem acquisition_errors_propagate source p cfg s o :
  opts s !! p = Some o ->
  exists s' r tr,
    downloadTerraformSource source p cfg s = (s', r) /\
    trace s' = trace s ++ tr /\
    (forall ev e, ev ∈ tr -> event_error ev = Some e ->
       last tr = Some ev /\ r = Err (returned_for ev e)) /\
    (forall e', r = Err e' ->
       (tr = [] /\ config_ProcessTerraformSource E source o = inl e') \/
       exists ev e, last tr = Some ev /\ event_error ev = Some e /\
                    e' = returned_for ev e) /\
    (r = Ok tt -> Forall (fun ev => event_error ev = None) tr).
Proof.
  intros Hp.
  destruct (downloadTerraformSource_run E source p cfg s o Hp)
    as (s' & r & tr & Hrun & Htr & Hsteps & _).
  destruct (acquire_steps_calls _ _ _ _ _ _ _ _ Hsteps) as ([Hin Hout] & _).
  exists s', r, tr. split; [done|]. split; [done|]. split; [done|].
  split; [done|].
  intros ->. apply Forall_forall. intros ev Hev.
  destruct (event_error ev) as [e|] eqn:He; [|done].
  by destruct (Hin ev e Hev He) as [_ ?].
Qed.

(** X11. An acquisition makes at most one removal, five calls of the
    cache check, two runs of hooks, one transfer, one write of the marker
    and one overlay. *)
Theorem acquisition_call_counts source p cfg s o :
  opts s !! p = Some o ->
  exists s' r tr,
    downloadTerraformSource source p cfg s = (s', r) /\
    trace s' = trace s ++ tr /\
    count is_removal tr <= 1 /\ count is_cache_check tr <= 5 /\
    count is_hook tr <= 2 /\ count is_backend_call tr <= 1 /\
    count is_marker_write tr <= 1 /\ count is_overlay tr <= 1.
Proof.
  intros Hp.
  destruct (downloadTerraformSource_run E source p cfg s o Hp)
    as (s' & r & tr & Hrun & Htr & Hsteps & _).
  destruct (acquire_steps_calls _ _ _ _ _ _ _ _ Hsteps) as (_ & Hcounts).
  exists s', r, tr. done.
Qed.

Lemma download_steps_removal src cfg o g (w w' : W E) tr r :
  download_steps src cfg o g w tr r w' ->
  (SourceUpdate o = false -> count is_removal tr = 0) /\
  (SourceUpdate o = true ->
     exists res tl, tr = EvRemoveAll (DownloadDir src) res :: tl /\
                    count is_removal tl = 0).
Proof.
  assert (Hfront : forall pre w1 rest,
            removal_done o src w pre w1 -> count is_removal rest = 0 ->
            (SourceUpdate o = false -> count is_removal (pre ++ rest) = 0) /\
            (SourceUpdate o = true ->
               exists res tl, pre ++ rest = EvRemoveAll (DownloadDir src) res :: tl /\
                              count is_removal tl = 0)).
  { intros pre w1 rest [(Hf & -> & _)|(Hf & _ & ->)] Hrest; cbn.
    - split; [done|congruence].
    - split; [congruence|]. intros _. by eexists _, _. }
  destruct 1 as [w w1 e Hforce Hrm|w pre w1 cc e Hpre Hcc|w pre w1 cc Hpre Hcc
                |w pre w1 cc post r w2 Hpre Hcc Hpost].
  - split; [congruence|]. intros _. by eexists _, [].
  - eapply Hfront; [done|]. by destruct (check_steps_calls E _ _ _ _ Hcc) as (_ & ? & _).
  - eapply Hfront; [done|]. by destruct (check_steps_calls E _ _ _ _ Hcc) as (_ & ? & _).
  - eapply Hfront; [done|]. rewrite count_app.
    destruct (check_steps_calls E _ _ _ _ Hcc) as (_ & -> & _).
    by destruct (fetch_steps_calls E _ _ _ _ _ _ _ _ Hpost) as (_ & -> & _).
Qed.

(** X12. The download directory is removed only when the update is
    forced: without the flag no acquisition calls os.RemoveAll; with it,
    once the source is resolved, the removal of the download directory is
    the first call and the only removal. *)
Theorem removal_only_when_forced source p cfg s o :
  opts s !! p = Some o ->
  exists s' r tr,
    downloadTerraformSource source p cfg s = (s', r) /\
    trace s' = trace s ++ tr /\
    (SourceUpdate o = false -> count is_removal tr = 0) /\
    (SourceUpdate o = true ->
     forall src, config_ProcessTerraformSource E source o = inr src ->
       exists res tl, tr = EvRemoveAll (DownloadDir src) res :: tl /\
                      count is_removal tl = 0).
Proof.
  intros Hp.
  destruct (downloadTerraformSource_run E source p cfg s o Hp)
    as (s' & r & tr & Hrun & Htr & Hsteps & _).
  exists s', r, tr. split; [done|]. split; [done|].
  destruct Hsteps as [w e Hres|w src tr e w1 Hres Hsteps
                     |w src tr w1 w2 res Hres Hsteps Hcopy].
  - split; [done|]. intros _ src. congruence.
  - destruct (download_steps_removal _ _ _ _ _ _ _ _ Hsteps) as [Hno Hyes].
    split; [done|]. intros Hforce src' Hres'.
    replace src' with src by congruence. auto.
  - destruct (download_steps_removal _ _ _ _ _ _ _ _ Hsteps) as [Hno Hyes].
    split.
    + intros Hforce. rewrite count_app, (Hno Hforce). done.
    + intros Hforce src' Hres'. replace src' with src by congruence.
      destruct (Hyes Hforce) as (res' & tl & -> & Htl).
      eexists res', _. split; [reflexivity|]. by rewrite count_app, Htl.
Qed.

(** X13. After an acquisition that returned nil the marker holds the
    fingerprint of the canonical URL, for a marker that reads back what
    was written and an overlay that leaves the marker alone: it was either
    found current by the cache check or written by the fetch path, and
    nothing after that touches it. *)
Theorem marker_current_after_acquisition source p cfg s o src s' :
  opts s !! p = Some o ->
  config_ProcessTerraformSource E source o = inr src ->
  marker_reads_back E src ->
  overlay_keeps_marker E o src ->
  downloadTerraformSource source p cfg s = (s', Ok tt) ->
  config_ReadVersionFile E src (world s') =
    inr (config_EncodeSourceVersion E (CanonicalSourceURL src)).
Proof.
  intros Hp Hres Hmarker Hoverlay Hrun.
  rewrite (downloadTerraformSource_unfold E source p cfg s o Hp), Hres in Hrun.
  destruct (downloadTerraformSourceIfNecessary_steps E src p cfg s o Hp)
    as (s1 & r1 & tr & Hrun1 & _ & _ & Hp1 & _ & _).
  rewrite Hrun1 in Hrun. destruct r1 as [[]|e|]; [|done|done].
  rewrite (overlay_run E src p s1 o Hp1) in Hrun. cbn in Hrun.
  injection Hrun as <- _. cbn. rewrite Hoverlay.
  exact (marker_current_after_download E src p cfg s o s1 Hp Hmarker Hrun1).
Qed.

End FurtherOrchestrator.

(** ** The cache check on the in-memory filesystem *)

(** X14. On the in-memory filesystem, for a remote source whose download
    directory, working directory and marker exist and whose working
    directory path has none of the magic bytes of a glob, the cache check
    answers true exactly when the working directory is a directory with
    an entry directly inside it whose name ends in [.tf] and the marker
    holds the fingerprint of the current URL. *)
Theorem plain_path_cache_hit_iff_tf_entry_and_marker (P : mem.Params) src p
    (s : State (mem.env P)) :
  mem.IsLocalSource (CanonicalSourceURL src) = false ->
  mem.FileExists (DownloadDir src) (world s) = true ->
  mem.FileExists (config.WorkingDir src) (world s) = true ->
  mem.FileExists (VersionFile src) (world s) = true ->
  filepath.hasMeta (config.WorkingDir src) = false ->
  (alreadyHaveLatestCode src p s).2 = Ok true <->
  ((world s : gmap string Node) !! config.WorkingDir src = Some Dir /\
   (exists stem,
      contains "/" stem = false /\
      is_Some ((world s : gmap string Node)
                 !! filepath.Join (config.WorkingDir src) (stem +:+ ".tf"))) /\
   mem.ReadVersionFile src (world s) =
     inr (mem.encode P (CanonicalSourceURL src))).
Proof.
  intros Hloc Hd Hwd Hv Hm.
  assert (Hne : config.WorkingDir src <> "").
  { intros Heq. unfold mem.FileExists in Hwd. by rewrite Heq in Hwd. }
  destruct (Glob_working_dir_elem (config.WorkingDir src) (world s) Hm Hne)
    as (tfFiles & Hglob & Helem).
  split.
  - intros Htrue. apply alreadyHaveLatestCode_true_inv in Htrue
      as (_ & _ & _ & _ & (tfFiles' & Hglob' & Hnonempty) & Hread).
    cbn in Hglob', Hread. rewrite Hglob in Hglob'. injection Hglob' as <-.
    destruct tfFiles as [|path tfFiles]; [done|].
    destruct (proj1 (Helem path)) as (Hdir & stem & Hstem & -> & Hsome);
      [by left|].
    eauto 10.
  - intros (Hdir & (stem & Hstem & Hsome) & Hread).
    apply alreadyHaveLatestCode_valid. unfold cache_valid. cbn.
    do 4 (split; [done|]). split; [|done].
    exists tfFiles. split; [done|]. intros ->.
    eapply elem_of_nil. apply Helem. eauto 10.
Qed.

(** * The further properties at the data of the scenario *)

Lemma getTerraformSourceUrl_prefers_options_witness :
  let P := scenario.params scenario.module_tf in
  let s := scenario.start P scenario.fs_empty_cache scenario.opts0 in
  exists url,
    getTerraformSourceUrl 0 scenario.cfg s = (s, Ok url) /\
    (options.Source scenario.opts0 <> "" -> url = options.Source scenario.opts0) /\
    (options.Source scenario.opts0 = "" -> url = scenario.url) /\
    (url = "" <-> options.Source scenario.opts0 = "" /\ scenario.url = "").
Proof.
  intros P s.
  apply (getTerraformSourceUrl_prefers_options (mem.env P) 0 scenario.cfg s
           scenario.opts0).
  reflexivity.
Defined.

Lemma missing_path_answers_false_early_witness :
  let P := scenario.params scenario.module_tf in
  let s := scenario.start P scenario.fs_empty_cache scenario.opts0 in
  let src := scenario.src in
  exists s' cc,
    alreadyHaveLatestCode src 0 s = (s', Ok false) /\
    same_store s s' /\
    trace s' = trace s ++ cc /\
    List.length cc <= 3 /\
    Forall (fun ev => exists path b, ev = EvFileExists path b) cc /\
    (mem.FileExists (DownloadDir src) (world s) = false ->
       cc = [EvFileExists (DownloadDir src) false]).
Proof.
  intros P s src.
  apply (missing_path_answers_false_early (mem.env P) src 0 s).
  - reflexivity.
  - left. reflexivity.
Defined.

Lemma no_tf_files_marker_not_read_witness :
  let P := scenario.params scenario.module_json in
  let fs : gmap string Node :=
    list_to_map
      [("/cache", Dir); ("/cache/k1", Dir); ("/cache/k1/mod", Dir);
       ("/cache/k1/mod/main.tf.json", File "{}");
       ("/cache/k1/.terragrunt-source-version", Dir)] in
  let s := scenario.start P fs scenario.opts0 in
  let src := scenario.src in
  exists s',
    alreadyHaveLatestCode src 0 s = (s', Ok false) /\
    same_store s s' /\
    trace s' = trace s ++
      [EvFileExists (DownloadDir src) true;
       EvFileExists (config.WorkingDir src) true;
       EvFileExists (VersionFile src) true;
       EvGlob (config.WorkingDir src +:+ "/*.tf") (inr [])].
Proof.
  intros P fs s src.
  apply (no_tf_files_marker_not_read (mem.env P) src 0 s).
  - reflexivity.
  - reflexivity.
  - reflexivity.
  - reflexivity.
  - vm_compute. reflexivity.
Defined.

Lemma downloadSource_one_transfer_with_copy_backend_witness :
  let P := scenario.params scenario.module_tf in
  let s := scenario.start P scenario.fs_empty_cache scenario.opts0 in
  let src := scenario.src in
  let g := with_file_copy (map_contents s (getter_Getters s)) in
  exists s' res,
    downloadSource src 0 scenario.cfg s =
      (s', match res with inl e => Err (WithStackTrace e) | inr _ => Ok tt end) /\
    mem.fetch (mem.remote P) (DownloadDir src) (CanonicalSourceURL src) g (world s)
      = (world s', res) /\
    trace s' = trace s ++
      [EvFetch (DownloadDir src) (CanonicalSourceURL src) g res] /\
    (g !! "file" = None \/ g !! "file" = Some FileCopyGetter) /\
    dom g = dom (map_contents s (getter_Getters s)) /\
    opts s' = opts s /\
    getter_Getters s' = getter_Getters s /\
    map_contents s' (getter_Getters s') = map_contents s (getter_Getters s).
Proof.
  intros P s src g.
  apply (downloadSource_one_transfer_with_copy_backend (mem.env P) src 0
           scenario.cfg s).
  intros a [= <-]. cbn. lia.
Defined.

Lemma cache_hit_only_reads_witness :
  let P := scenario.params scenario.module_tf in
  let s := scenario.start P scenario.fs_cached scenario.opts0 in
  let src := scenario.src in
  exists s' tfFiles,
    downloadTerraformSourceIfNecessary src 0 scenario.cfg s = (s', Ok tt) /\
    same_store s s' /\
    trace s' = trace s ++
      [EvFileExists (DownloadDir src) true;
       EvFileExists (config.WorkingDir src) true;
       EvFileExists (VersionFile src) true;
       EvGlob (config.WorkingDir src +:+ "/*.tf") (inr tfFiles);
       EvReadVersionFile src (inr (scenario.encode scenario.url))].
Proof.
  intros P s src.
  apply (cache_hit_only_reads (mem.env P) src 0 scenario.cfg s scenario.opts0).
  - reflexivity.
  - reflexivity.
  - split; [reflexivity|]. split; [reflexivity|]. split; [reflexivity|].
    split; [reflexivity|]. split; [|reflexivity].
    exists ["/cache/k1/mod/main.tf"]. split; [vm_compute; reflexivity|discriminate].
Defined.

Lemma no_transfer_only_with_valid_cache_witness :
  let P := scenario.params scenario.module_tf in
  let s := scenario.start P scenario.fs_cached scenario.opts0 in
  let src := scenario.src in
  let s' := (downloadTerraformSourceIfNecessary src 0 scenario.cfg s).1 in
  cache_valid src (world s') /\
  (SourceUpdate scenario.opts0 = false -> world s' = world s).
Proof.
  intros P s src s'.
  apply (no_transfer_only_with_valid_cache (mem.env P) src 0 scenario.cfg s
           scenario.opts0 s' (trace s')).
  - reflexivity.
  - vm_compute. reflexivity.
  - reflexivity.
  - vm_compute. reflexivity.
Defined.

Lemma local_source_download_not_skipped_witness :
  let P := scenario.params scenario.module_tf in
  let s := scenario.start P scenario.fs_cached scenario.opts0 in
  let src := scenario.local_src in
  let o := scenario.opts0 in
  exists s' r post res,
    downloadTerraformSourceIfNecessary src 0 scenario.cfg s = (s', r) /\
    trace s' = trace s ++ post /\
    @fetch_steps (mem.env P) src scenario.cfg (download_options (mem.env P) o)
      (registry_of (maps s) (getter_Getters s)) (world s) post r (world s') /\
    head post = Some (EvProcessHooks BeforeHooks (download_options (mem.env P) o) res).
Proof.
  intros P s src o.
  apply (local_source_download_not_skipped (mem.env P) src 0 scenario.cfg s o).
  - reflexivity.
  - reflexivity.
  - reflexivity.
Defined.

Lemma acquisition_errors_propagate_witness :
  let P := scenario.params_failing_hook in
  let s := scenario.start P scenario.fs_empty_cache scenario.opts0 in
  exists s' r tr,
    downloadTerraformSource scenario.url 0 scenario.cfg s = (s', r) /\
    trace s' = trace s ++ tr /\
    (forall ev e, ev ∈ tr -> event_error ev = Some e ->
       last tr = Some ev /\ r = Err (returned_for ev e)) /\
    (forall e', r = Err e' ->
       (tr = [] /\ scenario.resolve scenario.url scenario.opts0 = inl e') \/
       exists ev e, last tr = Some ev /\ event_error ev = Some e /\
                    e' = returned_for ev e) /\
    (r = Ok tt -> Forall (fun ev => event_error ev = None) tr).
Proof.
  intros P s.
  apply (acquisition_errors_propagate (mem.env P) scenario.url 0 scenario.cfg s
           scenario.opts0).
  reflexivity.
Defined.

Lemma acquisition_call_counts_witness :
  let P := scenario.params scenario.module_tf in
  let s := scenario.start P scenario.fs_cached scenario.opts_forced in
  exists s' r tr,
    downloadTerraformSource scenario.url 0 scenario.cfg s = (s', r) /\
    trace s' = trace s ++ tr /\
    count is_removal tr <= 1 /\ count is_cache_check tr <= 5 /\
    count is_hook tr <= 2 /\ count is_backend_call tr <= 1 /\
    count is_marker_write tr <= 1 /\ count is_overlay tr <= 1.
Proof.
  intros P s.
  apply (acquisition_call_counts (mem.env P) scenario.url 0 scenario.cfg s
           scenario.opts_forced).
  reflexivity.
Defined.

Lemma removal_only_when_forced_witness :
  let P := scenario.params scenario.module_tf in
  let s := scenario.start P scenario.fs_cached scenario.opts_forced in
  let o := scenario.opts_forced in
  exists s' r tr,
    downloadTerraformSource scenario.url 0 scenario.cfg s = (s', r) /\
    trace s' = trace s ++ tr /\
    (SourceUpdate o = false -> count is_removal tr = 0) /\
    (SourceUpdate o = true ->
     forall src, scenario.resolve scenario.url o = inr src ->
       exists res tl, tr = EvRemoveAll (DownloadDir src) res :: tl /\
                      count is_removal tl = 0).
Proof.
  intros P s o.
  apply (removal_only_when_forced (mem.env P) scenario.url 0 scenario.cfg s o).
  reflexivity.
Defined.

Lemma marker_current_after_acquisition_witness :
  let P := scenario.params scenario.module_tf in
  let s := scenario.start P scenario.fs_empty_cache scenario.opts0 in
  let s' := (downloadTerraformSource scenario.url 0 scenario.cfg s).1 in
  mem.ReadVersionFile scenario.src (world s') = inr (scenario.encode scenario.url).
Proof.
  intros P s s'.
  apply (marker_current_after_acquisition (mem.env P) scenario.url 0 scenario.cfg
           s scenario.opts0 scenario.src s').
  - reflexivity.
  - reflexivity.
  - apply mem_marker_reads_back.
  - apply mem_overlay_keeps_marker. reflexivity.
  - vm_compute. reflexivity.
Defined.

Lemma plain_path_cache_hit_iff_tf_entry_and_marker_witness :
  let P := scenario.params scenario.module_tf in
  let s := scenario.start P scenario.fs_cached scenario.opts0 in
  let src := scenario.src in
  (alreadyHaveLatestCode src 0 s).2 = Ok true <->
  (scenario.fs_cached !! config.WorkingDir src = Some Dir /\
   (exists stem,
      contains "/" stem = false /\
      is_Some (scenario.fs_cached
                 !! filepath.Join (config.WorkingDir src) (stem +:+ ".tf"))) /\
   mem.ReadVersionFile src scenario.fs_cached =
     inr (scenario.encode (CanonicalSourceURL src))).
Proof.
  intros P s src.
  apply (plain_path_cache_hit_iff_tf_entry_and_marker P src 0 s).
  - reflexivity.
  - reflexivity.
  - reflexivity.
  - reflexivity.
  - reflexivity.
Defined.
